(** * crm_agent: slot templates, compliance, targeting and the stage graph

    A shallow embedding of the Python package [crm_agent] and the properties
    its specification states about it.

    Python [str] values are sequences of Unicode code points, modelled as
    [list N]; literals are written as UTF-8 text and decoded by [u8].
    Dictionaries whose keys are fixed by the code become records with
    optional fields ([None] = key absent); dictionaries with open key sets
    become [gmap]s.  A value that comes from JSON and that the code uses by
    a method of its type, such as the texts of a brief or the fields of an
    answer of the LLM, is kept as the JSON value, and the use raises when
    the type is another.  Code that may raise returns a [result]. *)

From Stdlib Require Import ZArith NArith List Bool Lia.
From Stdlib Require Import Strings.String Strings.Byte Init.Decimal.
From Stdlib Require Import DecimalFacts DecimalPos DecimalN Sorting.Sorted.
From stdpp Require Import base option list gmap.

Import ListNotations.
Local Open Scope N_scope.
Local Open Scope list_scope.

(** ** Python strings *)

Abbreviation pystr := (list N).

Module PyStr.

(** UTF-8 decoding of the bytes of a source literal. *)
Fixpoint utf8_go (bs : list N) (acc : N) (need : nat) : list N :=
  match bs with
  | [] => []
  | b :: r =>
      match need with
      | O =>
          if b <? 128 then b :: utf8_go r 0 O
          else if b <? 224 then utf8_go r (b mod 32) 1%nat
          else if b <? 240 then utf8_go r (b mod 16) 2%nat
          else utf8_go r (b mod 8) 3%nat
      | S O => (acc * 64 + b mod 64) :: utf8_go r 0 O
      | S n => utf8_go r (acc * 64 + b mod 64) n
      end
  end.

Definition u8 (s : string) : pystr :=
  utf8_go (List.map Byte.to_N (list_byte_of_string s)) 0 O.

(** [len(s)] *)
Definition len (s : pystr) : Z := Z.of_nat (length s).

(** [a == b] on strings *)
Definition eqb (a b : pystr) : bool := bool_decide (a = b).

(** [x in xs] for a list or tuple of strings *)
Definition mem (x : pystr) (xs : list pystr) : bool := bool_decide (x ∈ xs).

(** [str.isspace] on one code point: the characters that [str.strip()]
    removes. *)
Definition is_space (c : N) : bool :=
  ((9 <=? c) && (c <=? 13)) || ((28 <=? c) && (c <=? 32))
  || (c =? 133) || (c =? 160) || (c =? 5760)
  || ((8192 <=? c) && (c <=? 8202))
  || (c =? 8232) || (c =? 8233) || (c =? 8239) || (c =? 8287) || (c =? 12288).

Fixpoint lstrip (s : pystr) : pystr :=
  match s with
  | c :: t => if is_space c then lstrip t else s
  | [] => []
  end.

Definition rstrip (s : pystr) : pystr := rev (lstrip (rev s)).

(** [s.strip()] *)
Definition strip (s : pystr) : pystr := rstrip (lstrip s).

(** [s.upper()], as far as the code can tell: it only compares the result
    with ASCII names.  Besides the ASCII letters, the upper case of U+0131
    (dotless i) is [I], that of U+017F (long s) is [S], that of U+00DF is
    [SS] and those of the ligatures U+FB00 to U+FB06 are [FF], [FI], [FL],
    [FFI], [FFL], [ST] and [ST].  Every other code point is kept: its upper
    case, if it has one, has a character outside ASCII. *)
Definition upper1 (c : N) : pystr :=
  if (97 <=? c) && (c <=? 122) then [c - 32]
  else if c =? 305 then [73]
  else if c =? 383 then [83]
  else if c =? 223 then [83; 83]
  else if c =? 64256 then [70; 70]
  else if c =? 64257 then [70; 73]
  else if c =? 64258 then [70; 76]
  else if c =? 64259 then [70; 70; 73]
  else if c =? 64260 then [70; 70; 76]
  else if (c =? 64261) || (c =? 64262) then [83; 84]
  else [c].

Definition upper (s : pystr) : pystr := concat (List.map upper1 s).

(** [s.lower()], whose result the template agent stores.  CPython maps
    every character by the lower-case mapping of the Unicode character
    database, except the capital sigma, which depends on its context.
    The tables are those of version 14.0 of the database, that of
    CPython 3.11. *)

Definition in_ranges (ranges : list (N * N)) (c : N) : bool :=
  existsb (fun r => (r.1 <=? c) && (c <=? r.2)) ranges.

(** The simple lower-case mappings, as runs [(first, last, step, image)]:
    the code points [first], [first + step], ... up to [last] map to
    [image], [image + step], ... *)
Definition lower_runs : list (N * N * N * N) :=
  [ (65, 90, 1, 97); (192, 214, 1, 224); (216, 222, 1, 248);
    (256, 302, 2, 257); (306, 310, 2, 307); (313, 327, 2, 314);
    (330, 374, 2, 331); (376, 376, 1, 255); (377, 381, 2, 378);
    (385, 385, 1, 595); (386, 388, 2, 387); (390, 390, 1, 596);
    (391, 391, 1, 392); (393, 394, 1, 598); (395, 395, 1, 396);
    (398, 398, 1, 477); (399, 399, 1, 601); (400, 400, 1, 603);
    (401, 401, 1, 402); (403, 403, 1, 608); (404, 404, 1, 611);
    (406, 406, 1, 617); (407, 407, 1, 616); (408, 408, 1, 409);
    (412, 412, 1, 623); (413, 413, 1, 626); (415, 415, 1, 629);
    (416, 420, 2, 417); (422, 422, 1, 640); (423, 423, 1, 424);
    (425, 425, 1, 643); (428, 428, 1, 429); (430, 430, 1, 648);
    (431, 431, 1, 432); (433, 434, 1, 650); (435, 437, 2, 436);
    (439, 439, 1, 658); (440, 440, 1, 441); (444, 444, 1, 445);
    (452, 452, 1, 454); (453, 453, 1, 454); (455, 455, 1, 457);
    (456, 456, 1, 457); (458, 458, 1, 460); (459, 475, 2, 460);
    (478, 494, 2, 479); (497, 497, 1, 499); (498, 500, 2, 499);
    (502, 502, 1, 405); (503, 503, 1, 447); (504, 542, 2, 505);
    (544, 544, 1, 414); (546, 562, 2, 547); (570, 570, 1, 11365);
    (571, 571, 1, 572); (573, 573, 1, 410); (574, 574, 1, 11366);
    (577, 577, 1, 578); (579, 579, 1, 384); (580, 580, 1, 649);
    (581, 581, 1, 652); (582, 590, 2, 583); (880, 882, 2, 881);
    (886, 886, 1, 887); (895, 895, 1, 1011); (902, 902, 1, 940);
    (904, 906, 1, 941); (908, 908, 1, 972); (910, 911, 1, 973);
    (913, 929, 1, 945); (931, 939, 1, 963); (975, 975, 1, 983);
    (984, 1006, 2, 985); (1012, 1012, 1, 952); (1015, 1015, 1, 1016);
    (1017, 1017, 1, 1010); (1018, 1018, 1, 1019); (1021, 1023, 1, 891);
    (1024, 1039, 1, 1104); (1040, 1071, 1, 1072); (1120, 1152, 2, 1121);
    (1162, 1214, 2, 1163); (1216, 1216, 1, 1231); (1217, 1229, 2, 1218);
    (1232, 1326, 2, 1233); (1329, 1366, 1, 1377); (4256, 4293, 1, 11520);
    (4295, 4295, 1, 11559); (4301, 4301, 1, 11565); (5024, 5103, 1, 43888);
    (5104, 5109, 1, 5112); (7312, 7354, 1, 4304); (7357, 7359, 1, 4349);
    (7680, 7828, 2, 7681); (7838, 7838, 1, 223); (7840, 7934, 2, 7841);
    (7944, 7951, 1, 7936); (7960, 7965, 1, 7952); (7976, 7983, 1, 7968);
    (7992, 7999, 1, 7984); (8008, 8013, 1, 8000); (8025, 8031, 2, 8017);
    (8040, 8047, 1, 8032); (8072, 8079, 1, 8064); (8088, 8095, 1, 8080);
    (8104, 8111, 1, 8096); (8120, 8121, 1, 8112); (8122, 8123, 1, 8048);
    (8124, 8124, 1, 8115); (8136, 8139, 1, 8050); (8140, 8140, 1, 8131);
    (8152, 8153, 1, 8144); (8154, 8155, 1, 8054); (8168, 8169, 1, 8160);
    (8170, 8171, 1, 8058); (8172, 8172, 1, 8165); (8184, 8185, 1, 8056);
    (8186, 8187, 1, 8060); (8188, 8188, 1, 8179); (8486, 8486, 1, 969);
    (8490, 8490, 1, 107); (8491, 8491, 1, 229); (8498, 8498, 1, 8526);
    (8544, 8559, 1, 8560); (8579, 8579, 1, 8580); (9398, 9423, 1, 9424);
    (11264, 11311, 1, 11312); (11360, 11360, 1, 11361);
    (11362, 11362, 1, 619); (11363, 11363, 1, 7549); (11364, 11364, 1, 637);
    (11367, 11371, 2, 11368); (11373, 11373, 1, 593);
    (11374, 11374, 1, 625); (11375, 11375, 1, 592); (11376, 11376, 1, 594);
    (11378, 11378, 1, 11379); (11381, 11381, 1, 11382);
    (11390, 11391, 1, 575); (11392, 11490, 2, 11393);
    (11499, 11501, 2, 11500); (11506, 11506, 1, 11507);
    (42560, 42604, 2, 42561); (42624, 42650, 2, 42625);
    (42786, 42798, 2, 42787); (42802, 42862, 2, 42803);
    (42873, 42875, 2, 42874); (42877, 42877, 1, 7545);
    (42878, 42886, 2, 42879); (42891, 42891, 1, 42892);
    (42893, 42893, 1, 613); (42896, 42898, 2, 42897);
    (42902, 42920, 2, 42903); (42922, 42922, 1, 614);
    (42923, 42923, 1, 604); (42924, 42924, 1, 609); (42925, 42925, 1, 620);
    (42926, 42926, 1, 618); (42928, 42928, 1, 670); (42929, 42929, 1, 647);
    (42930, 42930, 1, 669); (42931, 42931, 1, 43859);
    (42932, 42946, 2, 42933); (42948, 42948, 1, 42900);
    (42949, 42949, 1, 642); (42950, 42950, 1, 7566);
    (42951, 42953, 2, 42952); (42960, 42960, 1, 42961);
    (42966, 42968, 2, 42967); (42997, 42997, 1, 42998);
    (65313, 65338, 1, 65345); (66560, 66599, 1, 66600);
    (66736, 66771, 1, 66776); (66928, 66938, 1, 66967);
    (66940, 66954, 1, 66979); (66956, 66962, 1, 66995);
    (66964, 66965, 1, 67003); (68736, 68786, 1, 68800);
    (71840, 71871, 1, 71872); (93760, 93791, 1, 93792);
    (125184, 125217, 1, 125218) ].

(** The code points with the property Cased, as ranges. *)
Definition cased_ranges : list (N * N) :=
  [ (65, 90); (97, 122); (170, 170); (181, 181); (186, 186); (192, 214);
    (216, 246); (248, 442); (444, 447); (452, 659); (661, 696); (704, 705);
    (736, 740); (837, 837); (880, 883); (886, 887); (890, 893); (895, 895);
    (902, 902); (904, 906); (908, 908); (910, 929); (931, 1013);
    (1015, 1153); (1162, 1327); (1329, 1366); (1376, 1416); (4256, 4293);
    (4295, 4295); (4301, 4301); (4304, 4346); (4349, 4351); (5024, 5109);
    (5112, 5117); (7296, 7304); (7312, 7354); (7357, 7359); (7424, 7615);
    (7680, 7957); (7960, 7965); (7968, 8005); (8008, 8013); (8016, 8023);
    (8025, 8025); (8027, 8027); (8029, 8029); (8031, 8061); (8064, 8116);
    (8118, 8124); (8126, 8126); (8130, 8132); (8134, 8140); (8144, 8147);
    (8150, 8155); (8160, 8172); (8178, 8180); (8182, 8188); (8305, 8305);
    (8319, 8319); (8336, 8348); (8450, 8450); (8455, 8455); (8458, 8467);
    (8469, 8469); (8473, 8477); (8484, 8484); (8486, 8486); (8488, 8488);
    (8490, 8493); (8495, 8500); (8505, 8505); (8508, 8511); (8517, 8521);
    (8526, 8526); (8544, 8575); (8579, 8580); (9398, 9449); (11264, 11492);
    (11499, 11502); (11506, 11507); (11520, 11557); (11559, 11559);
    (11565, 11565); (42560, 42605); (42624, 42653); (42786, 42887);
    (42891, 42894); (42896, 42954); (42960, 42961); (42963, 42963);
    (42965, 42969); (42997, 42998); (43000, 43002); (43824, 43866);
    (43868, 43880); (43888, 43967); (64256, 64262); (64275, 64279);
    (65313, 65338); (65345, 65370); (66560, 66639); (66736, 66771);
    (66776, 66811); (66928, 66938); (66940, 66954); (66956, 66962);
    (66964, 66965); (66967, 66977); (66979, 66993); (66995, 67001);
    (67003, 67004); (67456, 67456); (67459, 67461); (67463, 67504);
    (67506, 67514); (68736, 68786); (68800, 68850); (71840, 71903);
    (93760, 93823); (119808, 119892); (119894, 119964); (119966, 119967);
    (119970, 119970); (119973, 119974); (119977, 119980); (119982, 119993);
    (119995, 119995); (119997, 120003); (120005, 120069); (120071, 120074);
    (120077, 120084); (120086, 120092); (120094, 120121); (120123, 120126);
    (120128, 120132); (120134, 120134); (120138, 120144); (120146, 120485);
    (120488, 120512); (120514, 120538); (120540, 120570); (120572, 120596);
    (120598, 120628); (120630, 120654); (120656, 120686); (120688, 120712);
    (120714, 120744); (120746, 120770); (120772, 120779); (122624, 122633);
    (122635, 122654); (125184, 125251); (127280, 127305); (127312, 127337);
    (127344, 127369) ].

(** The code points with the property Case_Ignorable, as ranges. *)
Definition case_ignorable_ranges : list (N * N) :=
  [ (39, 39); (46, 46); (58, 58); (94, 94); (96, 96); (168, 168);
    (173, 173); (175, 175); (180, 180); (183, 184); (688, 879); (884, 885);
    (890, 890); (900, 901); (903, 903); (1155, 1161); (1369, 1369);
    (1375, 1375); (1425, 1469); (1471, 1471); (1473, 1474); (1476, 1477);
    (1479, 1479); (1524, 1524); (1536, 1541); (1552, 1562); (1564, 1564);
    (1600, 1600); (1611, 1631); (1648, 1648); (1750, 1757); (1759, 1768);
    (1770, 1773); (1807, 1807); (1809, 1809); (1840, 1866); (1958, 1968);
    (2027, 2037); (2042, 2042); (2045, 2045); (2070, 2093); (2137, 2139);
    (2184, 2184); (2192, 2193); (2200, 2207); (2249, 2306); (2362, 2362);
    (2364, 2364); (2369, 2376); (2381, 2381); (2385, 2391); (2402, 2403);
    (2417, 2417); (2433, 2433); (2492, 2492); (2497, 2500); (2509, 2509);
    (2530, 2531); (2558, 2558); (2561, 2562); (2620, 2620); (2625, 2626);
    (2631, 2632); (2635, 2637); (2641, 2641); (2672, 2673); (2677, 2677);
    (2689, 2690); (2748, 2748); (2753, 2757); (2759, 2760); (2765, 2765);
    (2786, 2787); (2810, 2815); (2817, 2817); (2876, 2876); (2879, 2879);
    (2881, 2884); (2893, 2893); (2901, 2902); (2914, 2915); (2946, 2946);
    (3008, 3008); (3021, 3021); (3072, 3072); (3076, 3076); (3132, 3132);
    (3134, 3136); (3142, 3144); (3146, 3149); (3157, 3158); (3170, 3171);
    (3201, 3201); (3260, 3260); (3263, 3263); (3270, 3270); (3276, 3277);
    (3298, 3299); (3328, 3329); (3387, 3388); (3393, 3396); (3405, 3405);
    (3426, 3427); (3457, 3457); (3530, 3530); (3538, 3540); (3542, 3542);
    (3633, 3633); (3636, 3642); (3654, 3662); (3761, 3761); (3764, 3772);
    (3782, 3782); (3784, 3789); (3864, 3865); (3893, 3893); (3895, 3895);
    (3897, 3897); (3953, 3966); (3968, 3972); (3974, 3975); (3981, 3991);
    (3993, 4028); (4038, 4038); (4141, 4144); (4146, 4151); (4153, 4154);
    (4157, 4158); (4184, 4185); (4190, 4192); (4209, 4212); (4226, 4226);
    (4229, 4230); (4237, 4237); (4253, 4253); (4348, 4348); (4957, 4959);
    (5906, 5908); (5938, 5939); (5970, 5971); (6002, 6003); (6068, 6069);
    (6071, 6077); (6086, 6086); (6089, 6099); (6103, 6103); (6109, 6109);
    (6155, 6159); (6211, 6211); (6277, 6278); (6313, 6313); (6432, 6434);
    (6439, 6440); (6450, 6450); (6457, 6459); (6679, 6680); (6683, 6683);
    (6742, 6742); (6744, 6750); (6752, 6752); (6754, 6754); (6757, 6764);
    (6771, 6780); (6783, 6783); (6823, 6823); (6832, 6862); (6912, 6915);
    (6964, 6964); (6966, 6970); (6972, 6972); (6978, 6978); (7019, 7027);
    (7040, 7041); (7074, 7077); (7080, 7081); (7083, 7085); (7142, 7142);
    (7144, 7145); (7149, 7149); (7151, 7153); (7212, 7219); (7222, 7223);
    (7288, 7293); (7376, 7378); (7380, 7392); (7394, 7400); (7405, 7405);
    (7412, 7412); (7416, 7417); (7468, 7530); (7544, 7544); (7579, 7679);
    (8125, 8125); (8127, 8129); (8141, 8143); (8157, 8159); (8173, 8175);
    (8189, 8190); (8203, 8207); (8216, 8217); (8228, 8228); (8231, 8231);
    (8234, 8238); (8288, 8292); (8294, 8303); (8305, 8305); (8319, 8319);
    (8336, 8348); (8400, 8432); (11388, 11389); (11503, 11505);
    (11631, 11631); (11647, 11647); (11744, 11775); (11823, 11823);
    (12293, 12293); (12330, 12333); (12337, 12341); (12347, 12347);
    (12441, 12446); (12540, 12542); (40981, 40981); (42232, 42237);
    (42508, 42508); (42607, 42610); (42612, 42621); (42623, 42623);
    (42652, 42655); (42736, 42737); (42752, 42785); (42864, 42864);
    (42888, 42890); (42994, 42996); (43000, 43001); (43010, 43010);
    (43014, 43014); (43019, 43019); (43045, 43046); (43052, 43052);
    (43204, 43205); (43232, 43249); (43263, 43263); (43302, 43309);
    (43335, 43345); (43392, 43394); (43443, 43443); (43446, 43449);
    (43452, 43453); (43471, 43471); (43493, 43494); (43561, 43566);
    (43569, 43570); (43573, 43574); (43587, 43587); (43596, 43596);
    (43632, 43632); (43644, 43644); (43696, 43696); (43698, 43700);
    (43703, 43704); (43710, 43711); (43713, 43713); (43741, 43741);
    (43756, 43757); (43763, 43764); (43766, 43766); (43867, 43871);
    (43881, 43883); (44005, 44005); (44008, 44008); (44013, 44013);
    (64286, 64286); (64434, 64450); (65024, 65039); (65043, 65043);
    (65056, 65071); (65106, 65106); (65109, 65109); (65279, 65279);
    (65287, 65287); (65294, 65294); (65306, 65306); (65342, 65342);
    (65344, 65344); (65392, 65392); (65438, 65439); (65507, 65507);
    (65529, 65531); (66045, 66045); (66272, 66272); (66422, 66426);
    (67456, 67461); (67463, 67504); (67506, 67514); (68097, 68099);
    (68101, 68102); (68108, 68111); (68152, 68154); (68159, 68159);
    (68325, 68326); (68900, 68903); (69291, 69292); (69446, 69456);
    (69506, 69509); (69633, 69633); (69688, 69702); (69744, 69744);
    (69747, 69748); (69759, 69761); (69811, 69814); (69817, 69818);
    (69821, 69821); (69826, 69826); (69837, 69837); (69888, 69890);
    (69927, 69931); (69933, 69940); (70003, 70003); (70016, 70017);
    (70070, 70078); (70089, 70092); (70095, 70095); (70191, 70193);
    (70196, 70196); (70198, 70199); (70206, 70206); (70367, 70367);
    (70371, 70378); (70400, 70401); (70459, 70460); (70464, 70464);
    (70502, 70508); (70512, 70516); (70712, 70719); (70722, 70724);
    (70726, 70726); (70750, 70750); (70835, 70840); (70842, 70842);
    (70847, 70848); (70850, 70851); (71090, 71093); (71100, 71101);
    (71103, 71104); (71132, 71133); (71219, 71226); (71229, 71229);
    (71231, 71232); (71339, 71339); (71341, 71341); (71344, 71349);
    (71351, 71351); (71453, 71455); (71458, 71461); (71463, 71467);
    (71727, 71735); (71737, 71738); (71995, 71996); (71998, 71998);
    (72003, 72003); (72148, 72151); (72154, 72155); (72160, 72160);
    (72193, 72202); (72243, 72248); (72251, 72254); (72263, 72263);
    (72273, 72278); (72281, 72283); (72330, 72342); (72344, 72345);
    (72752, 72758); (72760, 72765); (72767, 72767); (72850, 72871);
    (72874, 72880); (72882, 72883); (72885, 72886); (73009, 73014);
    (73018, 73018); (73020, 73021); (73023, 73029); (73031, 73031);
    (73104, 73105); (73109, 73109); (73111, 73111); (73459, 73460);
    (78896, 78904); (92912, 92916); (92976, 92982); (92992, 92995);
    (94031, 94031); (94095, 94111); (94176, 94177); (94179, 94180);
    (110576, 110579); (110581, 110587); (110589, 110590); (113821, 113822);
    (113824, 113827); (118528, 118573); (118576, 118598); (119143, 119145);
    (119155, 119170); (119173, 119179); (119210, 119213); (119362, 119364);
    (121344, 121398); (121403, 121452); (121461, 121461); (121476, 121476);
    (121499, 121503); (121505, 121519); (122880, 122886); (122888, 122904);
    (122907, 122913); (122915, 122916); (122918, 122922); (123184, 123197);
    (123566, 123566); (123628, 123631); (125136, 125142); (125252, 125259);
    (127995, 127999); (917505, 917505); (917536, 917631); (917760, 917999) ].

Definition cased (c : N) : bool := in_ranges cased_ranges c.
Definition case_ignorable (c : N) : bool := in_ranges case_ignorable_ranges c.

(** The lower case of one character: U+0130 becomes [i] and a combining
    dot, a character of a run its image, any other character itself. *)
Definition to_lower (c : N) : pystr :=
  if c =? 304 then [105; 775]
  else
    match List.find (fun r => let '(first, last, step, _) := r in
                        (first <=? c) && (c <=? last)
                        && ((c - first) mod step =? 0)) lower_runs with
    | Some (first, _, _, image) => [image + (c - first)]
    | None => [c]
    end.

Fixpoint skip_ignorable (s : pystr) : pystr :=
  match s with
  | c :: t => if case_ignorable c then skip_ignorable t else s
  | [] => []
  end.

(** A capital sigma is final when a cased character comes before it and
    none after it, case-ignorable characters not counting.  [before] is
    the text before the sigma, backwards. *)
Definition final_sigma (before after : pystr) : bool :=
  match skip_ignorable before with
  | c :: _ =>
      cased c && match skip_ignorable after with
                 | d :: _ => negb (cased d)
                 | [] => true
                 end
  | [] => false
  end.

Fixpoint lower_go (before s : pystr) : pystr :=
  match s with
  | [] => []
  | c :: t =>
      (if c =? 931 then [if final_sigma before t then 962 else 963]
       else to_lower c) ++ lower_go (c :: before) t
  end.

Definition lower (s : pystr) : pystr := lower_go [] s.

(** [s.startswith(p)] *)
Fixpoint startswith (s p : pystr) {struct p} : bool :=
  match p, s with
  | [], _ => true
  | a :: p', b :: s' => (a =? b) && startswith s' p'
  | _ :: _, [] => false
  end.

(** [s.endswith(p)] *)
Definition endswith (s p : pystr) : bool := startswith (rev s) (rev p).

(** [sub in s] *)
Fixpoint contains (sub s : pystr) : bool :=
  startswith s sub ||
  match s with
  | [] => false
  | _ :: t => contains sub t
  end.

(** [s.replace(old, new)]: the occurrences of [old] are found left to
    right and do not overlap; [skip] counts the characters of the current
    occurrence that are still to be passed over. *)
Fixpoint replace_go (old new s : pystr) (skip : nat) : pystr :=
  match s with
  | [] => []
  | c :: t =>
      match skip with
      | S k => replace_go old new t k
      | O =>
          if startswith s old
          then new ++ replace_go old new t (length old - 1)
          else c :: replace_go old new t O
      end
  end.

Definition replace (s old new : pystr) : pystr :=
  match old with
  | [] => new ++ concat (List.map (fun c => c :: new) s)
  | _ => replace_go old new s O
  end.

(** [sep.join(parts)] *)
Fixpoint join (sep : pystr) (parts : list pystr) : pystr :=
  match parts with
  | [] => []
  | [p] => p
  | p :: ps => p ++ sep ++ join sep ps
  end.

(** [s[:n]] for [n >= 0] *)
Definition prefix (n : nat) (s : pystr) : pystr := firstn n s.

(** Decimal digits of ASCII. *)
Definition is_digit (c : N) : bool := (48 <=? c) && (c <=? 57).

(** The decimal digits of Unicode come in runs of ten, from the zero on;
    these are the code points of the zeros in version 14.0 of the
    character database. *)
Definition decimal_zeros : list N :=
  [ 48; 1632; 1776; 1984; 2406; 2534; 2662; 2790; 2918; 3046; 3174; 3302;
    3430; 3558; 3664; 3792; 3872; 4160; 4240; 6112; 6160; 6470; 6608; 6784;
    6800; 6992; 7088; 7232; 7248; 42528; 43216; 43264; 43472; 43504; 43600;
    44016; 65296; 66720; 68912; 69734; 69872; 69942; 70096; 70384; 70736;
    70864; 71248; 71360; 71472; 71904; 72016; 72784; 73040; 73120; 92768;
    92864; 93008; 120782; 120792; 120802; 120812; 120822; 123200; 123632;
    125264; 130032 ].

(** The value of a decimal digit of any script. *)
Definition decimal_value (c : N) : option N :=
  (fun zero => c - zero)
    <$> List.find (fun zero => (zero <=? c) && (c <? zero + 10)) decimal_zeros.

(** What [int()] makes of a character of a [str] before it parses: an
    ASCII character is kept, other white space becomes a space, a decimal
    digit of another script becomes the ASCII digit, and anything else a
    question mark, which is no part of a number. *)
Definition int_ascii (c : N) : N :=
  if c <? 127 then c
  else if is_space c then 32
  else match decimal_value c with
       | Some d => 48 + d
       | None => 63
       end.

(** White space for the parser: that of C's [isspace]. *)
Definition c_space (c : N) : bool := ((9 <=? c) && (c <=? 13)) || (c =? 32).

Fixpoint skip_space (s : pystr) : pystr :=
  match s with
  | c :: t => if c_space c then skip_space t else s
  | [] => []
  end.

(** The white space around the number is dropped. *)
Definition int_trim (s : pystr) : pystr := rev (skip_space (rev (skip_space s))).

(** The digits of [int(...)] after the sign, where single underscores
    may separate digits.  [prev] tells whether the previous character was
    a digit. *)
Fixpoint int_digits (s : pystr) (acc : N) (prev : bool) : option N :=
  match s with
  | [] => if prev then Some acc else None
  | c :: t =>
      if is_digit c then int_digits t (10 * acc + (c - 48)) true
      else if (c =? 95) && prev then
        match t with
        | d :: _ => if is_digit d then int_digits t acc false else None
        | [] => None
        end
      else None
  end.

(** [sys.int_info.default_max_str_digits]: a string with more digits is
    refused, whatever its value (CPython 3.11, and the security releases
    of the versions before it). *)
Definition int_max_str_digits : nat := 4300.

Definition count_digits (s : pystr) : nat := length (List.filter is_digit s).

Definition limited_digits (s : pystr) : option N :=
  if (int_max_str_digits <? count_digits s)%nat then None
  else int_digits s 0 false.

(** [int(s)] for a [str]: [None] stands for [ValueError]. *)
Definition py_int (s : pystr) : option Z :=
  match int_trim (List.map int_ascii s) with
  | [] => None
  | c :: t =>
      if c =? 45 then (fun n => (- Z.of_N n)%Z) <$> limited_digits t
      else if c =? 43 then Z.of_N <$> limited_digits t
      else Z.of_N <$> limited_digits (c :: t)
  end.

(** [str(n)] for a natural number: its decimal digits. *)
Fixpoint uint_digits (d : Decimal.uint) : pystr :=
  match d with
  | Nil => []
  | D0 d => 48 :: uint_digits d
  | D1 d => 49 :: uint_digits d
  | D2 d => 50 :: uint_digits d
  | D3 d => 51 :: uint_digits d
  | D4 d => 52 :: uint_digits d
  | D5 d => 53 :: uint_digits d
  | D6 d => 54 :: uint_digits d
  | D7 d => 55 :: uint_digits d
  | D8 d => 56 :: uint_digits d
  | D9 d => 57 :: uint_digits d
  end.

Definition str_of_N (n : N) : pystr := uint_digits (N.to_uint n).

End PyStr.

Import PyStr.

(** ** Exceptions *)

(** An exception is identified by what [repr(e)] prints. *)
Record exn := Exn { exn_repr : pystr }.

Inductive result (A : Type) : Type :=
| Ok (a : A)
| Raise (e : exn).
Arguments Ok {A} a.
Arguments Raise {A} e.

Definition bind {A B} (r : result A) (k : A -> result B) : result B :=
  match r with
  | Ok a => k a
  | Raise e => Raise e
  end.

Declare Scope py_scope.
Delimit Scope py_scope with py.
Notation "'do' x <~ r ; k" := (bind r (fun x => k))
  (at level 10, x name, r at level 100, k at level 200) : py_scope.
Local Open Scope py_scope.

Fixpoint mapM {A B} (f : A -> result B) (l : list A) : result (list B) :=
  match l with
  | [] => Ok []
  | a :: t => do b <~ f a; do bs <~ mapM f t; Ok (b :: bs)
  end.

Definition AttributeError : exn := Exn (u8 "AttributeError").
Definition ValueError : exn := Exn (u8 "ValueError").

(** ** The slot pattern [\{([a-zA-Z0-9_]+)\}]

    [agents/compilance.py], [agents/template_agent.py] and
    [agents/execution_agent.py] all use this one regular expression. *)

Module SlotPattern.

(** The character class [[a-zA-Z0-9_]]. *)
Definition is_word (c : N) : bool :=
  ((97 <=? c) && (c <=? 122)) || ((65 <=? c) && (c <=? 90))
  || ((48 <=? c) && (c <=? 57)) || (c =? 95).

Fixpoint take_word (s : pystr) : pystr :=
  match s with
  | c :: t => if is_word c then c :: take_word t else []
  | [] => []
  end.

Definition lbrace : N := 123.
Definition rbrace : N := 125.

(** A match attempt at the start of [s]: an opening brace, the longest
    run of word characters, which must not be empty, and a closing brace.
    A shorter run cannot match, since the character after it is a word
    character.  The result is the captured group and the length of the
    whole match. *)
Definition match_at (s : pystr) : option (pystr * nat) :=
  match s with
  | c :: t =>
      if c =? lbrace then
        let name := take_word t in
        match name, drop (length name) t with
        | _ :: _, d :: _ =>
            if d =? rbrace then Some (name, S (S (length name))) else None
        | _, _ => None
        end
      else None
  | [] => None
  end.

(** [SLOT_PATTERN.findall(text)]: the scan goes left to right; after a
    match it resumes behind it ([skip] characters are still to pass). *)
Fixpoint findall_go (s : pystr) (skip : nat) : list pystr :=
  match s with
  | [] => []
  | _ :: t =>
      match skip with
      | S k => findall_go t k
      | O =>
          match match_at s with
          | Some (name, n) => name :: findall_go t (n - 1)
          | None => findall_go t O
          end
      end
  end.

Definition findall (text : pystr) : list pystr := findall_go text O.

(** [SLOT_PATTERN.sub(repl, text)] with a function [repl] of the captured
    group. *)
Fixpoint sub_go (repl : pystr -> pystr) (s : pystr) (skip : nat) : pystr :=
  match s with
  | [] => []
  | c :: t =>
      match skip with
      | S k => sub_go repl t k
      | O =>
          match match_at s with
          | Some (name, n) => repl name ++ sub_go repl t (n - 1)
          | None => c :: sub_go repl t O
          end
      end
  end.

Definition sub (repl : pystr -> pystr) (text : pystr) : pystr :=
  sub_go repl text O.

(** The f-string [f"{{{m}}}"]: the name between braces. *)
Definition braced (name : pystr) : pystr := lbrace :: name ++ [rbrace].

End SlotPattern.

(** ** JSON values, as [json.loads] returns them *)

#[warnings="-register-all"]
Inductive json :=
| JNull
| JBool (b : bool)
| JNum (n : Z)
| JStr (s : pystr)
| JList (l : list json)
| JObj (items : list (pystr * json)).

(** Python truthiness of a decoded JSON value. *)
Definition truthy (j : json) : bool :=
  match j with
  | JNull => false
  | JBool b => b
  | JNum n => negb (n =? 0)%Z
  | JStr s => match s with [] => false | _ => true end
  | JList l => match l with [] => false | _ => true end
  | JObj l => match l with [] => false | _ => true end
  end.

(** [d.get(k)] on a decoded object; a repeated key keeps its last value. *)
Fixpoint json_get (items : list (pystr * json)) (k : pystr) : option json :=
  match items with
  | [] => None
  | (k', v) :: t =>
      match json_get t k with
      | Some w => Some w
      | None => if PyStr.eqb k' k then Some v else None
      end
  end.

Definition json_dict (items : list (pystr * json)) : gmap pystr json :=
  list_to_map (rev items).

(** ** Candidates *)

Record SlotSchema := {
  required : option (list pystr);
  optional : option (list pystr);
}.

(** The result of [normalize_campaign_text], with the fields that
    [_format_normalized_campaign_text] reads. *)
Record Normalized := {
  normalized_text : pystr;
  keywords : list pystr;
  category : pystr;
  occasion : pystr;
  finish_or_texture : list pystr;
  mood_or_style : list pystr;
  negative : list pystr;
}.

Record Notes := {
  n_campaign_goal : option pystr;
  campaign_text_hint : option pystr;
  rag_evidence_hint : option pystr;
  brand_tone_id : option pystr;
  brand_tone_guide_snippet : option pystr;
  principle : option pystr;
  fallback : option bool;
  llm : option bool;
  campaign_text_normalized : option Normalized;
  missing_slots_fixed : option (list pystr);
  llm_error : option pystr;
}.

(** A candidate dict.  [notes] is a reference into the heap of notes
    dicts: one notes dict may be shared by several candidates. *)
Record Candidate := {
  template_id : option pystr;
  title : option pystr;
  slot_schema : option SlotSchema;
  body_with_slots : option pystr;
  channel : option pystr;
  tone : option pystr;
  notes : option nat;
  default_slot_values : option (gmap pystr json);
}.

(** [{"candidates": [...]}] together with the notes dicts it refers to. *)
Record Batch := {
  notes_heap : list Notes;
  candidates : list Candidate;
}.

Definition notes_of (b : Batch) (c : Candidate) : option Notes :=
  r ← notes c; notes_heap b !! r.

(** ** agents/compilance.py *)

Inductive Status := PASS | WARN | FAIL.

(** The reasons [validate_candidates] appends.  [MissingSlots missing] is
    the text [f"필수 슬롯 누락: {missing}"], which prints the list of the
    missing names; [Exaggeration] is ["과장/확정 표현 가능성"]; [TooLong] is
    ["문구가 길 수 있음(채널별 길이 가이드 확인 필요)"]. *)
Inductive Reason :=
| MissingSlots (missing : list pystr)
| Exaggeration
| TooLong.

Record ComplianceResult := {
  r_template_id : option pystr;
  status : Status;
  reasons : list Reason;
  found_slots : option (list pystr);
}.

Module compilance.

(** Lexicographic order of code points, the order of [sorted] on [str]. *)
Fixpoint str_ltb (a b : pystr) : bool :=
  match a, b with
  | [], [] => false
  | [], _ :: _ => true
  | _ :: _, [] => false
  | x :: a', y :: b' => (x <? y) || ((x =? y) && str_ltb a' b')
  end.

Fixpoint insert_sorted (x : pystr) (l : list pystr) : list pystr :=
  match l with
  | [] => [x]
  | y :: t =>
      if PyStr.eqb x y then l
      else if str_ltb x y then x :: l
      else y :: insert_sorted x t
  end.

(** [sorted(set(xs))] *)
Definition sorted_set (xs : list pystr) : list pystr :=
  fold_right insert_sorted [] xs.

Definition _extract_slots (text : pystr) : list pystr :=
  sorted_set (SlotPattern.findall text).

(** The status and the reasons, as the rules of the loop body update
    them. *)
Record Verdict := { v_status : Status; v_reasons : list Reason }.

Definition initial : Verdict := {| v_status := PASS; v_reasons := [] |}.

(** [if missing: status = "FAIL"; reasons.append(...)] *)
Definition rule_required (missing : list pystr) (v : Verdict) : Verdict :=
  match missing with
  | [] => v
  | _ :: _ =>
      {| v_status := FAIL; v_reasons := v_reasons v ++ [MissingSlots missing] |}
  end.

Definition banned_phrases : list pystr :=
  [u8 "100% 효과"; u8 "완치"; u8 "무조건"].

(** [if any(x in body for x in [...]): status = "FAIL"; ...] *)
Definition rule_banned (body : pystr) (v : Verdict) : Verdict :=
  if existsb (fun x => contains x body) banned_phrases
  then {| v_status := FAIL; v_reasons := v_reasons v ++ [Exaggeration] |}
  else v.

Definition length_threshold : Z := 220.

(** [if len(body) > 220: if status != "FAIL": status = "WARN"; ...] *)
Definition rule_length (body : pystr) (v : Verdict) : Verdict :=
  if (len body >? length_threshold)%Z
  then {| v_status := match v_status v with FAIL => FAIL | _ => WARN end;
          v_reasons := v_reasons v ++ [TooLong] |}
  else v.

Definition body_of (c : Candidate) : pystr := default [] (body_with_slots c).

Definition required_of (c : Candidate) : list pystr :=
  match slot_schema c with
  | Some sch => default [] (required sch)
  | None => []
  end.

Definition missing_of (c : Candidate) : list pystr :=
  let found := _extract_slots (body_of c) in
  List.filter (fun s => negb (mem s found)) (required_of c).

(** The body of the loop over the candidates. *)
Definition validate_one (c : Candidate) : ComplianceResult :=
  let tid := default [] (template_id c) in
  let body := body_of c in
  let found := _extract_slots body in
  let v := rule_length body (rule_banned body (rule_required (missing_of c) initial)) in
  {| r_template_id := Some tid;
     status := v_status v;
     reasons := v_reasons v;
     found_slots := Some found |}.

Definition validate_candidates (cands : list Candidate) : list ComplianceResult :=
  List.map validate_one cands.

End compilance.

(** ** agents/template_agent.py *)

(** [brief["target_input"]]: the filter selections of the UI. *)
Record TargetInput := {
  gender : option (list pystr);
  age_group : option (list pystr);
  skin_type : option (list pystr);
  skin_concern : option (list pystr);
}.

(** The brief dict.  Under the three text keys it holds whatever its JSON
    holds: a run without a goal has [{"goal": None}] as its brief. *)
Record Brief := {
  campaign_text : option json;
  goal : option json;
  campaign_goal : option json;
  target_input : option TargetInput;
}.

(** The keyword arguments of [_build_prompt].  The prompt is kept as the
    tuple of what it is built from; its wording belongs to the LLM
    collaborator. *)
Record Prompt := {
  p_channel : pystr;
  p_tone_id : pystr;
  p_tone_guide_md : pystr;
  p_campaign_goal : pystr;
  p_campaign_text_normalized : pystr;
  p_rag_context : pystr;
  p_required_slots : list pystr;
  p_k : Z;
}.

Module template_agent.

Definition nl : pystr := [10].

Definition KeyError : exn := Exn (u8 "KeyError").

Definition REQUIRED_SLOTS_BY_CHANNEL (ch : pystr) : result (list pystr) :=
  if PyStr.eqb ch (u8 "PUSH") then
    Ok [u8 "customer_name"; u8 "product_name"; u8 "offer"; u8 "cta"]
  else if PyStr.eqb ch (u8 "SMS") then
    Ok [u8 "customer_name"; u8 "product_name"; u8 "offer"; u8 "cta"; u8 "unsubscribe"]
  else if PyStr.eqb ch (u8 "KAKAO") then
    Ok [u8 "customer_name"; u8 "product_name"; u8 "offer"; u8 "cta"]
  else if PyStr.eqb ch (u8 "EMAIL") then
    Ok [u8 "customer_name"; u8 "product_name"; u8 "offer"; u8 "cta"; u8 "subject"]
  else Raise KeyError.

Definition OPTIONAL_SLOTS : list pystr :=
  [u8 "coupon_code"; u8 "expiry_date"; u8 "deep_link"; u8 "brand_name";
   u8 "support_contact"].

Definition _normalize_channel (channel : pystr) : pystr :=
  let c := upper (strip channel) in
  if mem c [u8 "PUSH"; u8 "SMS"; u8 "KAKAO"; u8 "EMAIL"] then c else u8 "PUSH".

Definition _slot_placeholders_in_text (text : pystr) : gset pystr :=
  list_to_set (SlotPattern.findall text).

Definition _validate_candidate_body (body : pystr) (required_slots : list pystr)
  : list pystr :=
  let present := _slot_placeholders_in_text body in
  List.filter (fun s => bool_decide (s ∉ present)) required_slots.

Definition nonempty {A} (l : list A) : bool :=
  match l with [] => false | _ => true end.

Definition _format_normalized_campaign_text (normalized : Normalized)
    (raw_campaign_text : pystr) : pystr :=
  let normalized_text := strip (normalized_text normalized) in
  let category := strip (category normalized) in
  let occasion := strip (occasion normalized) in
  let comma := u8 ", " in
  let parts :=
    (if nonempty normalized_text then [u8 "- 요약: " ++ normalized_text] else [])
    ++ (if nonempty (keywords normalized)
        then [u8 "- 키워드: " ++ join comma (firstn 12 (keywords normalized))] else [])
    ++ (if nonempty category then [u8 "- 카테고리(추정): " ++ category] else [])
    ++ (if nonempty occasion then [u8 "- 상황/목적(추정): " ++ occasion] else [])
    ++ (if nonempty (finish_or_texture normalized)
        then [u8 "- 제형/피니시: " ++ join comma (firstn 8 (finish_or_texture normalized))]
        else [])
    ++ (if nonempty (mood_or_style normalized)
        then [u8 "- 무드/스타일: " ++ join comma (firstn 8 (mood_or_style normalized))]
        else [])
    ++ (if nonempty (negative normalized)
        then [u8 "- 제외조건: " ++ join comma (firstn 8 (negative normalized))] else [])
    ++ [u8 "- 원문: " ++ raw_campaign_text] in
  strip (join nl parts).

(** The two openers and the two call-to-action labels of a brand. *)
Definition _fallback_openers_ctas_by_brand (tone_id : pystr)
  : (pystr * pystr) * (pystr * pystr) :=
  let tone_id := lower (strip tone_id) in
  if PyStr.eqb tone_id (u8 "innisfree") then
    ((u8 "고객님, 오늘은 산뜻한 데일리 루틴으로 추천드려요 🍃",
      u8 "가볍게 루틴에 더해보기 좋은 {product_name} 소식이에요 🍃"),
     (u8 "앱에서 확인하기", u8 "가볍게 보러가기"))
  else
    ((u8 "고객님, 회원 전용 혜택 안내드려요.",
      u8 "고객님, 지금 앱에서 확인해 보세요."),
     (u8 "지금 확인하기", u8 "자세히 보기")).

(** [tone or "amoremall"] *)
Definition tone_or_default (tone : pystr) : pystr :=
  match tone with [] => u8 "amoremall" | _ => tone end.

Definition default_subject : pystr :=
  u8 "{campaign_goal} 안내 | {product_name} {offer}".

(** [(brief or {}).get(key, "").strip()]: a value that is not a string,
    [None] included, has no [strip]. *)
Definition strip_field (o : option json) : result pystr :=
  match default (JStr []) o with
  | JStr s => Ok (strip s)
  | _ => Raise AttributeError
  end.

(** [max(1, min(k, 4))] and [max(1, int(k))] as slice bounds. *)
Definition fallback_bound (k : Z) : nat := Z.to_nat (Z.max 1 (Z.min k 4)).
Definition llm_bound (k : Z) : nat := Z.to_nat (Z.max 1 k).

(** The list [candidates] of [_fallback_candidates]: the four canned
    templates, for the normalized channel, its required slots and the
    tone identifier.  They all refer to the one notes dict of the call. *)
Definition canned (channel tone_id : pystr) (required : list pystr)
  : list Candidate :=
  let '((opener0, opener1), (cta0, cta1)) :=
    _fallback_openers_ctas_by_brand tone_id in
  let is_email := PyStr.eqb channel (u8 "EMAIL") in
  let footer :=
    if PyStr.eqb channel (u8 "SMS") then u8 "수신거부: {unsubscribe}" else [] in
  let subject := JStr (if is_email then default_subject else []) in
  let dsv : gmap pystr json :=
    <[u8 "cta" := JStr (u8 "{deep_link}")]> (<[u8 "subject" := subject]> ∅) in
  let dsv2 : gmap pystr json :=
    <[u8 "coupon_code" := JStr (u8 "{coupon_code}")]>
      (<[u8 "expiry_date" := JStr (u8 "{expiry_date}")]> dsv) in
  let schema := {| required := Some required; optional := Some OPTIONAL_SLOTS |} in
  let schema3 :=
    {| required := Some required;
       optional := Some (OPTIONAL_SLOTS ++
         [u8 "skin_concern_primary"; u8 "sensitivity_level"; u8 "persona"]) |} in
  let cand (tid ttl : pystr) sch body d :=
    {| template_id := Some tid;
       title := Some (tone_id ++ ttl);
       slot_schema := Some sch;
       body_with_slots := Some (strip body);
       channel := Some channel;
       tone := Some tone_id;
       notes := Some O;
       default_slot_values := Some d |} in
  [ cand (u8 "T001") (u8 " | 요약형(FALLBACK)") schema
      (opener0 ++ nl
       ++ u8 "이번 캠페인에 딱 맞는 {product_name} 안내드려요." ++ nl
       ++ u8 "{offer}" ++ nl
       ++ u8 "👉 " ++ cta0 ++ u8 ": {cta}" ++ nl
       ++ footer) dsv;
    cand (u8 "T002") (u8 " | 혜택/리마인드(FALLBACK)") schema
      (opener1 ++ nl
       ++ u8 "{product_name} 관련 안내예요." ++ nl
       ++ u8 "{offer}" ++ nl
       ++ u8 "쿠폰: {coupon_code} / 종료일: {expiry_date}" ++ nl
       ++ u8 "✅ " ++ cta1 ++ u8 ": {cta}" ++ nl
       ++ footer) dsv2;
    cand (u8 "T003") (u8 " | 개인화(FALLBACK)") schema3
      (opener0 ++ nl
       ++ u8 "{skin_concern_primary} 고민을 고려해 {product_name}을(를) 제안드려요." ++ nl
       ++ u8 "{offer}" ++ nl
       ++ u8 "👉 {cta}" ++ nl
       ++ footer) dsv;
    cand (u8 "T004") (u8 " | 초간단(FALLBACK)") schema
      (u8 "{customer_name}님, {product_name}" ++ nl
       ++ u8 "{offer}" ++ nl
       ++ u8 "👉 {cta}" ++ nl
       ++ footer) dsv ].

Section Collaborators.

Variable load_tone_guide : pystr -> pystr.
Variable normalize_campaign_text : pystr -> Normalized.
Variable _call_openai : Prompt -> result (list (pystr * json)).

Definition _fallback_candidates (channel tone : pystr) (brief : Brief)
    (rag_context : pystr) (k : Z) : result Batch :=
  let channel := _normalize_channel channel in
  do required <~ REQUIRED_SLOTS_BY_CHANNEL channel;
  do raw_campaign_text <~ strip_field (campaign_text brief);
  do campaign_goal <~ strip_field (goal brief);
  let evidence_hint := prefix 500 (strip rag_context) in
  let tone_id := lower (strip (tone_or_default tone)) in
  let tone_guide := load_tone_guide tone_id in
  let normalized := normalize_campaign_text raw_campaign_text in
  let normalized_prompt_text :=
    _format_normalized_campaign_text normalized raw_campaign_text in
  let notes :=
    {| n_campaign_goal := Some campaign_goal;
       campaign_text_hint := Some (prefix 300 normalized_prompt_text);
       rag_evidence_hint := Some evidence_hint;
       brand_tone_id := Some tone_id;
       brand_tone_guide_snippet := Some (prefix 500 tone_guide);
       principle :=
         Some (u8 "Template agent must not decide product/offer. Keep as slots.");
       fallback := Some true;
       llm := None;
       campaign_text_normalized := Some normalized;
       missing_slots_fixed := None;
       llm_error := None |} in
  Ok {| notes_heap := [notes];
        candidates := firstn (fallback_bound k) (canned channel tone_id required) |}.

Definition empty_notes : Notes :=
  {| n_campaign_goal := None; campaign_text_hint := None;
     rag_evidence_hint := None; brand_tone_id := None;
     brand_tone_guide_snippet := None; principle := None;
     fallback := None; llm := None; campaign_text_normalized := None;
     missing_slots_fixed := None; llm_error := None |}.

(** [notes["llm_error"] = msg] *)
Definition set_llm_error (msg : pystr) (n : Notes) : Notes :=
  {| n_campaign_goal := n_campaign_goal n;
     campaign_text_hint := campaign_text_hint n;
     rag_evidence_hint := rag_evidence_hint n;
     brand_tone_id := brand_tone_id n;
     brand_tone_guide_snippet := brand_tone_guide_snippet n;
     principle := principle n;
     fallback := fallback n;
     llm := llm n;
     campaign_text_normalized := campaign_text_normalized n;
     missing_slots_fixed := missing_slots_fixed n;
     llm_error := Some msg |}.

Definition set_notes (r : nat) (c : Candidate) : Candidate :=
  {| template_id := template_id c; title := title c;
     slot_schema := slot_schema c; body_with_slots := body_with_slots c;
     channel := channel c; tone := tone c; notes := Some r;
     default_slot_values := default_slot_values c |}.

(** One turn of the loop
    [c.setdefault("notes", {}); c["notes"]["llm_error"] = msg]:
    the write goes to the notes dict the candidate refers to. *)
Definition tag_one (msg : pystr) (st : list Notes * list Candidate)
    (c : Candidate) : list Notes * list Candidate :=
  let '(heap, seen) := st in
  match notes c with
  | Some r => (alter (set_llm_error msg) r heap, seen ++ [c])
  | None =>
      (heap ++ [set_llm_error msg empty_notes],
       seen ++ [set_notes (length heap) c])
  end.

Definition tag_llm_error (msg : pystr) (b : Batch) : Batch :=
  let '(heap, cs) := fold_left (tag_one msg) (candidates b) (notes_heap b, []) in
  {| notes_heap := heap; candidates := cs |}.

(** [(rc.get(key) or dflt).strip()] before the [strip]: a truthy value
    that is not a string has no [strip]. *)
Definition str_or_default (o : option json) (dflt : pystr) : result pystr :=
  match o with
  | Some j =>
      if truthy j then
        match j with
        | JStr s => Ok s
        | _ => Raise AttributeError
        end
      else Ok dflt
  | None => Ok dflt
  end.

(** [d.setdefault(k, v)] *)
Definition setdefault (k : pystr) (v : json) (d : gmap pystr json)
  : gmap pystr json :=
  match d !! k with
  | Some _ => d
  | None => <[k := v]> d
  end.

(** [f"T{idx:03d}"] *)
Definition template_id_of (idx : nat) : pystr :=
  let ds := str_of_N (N.of_nat idx) in
  u8 "T" ++ repeat 48 (3 - length ds) ++ ds.

(** [body + "\n" + "\n".join([f"{{{m}}}" for m in missing])).strip()] *)
Definition repair (body : pystr) (missing : list pystr) : pystr :=
  match missing with
  | [] => body
  | _ :: _ => strip (body ++ nl ++ join nl (List.map SlotPattern.braced missing))
  end.

(** The body of the loop over [enumerate(raw_cands[:max(1, k)], start=1)]:
    the candidate and its own notes dict [{**notes, ...}]. *)
Definition llm_candidate (channel tone_id : pystr) (required : list pystr)
    (notes : Notes) (entry : nat * json) : result (Notes * Candidate) :=
  let '(idx, rc) := entry in
  match rc with
  | JObj items =>
      do title <~ str_or_default (json_get items (u8 "title"))
                    (tone_id ++ u8 " | 후보" ++ str_of_N (N.of_nat idx));
      let title := strip title in
      do body <~ str_or_default (json_get items (u8 "body_with_slots")) [];
      let body := strip body in
      let missing := _validate_candidate_body body required in
      let body := repair body missing in
      let dsv :=
        match json_get items (u8 "default_slot_values") with
        | Some (JObj d) => json_dict d
        | _ => ∅
        end in
      let dsv := setdefault (u8 "cta") (JStr (u8 "{deep_link}")) dsv in
      let dsv :=
        if PyStr.eqb channel (u8 "EMAIL")
        then setdefault (u8 "subject") (JStr default_subject) dsv
        else setdefault (u8 "subject") (JStr []) dsv in
      Ok ({| n_campaign_goal := n_campaign_goal notes;
             campaign_text_hint := campaign_text_hint notes;
             rag_evidence_hint := rag_evidence_hint notes;
             brand_tone_id := brand_tone_id notes;
             brand_tone_guide_snippet := brand_tone_guide_snippet notes;
             principle := principle notes;
             fallback := fallback notes;
             llm := llm notes;
             campaign_text_normalized := campaign_text_normalized notes;
             missing_slots_fixed := Some missing;
             llm_error := llm_error notes |},
          {| template_id := Some (template_id_of idx);
             title := Some title;
             slot_schema :=
               Some {| required := Some required; optional := Some OPTIONAL_SLOTS |};
             body_with_slots := Some body;
             channel := Some channel;
             tone := Some tone_id;
             notes := Some (idx - 1)%nat;
             default_slot_values := Some dsv |})
  | _ => Raise AttributeError
  end.

Definition generate_template_candidates (brief : Brief)
    (channel tone rag_context : pystr) (k : Z) : result Batch :=
  let channel := _normalize_channel channel in
  do required <~ REQUIRED_SLOTS_BY_CHANNEL channel;
  let tone_id := lower (strip (tone_or_default tone)) in
  let tone_guide_md := load_tone_guide tone_id in
  do raw_campaign_text <~ strip_field (campaign_text brief);
  do campaign_goal <~
    (do g <~ strip_field (goal brief);
     match g with
     | [] => strip_field (campaign_goal brief)
     | _ :: _ => Ok g
     end);
  let rag_context := prefix 2500 (strip rag_context) in
  let normalized := normalize_campaign_text raw_campaign_text in
  let normalized_prompt_text :=
    _format_normalized_campaign_text normalized raw_campaign_text in
  let notes :=
    {| n_campaign_goal := Some campaign_goal;
       campaign_text_hint := Some (prefix 300 normalized_prompt_text);
       rag_evidence_hint := Some (prefix 500 rag_context);
       brand_tone_id := Some tone_id;
       brand_tone_guide_snippet := Some (prefix 500 tone_guide_md);
       principle :=
         Some (u8 "Template agent must not decide product/offer. Keep as slots.");
       fallback := None;
       llm := Some true;
       campaign_text_normalized := Some normalized;
       missing_slots_fixed := None;
       llm_error := None |} in
  let prompt :=
    {| p_channel := channel; p_tone_id := tone_id;
       p_tone_guide_md := tone_guide_md; p_campaign_goal := campaign_goal;
       p_campaign_text_normalized := normalized_prompt_text;
       p_rag_context := rag_context; p_required_slots := required;
       p_k := Z.max 1 k |} in
  match _call_openai prompt with
  | Raise e =>
      do fb <~ _fallback_candidates channel tone_id brief rag_context k;
      Ok (tag_llm_error (exn_repr e) fb)
  | Ok out =>
      let raw_cands :=
        match json_get out (u8 "candidates") with
        | Some j => if truthy j then j else JList []
        | None => JList []
        end in
      match raw_cands with
      | JList ((_ :: _) as l) =>
          let picked := firstn (llm_bound k) l in
          do final <~ mapM (llm_candidate channel tone_id required notes)
                        (combine (seq 1 (length picked)) picked);
          match final with
          | [] => _fallback_candidates channel tone_id brief rag_context k
          | _ :: _ =>
              let final := firstn (llm_bound k) final in
              Ok {| notes_heap := List.map fst final;
                    candidates := List.map snd final |}
          end
      | _ =>
          do fb <~ _fallback_candidates channel tone_id brief rag_context k;
          Ok (tag_llm_error (u8 "LLM returned empty candidates") fb)
      end
  end.

End Collaborators.

End template_agent.

(** ** agents/execution_agent.py *)

Module execution_agent.

(** [str(v)] for the values a slot mapping may hold. *)
Class PyShow (V : Type) := py_str : V -> pystr.

#[global] Instance show_str : PyShow pystr := fun s => s.
#[global] Instance show_nat : PyShow N := str_of_N.

Section Render.

Context {V : Type} `{PyShow V}.

(** [repl]: [str(slot_values.get(k, f"{{{k}}}"))] for the captured
    name [k]. *)
Definition repl (slot_values : gmap pystr V) (k : pystr) : pystr :=
  match slot_values !! k with
  | Some v => py_str v
  | None => SlotPattern.braced k
  end.

Definition _render (text : pystr) (slot_values : gmap pystr V) : pystr :=
  SlotPattern.sub (repl slot_values) text.

End Render.

End execution_agent.

(** ** services/targeting.py *)

Record FeatureCols := {
  skin_type_col : option pystr;
  skin_concern_col : option pystr;
}.

Record TargetQuery := {
  gender_in : list pystr;
  birth_year_ranges : list (option Z * option Z);
  skin_type_in : list pystr;
  skin_concern_in : list pystr;
  join_keys : option pystr * option pystr;
  feature_cols : FeatureCols;
}.

Record Target := {
  target_query : TargetQuery;
  summary : pystr;
  t_channel : pystr;
  t_tone : pystr;
}.

Module targeting.

Definition GENDER_DB (g : pystr) : option pystr :=
  if PyStr.eqb g (u8 "여") then Some (u8 "F")
  else if PyStr.eqb g (u8 "남") then Some (u8 "M")
  else None.

(** [this_year] is [date.today().year]. *)
Definition _age_group_to_birth_year_range (this_year : Z) (age_group : pystr)
  : result (option Z * option Z) :=
  if endswith age_group (u8 "대+") then
    match py_int (replace age_group (u8 "대+") []) with
    | Some base =>
        let max_birth := (this_year - base)%Z in
        Ok (None, Some max_birth)
    | None => Raise ValueError
    end
  else
    match py_int (replace age_group (u8 "대") []) with
    | Some base =>
        let min_age := base in
        let max_age := (base + 9)%Z in
        let min_birth := (this_year - max_age)%Z in
        let max_birth := (this_year - min_age)%Z in
        Ok (Some min_birth, Some max_birth)
    | None => Raise ValueError
    end.

Section Introspection.

(** The database session: [show db table] is the outcome of
    [SHOW COLUMNS FROM table], the set of column names or an exception,
    and the session after the statement. *)
Variable DB : Type.
Variable show : DB -> pystr -> result (list pystr) * DB.

(** The calendar year, taken not to change during one call. *)
Variable this_year : Z.

Definition _show_columns (db : DB) (table : pystr) : result (list pystr) * DB :=
  show db table.

Definition _detect_join_keys (db : DB) : (option pystr * option pystr) * DB :=
  let '(ru, db) := _show_columns db (u8 "users") in
  match ru with
  | Raise _ => ((None, None), db)
  | Ok u =>
      let '(rf, db) := _show_columns db (u8 "user_features") in
      match rf with
      | Raise _ => ((None, None), db)
      | Ok f =>
          let user_id := u8 "user_id" in
          let id := u8 "id" in
          if mem user_id u && mem user_id f then ((Some user_id, Some user_id), db)
          else if mem id u && mem user_id f then ((Some id, Some user_id), db)
          else if mem id u && mem id f then ((Some id, Some id), db)
          else
            let common := List.filter (fun c => mem c f) u in
            (match List.find (fun cand => mem cand common)
                     [user_id; id; u8 "username"] with
             | Some cand => (Some cand, Some cand)
             | None => (None, None)
             end, db)
      end
  end.

(** [for cand in names: if cand in fcols: ...; break] *)
Definition first_present (names fcols : list pystr) : option pystr :=
  List.find (fun cand => mem cand fcols) names.

Definition list_field (o : option (list pystr)) : list pystr := default [] o.

Definition comma_join (label : string) (xs : list pystr) : list pystr :=
  match xs with
  | [] => []
  | _ :: _ => [u8 label ++ join (u8 ",") xs]
  end.

Definition build_target (db : DB) (brief : Brief) (channel tone : pystr)
  : result Target * DB :=
  let ti := target_input brief in
  let gender_ui := list_field (ti ≫= gender) in
  let age_groups := list_field (ti ≫= age_group) in
  let skin_type := list_field (ti ≫= skin_type) in
  let skin_concern := list_field (ti ≫= skin_concern) in
  let gender_db := omap GENDER_DB gender_ui in
  match mapM (_age_group_to_birth_year_range this_year) age_groups with
  | Raise e => (Raise e, db)
  | Ok birth_ranges =>
      let '((ukey, fkey), db) := _detect_join_keys db in
      let '(rf, db) := _show_columns db (u8 "user_features") in
      let feature_cols :=
        match rf with
        | Ok fcols =>
            {| skin_type_col :=
                 first_present [u8 "skin_type"; u8 "skin_type_primary"] fcols;
               skin_concern_col :=
                 first_present [u8 "skin_concern"; u8 "skin_concern_primary"] fcols |}
        | Raise _ => {| skin_type_col := None; skin_concern_col := None |}
        end in
      let target_query :=
        {| gender_in := gender_db;
           birth_year_ranges := birth_ranges;
           skin_type_in := skin_type;
           skin_concern_in := skin_concern;
           join_keys := (ukey, fkey);
           feature_cols := feature_cols |} in
      let summary_parts :=
        comma_join "성별=" gender_ui ++ comma_join "나이대=" age_groups
        ++ comma_join "피부타입=" skin_type ++ comma_join "피부고민=" skin_concern in
      let summary :=
        match summary_parts with
        | [] => u8 "타겟 조건 없음"
        | _ :: _ => join (u8 " / ") summary_parts
        end in
      (Ok {| target_query := target_query; summary := summary;
             t_channel := channel; t_tone := tone |}, db)
  end.

End Introspection.

End targeting.

(** ** db/repo.py *)

Module repo.

Definition _upper_channel (channel : pystr) : pystr :=
  let c := upper (strip channel) in
  if mem c [u8 "SMS"; u8 "KAKAO"; u8 "PUSH"; u8 "EMAIL"] then c
  else
    let l := lower c in
    if PyStr.eqb l (u8 "push") then u8 "PUSH"
    else if PyStr.eqb l (u8 "sms") then u8 "SMS"
    else if PyStr.eqb l (u8 "kakao") then u8 "KAKAO"
    else if PyStr.eqb l (u8 "email") then u8 "EMAIL"
    else u8 "PUSH".

(** [Repo.preview_target_users]: the chain of comparisons that turns one
    age band into a birth-year range; a band outside the table appends
    nothing.  [current_year] is [datetime.now().year]. *)
Definition band_range (current_year : Z) (b : pystr) : option (Z * Z) :=
  let b := strip b in
  if PyStr.eqb b (u8 "10대") then Some (current_year - 19, current_year - 10)%Z
  else if PyStr.eqb b (u8 "20대") then Some (current_year - 29, current_year - 20)%Z
  else if PyStr.eqb b (u8 "30대") then Some (current_year - 39, current_year - 30)%Z
  else if PyStr.eqb b (u8 "40대") then Some (current_year - 49, current_year - 40)%Z
  else if mem b [u8 "50대+"; u8 "50대"] then Some (1900, current_year - 50)%Z
  else None.

Definition band_ranges (current_year : Z) (age_bands : list pystr) : list (Z * Z) :=
  omap (band_range current_year) age_bands.

(** The age part of the [WHERE] clause, as a test on [u.birth_year]:
    the disjunction of [BETWEEN y_min AND y_max] over the ranges, and no
    condition at all when there is no range. *)
Definition birth_year_clause (ranges : list (Z * Z)) (birth_year : Z) : bool :=
  match ranges with
  | [] => true
  | _ :: _ =>
      existsb (fun '(y_min, y_max) =>
                 (y_min <=? birth_year)%Z && (birth_year <=? y_max)%Z) ranges
  end.

(** The module-level helper [_age_group_to_birth_range] that follows the
    class in [db/repo.py]. *)
Definition _age_group_to_birth_range (this_year : Z) (age_group : pystr)
  : result (option Z * option Z) :=
  if endswith age_group (u8 "대+") then
    match py_int (replace age_group (u8 "대+") []) with
    | Some base => Ok (None, Some (this_year - base)%Z)
    | None => Raise ValueError
    end
  else
    match py_int (replace age_group (u8 "대") []) with
    | Some base =>
        let min_age := base in
        let max_age := (base + 9)%Z in
        Ok (Some (this_year - max_age)%Z, Some (this_year - min_age)%Z)
    | None => Raise ValueError
    end.

End repo.

(** ** flow/workflow.py *)

Inductive Stage :=
| ST_BRIEF | ST_TARGET | ST_RAG | ST_TEMPLATE_CANDIDATES | ST_COMPLIANCE
| ST_SELECTED_TEMPLATE | ST_EXECUTION_RESULT.

(** What the EXECUTE stage stores: the dict of [generate_final_message], or
    the one [node_execute] builds itself. *)
Record Exec := {
  used_template_id : option pystr;
  final_message : option pystr;
  slot_values : option (gmap pystr pystr);
  rag_used_hint : option pystr;
  rag_used : option pystr;
}.

(** A row of [campaign_runs], with the columns the orchestrator touches. *)
Record Run := {
  r_channel : option pystr;
  r_campaign_goal : option pystr;
  r_step_id : option pystr;
  r_candidate_id : option pystr;
  r_rendered_text : option pystr;
}.

Inductive Node :=
| stage_load_brief | stage_target | stage_rag | stage_candidates
| stage_compliance | stage_execute.

Inductive Next := To (n : Node) | END.

Module workflow.

(** The modules of the package [crm_agent.agents] on disk. *)
Definition agents_package : list string :=
  ["brief_normalizer"; "compilance"; "execution_agent"; "template_agent"]%string.

(** [try: from crm_agent.agents.<name> import attr / except: attr = None],
    for a module that imports nothing outside the package and the
    standard library. *)
Definition import_from {A} (name : string) (attr : A) : option A :=
  if bool_decide (name ∈ agents_package) then Some attr else None.

(** The name [validate_candidates] of [workflow.py], after its import
    block. *)
Definition validate_candidates
  : option (list Candidate -> list ComplianceResult) :=
  import_from "compliance" compilance.validate_candidates.

Definition RuntimeError (msg : string) : exn := Exn (u8 "RuntimeError" ++ u8 msg).

(** [a or b] on an optional string. *)
Definition str_or (a : option pystr) (b : pystr) : pystr :=
  match a with
  | Some ((_ :: _) as s) => s
  | _ => b
  end.

Definition present {A} (o : option A) : bool :=
  match o with Some _ => true | None => false end.

(** A candidate dict is truthy when it has a key. *)
Definition dict_truthy (c : Candidate) : bool :=
  present (template_id c) || present (title c) || present (slot_schema c)
  || present (body_with_slots c) || present (channel c) || present (tone c)
  || present (notes c) || present (default_slot_values c).


Section Orchestrator.

(** The payloads whose shape the orchestrator does not look into, and
    the collaborators that produce and read them. *)
Context {BriefT TargetT RagT : Type}.

(** [{"goal": run.get("campaign_goal")}] and [{}] *)
Variable brief_of_goal : option pystr -> BriefT.
Variable empty_brief : BriefT.

(** [build_target(repo.db, brief=..., channel=..., tone=...)] *)
Variable build_target : BriefT -> pystr -> pystr -> result TargetT.

(** The query, the retrieval and the evidence of [node_rag], from the
    brief, [state.get("target")], the channel and the tone. *)
Variable rag_stage : BriefT -> option TargetT -> pystr -> pystr -> result RagT.

(** [rag.get("context", ...)] for [rag = state.get("rag") or {}] *)
Variable rag_context : option RagT -> pystr.

(** The names bound by the two other import blocks; [None] when the
    import failed. *)
Variable generate_template_candidates
  : option (BriefT -> pystr -> pystr -> pystr -> result Batch).
Variable generate_final_message
  : option (BriefT -> Candidate -> pystr -> result Exec).

(** [body.format(product_name=..., benefit=...)] with the values taken
    from the brief. *)
Variable inline_format : BriefT -> pystr -> result pystr.

(** A row of [handoffs]; the constructor is the stage. *)
Inductive Handoff :=
| H_BRIEF (run_id : pystr) (payload : BriefT)
| H_TARGET (run_id : pystr) (payload : TargetT)
| H_RAG (run_id : pystr) (payload : RagT)
| H_TEMPLATE_CANDIDATES (run_id : pystr) (payload : Batch)
| H_COMPLIANCE (run_id : pystr) (payload : list ComplianceResult)
| H_SELECTED_TEMPLATE (run_id : pystr) (payload : Candidate)
| H_EXECUTION_RESULT (run_id : pystr) (payload : Exec).

Definition stage_of (h : Handoff) : Stage :=
  match h with
  | H_BRIEF _ _ => ST_BRIEF
  | H_TARGET _ _ => ST_TARGET
  | H_RAG _ _ => ST_RAG
  | H_TEMPLATE_CANDIDATES _ _ => ST_TEMPLATE_CANDIDATES
  | H_COMPLIANCE _ _ => ST_COMPLIANCE
  | H_SELECTED_TEMPLATE _ _ => ST_SELECTED_TEMPLATE
  | H_EXECUTION_RESULT _ _ => ST_EXECUTION_RESULT
  end.

(** The database: the runs by identifier and the handoffs in the order
    of their creation.  Rows are stamped with the clock of the one
    process that writes them, so this is the order of [created_at];
    which of two rows of one second is the latest is left to the
    database and taken here to be the later one. *)
Record World := {
  runs : gmap pystr Run;
  handoffs : list Handoff;
}.

Record CRMState := {
  run_id : pystr;
  s_channel : option pystr;
  s_tone : option pystr;
  s_brief : option BriefT;
  s_target : option TargetT;
  s_rag : option RagT;
  s_candidates : option Batch;
  s_compliance : option (list ComplianceResult);
  selected_template : option Candidate;
  execution_result : option Exec;
}.

(** *** The repository calls *)

Definition get_run (w : World) (rid : pystr) : option Run := runs w !! rid.

(** The last row that [pick] accepts. *)
Definition latest {A} (pick : Handoff -> option A) (hs : list Handoff) : option A :=
  fold_left (fun acc h => match pick h with Some a => Some a | None => acc end)
            hs None.

(** [repo.get_latest_handoff(run_id, ST_BRIEF)["payload_json"]] *)
Definition get_latest_brief (w : World) (rid : pystr) : option BriefT :=
  latest (fun h => match h with
                   | H_BRIEF r p => if PyStr.eqb r rid then Some p else None
                   | _ => None
                   end) (handoffs w).

(** [repo.get_latest_handoff(run_id, ST_SELECTED_TEMPLATE)["payload_json"]] *)
Definition get_latest_selected (w : World) (rid : pystr) : option Candidate :=
  latest (fun h => match h with
                   | H_SELECTED_TEMPLATE r p => if PyStr.eqb r rid then Some p else None
                   | _ => None
                   end) (handoffs w).

Definition create_handoff (h : Handoff) (w : World) : World :=
  {| runs := runs w; handoffs := handoffs w ++ [h] |}.

(** [repo.update_run(run_id, ...)]: an [UPDATE] of the row of the run, if
    there is one.  An argument left out is [None]. *)
Definition update_run (rid : pystr) (channel step_id candidate_id rendered_text
    : option pystr) (w : World) : World :=
  let upd (r : Run) :=
    {| r_channel :=
         match channel with
         | Some c => Some (repo._upper_channel c)
         | None => r_channel r
         end;
       r_campaign_goal := r_campaign_goal r;
       r_step_id :=
         match step_id with
         | Some s => Some (prefix 16 s)
         | None => r_step_id r
         end;
       r_candidate_id :=
         match candidate_id with
         | Some [] => None
         | Some c => Some (prefix 16 c)
         | None => r_candidate_id r
         end;
       r_rendered_text :=
         match rendered_text with
         | Some t => Some t
         | None => r_rendered_text r
         end |} in
  {| runs := alter upd rid (runs w); handoffs := handoffs w |}.

(** *** The nodes

    A node maps the state to the next state or raises, and writes to
    the database on the way. *)

Definition node_load_brief (st : CRMState) (w : World) : result CRMState * World :=
  match get_run w (run_id st) with
  | None => (Raise (RuntimeError "run_id not found"), w)
  | Some run =>
      let brief :=
        match get_latest_brief w (run_id st) with
        | Some b => b
        | None => brief_of_goal (r_campaign_goal run)
        end in
      let channel := str_or (s_channel st) (str_or (r_channel run) (u8 "PUSH")) in
      let tone := str_or (s_tone st) (u8 "amoremall") in
      (Ok {| run_id := run_id st; s_channel := Some channel; s_tone := Some tone;
             s_brief := Some brief; s_target := s_target st; s_rag := s_rag st;
             s_candidates := s_candidates st; s_compliance := s_compliance st;
             selected_template := selected_template st;
             execution_result := execution_result st |}, w)
  end.

Definition node_targeting (st : CRMState) (w : World) : result CRMState * World :=
  let brief := default empty_brief (s_brief st) in
  let channel := str_or (s_channel st) (u8 "PUSH") in
  let tone := str_or (s_tone st) (u8 "amoremall") in
  match build_target brief channel tone with
  | Raise e => (Raise e, w)
  | Ok target =>
      let w := create_handoff (H_TARGET (run_id st) target) w in
      let w := update_run (run_id st) (Some channel) (Some (u8 "S2_TARGET"))
                 None None w in
      (Ok {| run_id := run_id st; s_channel := s_channel st; s_tone := s_tone st;
             s_brief := s_brief st; s_target := Some target; s_rag := s_rag st;
             s_candidates := s_candidates st; s_compliance := s_compliance st;
             selected_template := selected_template st;
             execution_result := execution_result st |}, w)
  end.

Definition node_rag (st : CRMState) (w : World) : result CRMState * World :=
  let brief := default empty_brief (s_brief st) in
  let channel := str_or (s_channel st) (u8 "PUSH") in
  let tone := str_or (s_tone st) (u8 "amoremall") in
  match rag_stage brief (s_target st) channel tone with
  | Raise e => (Raise e, w)
  | Ok rag_payload =>
      let w := create_handoff (H_RAG (run_id st) rag_payload) w in
      let w := update_run (run_id st) None (Some (u8 "S3_RAG")) None None w in
      (Ok {| run_id := run_id st; s_channel := s_channel st; s_tone := s_tone st;
             s_brief := s_brief st; s_target := s_target st;
             s_rag := Some rag_payload;
             s_candidates := s_candidates st; s_compliance := s_compliance st;
             selected_template := selected_template st;
             execution_result := execution_result st |}, w)
  end.

(** The two candidates [node_candidates] falls back to. *)
Definition stub_candidates : Batch :=
  let cand (tid ttl body : pystr) :=
    {| template_id := Some tid; title := Some ttl; slot_schema := None;
       body_with_slots := Some body; channel := None; tone := None;
       notes := None; default_slot_values := None |} in
  {| notes_heap := [];
     candidates :=
       [ cand (u8 "T001") (u8 "기본 포맷")
           (u8 "안녕하세요 {customer_name}님 :) {product_name} 소식이에요."
            ++ [10] ++ u8 "{offer}" ++ [10] ++ u8 "👉 {cta}");
         cand (u8 "T002") (u8 "친근 톤")
           (u8 "{customer_name}님 :) 반가워요!" ++ [10]
            ++ u8 "{product_name} 관련 안내예요." ++ [10]
            ++ u8 "{offer}" ++ [10] ++ u8 "👉 지금 확인: {cta}") ] |}.

Definition node_candidates (st : CRMState) (w : World) : result CRMState * World :=
  let brief := default empty_brief (s_brief st) in
  let channel := str_or (s_channel st) (u8 "PUSH") in
  let tone := str_or (s_tone st) (u8 "amoremall") in
  let r :=
    match generate_template_candidates with
    | None => Ok stub_candidates
    | Some generate => generate brief channel tone (rag_context (s_rag st))
    end in
  match r with
  | Raise e => (Raise e, w)
  | Ok candidates =>
      let w := create_handoff (H_TEMPLATE_CANDIDATES (run_id st) candidates) w in
      let w := update_run (run_id st) None (Some (u8 "S4_CANDS")) None None w in
      (Ok {| run_id := run_id st; s_channel := s_channel st; s_tone := s_tone st;
             s_brief := s_brief st; s_target := s_target st; s_rag := s_rag st;
             s_candidates := Some candidates; s_compliance := s_compliance st;
             selected_template := selected_template st;
             execution_result := execution_result st |}, w)
  end.

(** The check [node_compliance] runs itself when [validate_candidates]
    is [None]. *)
Definition inline_check (c : Candidate) : ComplianceResult :=
  let body := default [] (body_with_slots c) in
  let hit := contains (u8 "100% 효과") body || contains (u8 "완치") body in
  {| r_template_id := template_id c;
     status := if hit then FAIL else PASS;
     reasons := if hit then [Exaggeration] else [];
     found_slots := None |}.

Definition node_compliance (st : CRMState) (w : World) : result CRMState * World :=
  let cands :=
    match s_candidates st with
    | Some b => candidates b
    | None => []
    end in
  let compliance :=
    match validate_candidates with
    | None => List.map inline_check cands
    | Some validate => validate cands
    end in
  let w := create_handoff (H_COMPLIANCE (run_id st) compliance) w in
  let w := update_run (run_id st) None (Some (u8 "S5_COMP")) None None w in
  (Ok {| run_id := run_id st; s_channel := s_channel st; s_tone := s_tone st;
         s_brief := s_brief st; s_target := s_target st; s_rag := s_rag st;
         s_candidates := s_candidates st; s_compliance := Some compliance;
         selected_template := selected_template st;
         execution_result := execution_result st |}, w).

(** [state.get("selected_template")], when it is truthy. *)
Definition selected_in_state (st : CRMState) : option Candidate :=
  match selected_template st with
  | Some c => if dict_truthy c then Some c else None
  | None => None
  end.

Definition node_execute (st : CRMState) (w : World) : result CRMState * World :=
  let brief := default empty_brief (s_brief st) in
  let found :=
    match selected_in_state st with
    | Some c => Some c
    | None => get_latest_selected w (run_id st)
    end in
  match found with
  | None => (Raise (RuntimeError "selected_template missing"), w)
  | Some selected =>
      let r :=
        match generate_final_message with
        | None =>
            do final_text <~ inline_format brief (default [] (body_with_slots selected));
            Ok {| used_template_id := template_id selected;
                  final_message := Some final_text;
                  slot_values := None;
                  rag_used_hint := None;
                  rag_used := Some (prefix 1500 (rag_context (s_rag st))) |}
        | Some generate => generate brief selected (rag_context (s_rag st))
        end in
      match r with
      | Raise e => (Raise e, w)
      | Ok res =>
          let w := create_handoff (H_EXECUTION_RESULT (run_id st) res) w in
          let w := update_run (run_id st) None (Some (u8 "S6_EXEC"))
                     (Some (prefix 16 (default [] (template_id selected))))
                     (Some (default [] (final_message res))) w in
          (Ok {| run_id := run_id st; s_channel := s_channel st; s_tone := s_tone st;
                 s_brief := s_brief st; s_target := s_target st; s_rag := s_rag st;
                 s_candidates := s_candidates st; s_compliance := s_compliance st;
                 selected_template := selected_template st;
                 execution_result := Some res |}, w)
      end
  end.

Definition route_after_compliance (st : CRMState) : Next :=
  match selected_in_state st with
  | Some _ => To stage_execute
  | None => END
  end.

(** *** The graph *)

Record Graph := {
  node_fn : Node -> CRMState -> World -> result CRMState * World;
  entry_point : Node;
  next : Node -> CRMState -> Next;
}.

Definition build_graph : Graph :=
  {| node_fn := fun n =>
       match n with
       | stage_load_brief => node_load_brief
       | stage_target => node_targeting
       | stage_rag => node_rag
       | stage_candidates => node_candidates
       | stage_compliance => node_compliance
       | stage_execute => node_execute
       end;
     entry_point := stage_load_brief;
     next := fun n st =>
       match n with
       | stage_load_brief => To stage_target
       | stage_target => To stage_rag
       | stage_rag => To stage_candidates
       | stage_candidates => To stage_compliance
       | stage_compliance => route_after_compliance st
       | stage_execute => END
       end |}.

Definition GRAPH : Graph := build_graph.

(** What an invocation leaves: the final state or the exception, the
    database, and the nodes that ran, in order. *)
Record Outcome := {
  returned : result CRMState;
  world : World;
  trace : list Node;
}.

(** The number of steps after which the graph library gives up. *)
Definition recursion_limit : nat := 25.

Fixpoint run_from (g : Graph) (fuel : nat) (n : Node) (st : CRMState)
    (w : World) (seen : list Node) : Outcome :=
  match fuel with
  | O => {| returned := Raise (Exn (u8 "GraphRecursionError"));
            world := w; trace := seen |}
  | S fuel =>
      let '(r, w) := node_fn g n st w in
      match r with
      | Raise e => {| returned := Raise e; world := w; trace := seen ++ [n] |}
      | Ok st =>
          match next g n st with
          | END => {| returned := Ok st; world := w; trace := seen ++ [n] |}
          | To m => run_from g fuel m st w (seen ++ [n])
          end
      end
  end.

(** [GRAPH.invoke(init_state)] *)
Definition invoke (g : Graph) (init_state : CRMState) (w : World) : Outcome :=
  run_from g recursion_limit (entry_point g) init_state w [].

Definition init (rid : pystr) (channel tone : option pystr)
    (selected : option Candidate) : CRMState :=
  {| run_id := rid; s_channel := channel; s_tone := tone; s_brief := None;
     s_target := None; s_rag := None; s_candidates := None;
     s_compliance := None; selected_template := selected;
     execution_result := None |}.

Definition run_until_candidates (rid channel tone : pystr) (w : World) : Outcome :=
  invoke GRAPH (init rid (Some channel) (Some tone) None) w.

(** The first block of [run_with_selection]: the selection is stored and
    the run is marked. *)
Definition record_selection (rid : pystr) (selected : Candidate) (w : World)
  : World :=
  let w := create_handoff (H_SELECTED_TEMPLATE rid selected) w in
  update_run rid None (Some (u8 "S6_EXEC"))
    (Some (prefix 16 (default [] (template_id selected)))) None w.

Definition run_with_selection (rid : pystr) (selected : Candidate) (w : World)
  : Outcome :=
  let w := record_selection rid selected w in
  invoke GRAPH (init rid None None (Some selected)) w.

End Orchestrator.

End workflow.

(** ** Vocabulary of the statements *)

(** The value of a digit string, read from the left. *)
Definition dec_val (ds : pystr) (acc : N) : N :=
  fold_left (fun a c => 10 * a + (c - 48)) ds acc.

Definition preview_labels : list pystr :=
  [u8 "10대"; u8 "20대"; u8 "30대"; u8 "40대"; u8 "50대+"; u8 "50대"].

(** A name the pattern can capture: word characters, at least one. *)
Definition slot_name (name : pystr) : Prop :=
  name <> [] /\ Forall (fun c => SlotPattern.is_word c = true) name.

(** What may follow a text without joining a match that starts in it:
    nothing, or a character that is neither a word character nor the
    closing brace. *)
Definition breaks (y : pystr) : Prop :=
  match y with
  | [] => True
  | c :: _ => SlotPattern.is_word c = false /\ c <> SlotPattern.rbrace
  end.

Definition str_lt (a b : pystr) : Prop := compilance.str_ltb a b = true.

(** The three rules, for any verdict they start from. *)
Inductive Rule :=
| Required (missing : list pystr)
| Banned (body : pystr)
| Length (body : pystr).

Definition apply_rule (v : compilance.Verdict) (r : Rule) : compilance.Verdict :=
  match r with
  | Required missing => compilance.rule_required missing v
  | Banned body => compilance.rule_banned body v
  | Length body => compilance.rule_length body v
  end.

Definition channels : list pystr := [u8 "PUSH"; u8 "SMS"; u8 "KAKAO"; u8 "EMAIL"].

Definition lacks_customer_name (req : list pystr) (c : Candidate) : Prop :=
  template_id c = Some (u8 "T001")
  /\ slot_schema c = Some {| required := Some req; optional := Some template_agent.OPTIONAL_SLOTS |}
  /\ u8 "customer_name" ∉ SlotPattern.findall (compilance.body_of c).


(** ** Sample inputs *)

Module Samples.

(** [normalize_campaign_text] on an empty campaign text. *)
Definition empty_normalized : Normalized :=
  {| normalized_text := []; keywords := []; category := []; occasion := [];
     finish_or_texture := []; mood_or_style := []; negative := [] |}.

Definition no_tone_guide (tone_id : pystr) : pystr := [].

Definition normalize_empty (campaign_text : pystr) : Normalized := empty_normalized.

(** The brief of the end-to-end scenario of the specification. *)
Definition year_end_brief : Brief :=
  {| campaign_text := Some (JStr []); goal := Some (JStr (u8 "연말 쿠션 프로모션"));
     campaign_goal := None; target_input := None |}.

(** The brief of a run without a goal and without a BRIEF handoff:
    [{"goal": None}]. *)
Definition no_goal_brief : Brief :=
  {| campaign_text := None; goal := Some JNull; campaign_goal := None;
     target_input := None |}.

Definition llm_down_error : exn := Exn (u8 "RuntimeError('OPENAI_API_KEY is missing')").

(** An LLM collaborator that is down. *)
Definition llm_down (p : Prompt) : result (list (pystr * json)) :=
  Raise llm_down_error.

(** An LLM collaborator that answers with an object without candidates. *)
Definition llm_empty (p : Prompt) : result (list (pystr * json)) := Ok [].

End Samples.

(** An age-band label of the UI: a decimal number of at most 4300 digits
    (the most [int()] converts) and ["대"], or the same with ["+"] for the
    open band at the top. *)
Definition age_label (a : pystr) : Prop :=
  exists B : N,
    (length (str_of_N B) <= 4300)%nat
    /\ (a = str_of_N B ++ u8 "대" \/ a = str_of_N B ++ u8 "대+").

(** The bands a brief selects. *)
Definition age_groups_of (brief : Brief) : list pystr :=
  default [] (target_input brief ≫= age_group).





Module TargetSamples.

(** A session in which the audience table cannot be inspected, while the
    feature table can. *)
Definition show_users_fails (db : unit) (table : pystr)
  : result (list pystr) * unit :=
  if PyStr.eqb table (u8 "users")
  then (Raise (Exn (u8 "OperationalError")), db)
  else (Ok [u8 "user_id"; u8 "skin_type"; u8 "skin_concern_primary"], db).

(** A session in which no table can be inspected. *)
Definition show_fails (db : unit) (table : pystr) : result (list pystr) * unit :=
  (Raise (Exn (u8 "OperationalError")), db).

Definition brief_of (ages : list pystr) : Brief :=
  {| campaign_text := None; goal := None; campaign_goal := None;
     target_input :=
       Some {| gender := Some [u8 "여"]; age_group := Some ages;
               skin_type := Some [u8 "건성"]; skin_concern := None |} |}.

End TargetSamples.

Module FlowSamples.

Definition rid : pystr := u8 "run-1".

Definition a_run : Run :=
  {| r_channel := Some (u8 "SMS"); r_campaign_goal := Some (u8 "연말 쿠션 프로모션");
     r_step_id := Some (u8 "S1_BRIEF"); r_candidate_id := None;
     r_rendered_text := None |}.

(** The candidate a marketer picked. *)
Definition picked : Candidate :=
  {| template_id := Some (u8 "T001"); title := Some (u8 "기본 포맷");
     slot_schema := None; body_with_slots := Some (u8 "{offer} {cta}");
     channel := None; tone := None; notes := None;
     default_slot_values := None |}.

(** Collaborators that always succeed, with payloads of no content. *)
Definition brief_of_goal (g : option pystr) : unit := tt.
Definition build_target (b : unit) (channel tone : pystr) : result unit := Ok tt.
Definition rag_stage (b : unit) (t : option unit) (channel tone : pystr)
  : result unit := Ok tt.
Definition rag_context (r : option unit) : pystr := [].
Definition generate_final_message (b : unit) (c : Candidate) (rag : pystr)
  : result Exec :=
  Ok {| used_template_id := template_id c; final_message := body_with_slots c;
        slot_values := None; rag_used_hint := Some rag; rag_used := None |}.
Definition inline_format (b : unit) (body : pystr) : result pystr := Ok body.

(** A database with the run and nothing else, and the same after a
    selection was stored for the run. *)
Definition fresh : workflow.World (BriefT:=unit) (TargetT:=unit) (RagT:=unit) :=
  {| workflow.runs := {[ rid := a_run ]}; workflow.handoffs := [] |}.

Definition selected : workflow.World (BriefT:=unit) (TargetT:=unit) (RagT:=unit) :=
  {| workflow.runs := {[ rid := a_run ]};
     workflow.handoffs := [workflow.H_SELECTED_TEMPLATE rid picked] |}.

Definition run_until_candidates :=
  workflow.run_until_candidates brief_of_goal tt build_target rag_stage
    rag_context None (Some generate_final_message) inline_format.

Definition run_with_selection :=
  workflow.run_with_selection brief_of_goal tt build_target rag_stage
    rag_context None (Some generate_final_message) inline_format.

End FlowSamples.

(** ** The evidence of [node_rag]: flow/workflow.py and rag/retriever.py *)

(** [md], the metadata of a match, with the keys the two loops read. *)
Record Metadata := {
  md_source : option pystr;
  md_section : option pystr;
  md_chunk_id : option pystr;
  md_text : option pystr;
}.

Module rag.

(** [s[:n]] for any integer [n]: a negative [n] counts from the end. *)
Definition slice_to (n : Z) (s : pystr) : pystr :=
  if (0 <=? n)%Z then firstn (Z.to_nat n) s
  else firstn (Z.to_nat (len s + n)) s.

Section Scores.

(** The score of a match is a float; the loops pass it on, and
    [build_context_text] prints it with three decimals. *)
Context {Score : Type}.
Variable zero : Score.
Variable fmt3 : Score -> pystr.

(** An element of [retrieved["matches"]]. *)
Record Match := {
  m_id : option pystr;
  m_score : option Score;
  m_metadata : option Metadata;
}.

Record Evidence := {
  e_id : pystr;
  e_score : Score;
  e_source : pystr;
  e_section : pystr;
  e_chunk_id : pystr;
  e_text : pystr;
}.

Definition source_of (m : Match) : pystr :=
  default (u8 "UNKNOWN") (m_metadata m ≫= md_source).

(** [(md.get("text") or "").strip()] *)
Definition text_of (m : Match) : pystr :=
  strip (default [] (m_metadata m ≫= md_text)).

(** [per_source[source]] of a [defaultdict(int)] *)
Definition count_of (per_source : gmap pystr Z) (source : pystr) : Z :=
  default 0%Z (per_source !! source).

(** One turn of the loop of [_build_rag_evidence]. *)
Definition evidence_step (max_each_source max_text_chars : Z)
    (st : gmap pystr Z * list Evidence) (m : Match)
  : gmap pystr Z * list Evidence :=
  let '(per_source, evidence) := st in
  let source := source_of m in
  let section := default [] (m_metadata m ≫= md_section) in
  let chunk_id := default [] (m_metadata m ≫= md_chunk_id) in
  let text := text_of m in
  match text with
  | [] => st
  | _ :: _ =>
      if (count_of per_source source >=? max_each_source)%Z then st
      else
        let per_source := <[source := (count_of per_source source + 1)%Z]> per_source in
        let text :=
          if (len text >? max_text_chars)%Z
          then slice_to max_text_chars text ++ u8 "…"
          else text in
        (per_source,
         evidence ++ [{| e_id := default [] (m_id m);
                         e_score := default zero (m_score m);
                         e_source := source;
                         e_section := section;
                         e_chunk_id := chunk_id;
                         e_text := text |}])
  end.

Definition _build_rag_evidence (matches : list Match)
    (max_each_source max_text_chars : Z) : list Evidence :=
  (fold_left (evidence_step max_each_source max_text_chars) matches (∅, [])).2.

(** One turn of the loop of [build_context_text]. *)
Definition context_step (max_each : Z)
    (st : gmap pystr Z * list pystr) (m : Match)
  : gmap pystr Z * list pystr :=
  let '(per_source, blocks) := st in
  let source := source_of m in
  let section := default [] (m_metadata m ≫= md_section) in
  let chunk_id := default [] (m_metadata m ≫= md_chunk_id) in
  let text := text_of m in
  match text with
  | [] => st
  | _ :: _ =>
      if (count_of per_source source >=? max_each)%Z then st
      else
        let per_source := <[source := (count_of per_source source + 1)%Z]> per_source in
        let score := default zero (m_score m) in
        let header :=
          u8 "[" ++ source ++ u8 " | " ++ section ++ u8 " | chunk=" ++ chunk_id
          ++ u8 " | score=" ++ fmt3 score ++ u8 "]" in
        (per_source, blocks ++ [header ++ [10] ++ text])
  end.

Definition context_blocks (matches : list Match) (max_each : Z) : list pystr :=
  (fold_left (context_step max_each) matches (∅, [])).2.

Definition build_context_text (matches : list Match) (max_each : Z) : pystr :=
  join [10; 10] (context_blocks matches max_each).

End Scores.

End rag.

(** How a stored text comes from the text of its match. *)
Definition cut (max_text_chars : Z) (text stored : pystr) : Prop :=
  ((len text <= max_text_chars)%Z /\ stored = text)
  \/ ((len text > max_text_chars)%Z
      /\ stored = rag.slice_to max_text_chars text ++ u8 "…").

Section EvidenceVocabulary.

Context {Score : Type}.
Variable zero : Score.
Variable fmt3 : Score -> pystr.

(** An evidence entry made from a match. *)
Definition made_from (max_text_chars : Z) (m : @rag.Match Score)
    (e : @rag.Evidence Score) : Prop :=
  rag.e_id e = default [] (rag.m_id m)
  /\ rag.e_score e = default zero (rag.m_score m)
  /\ rag.e_source e = rag.source_of m
  /\ rag.e_section e = default [] (rag.m_metadata m ≫= md_section)
  /\ rag.e_chunk_id e = default [] (rag.m_metadata m ≫= md_chunk_id)
  /\ rag.text_of m <> []
  /\ cut max_text_chars (rag.text_of m) (rag.e_text e).

(** The header and the text of a context block, from the entry that
    [_build_rag_evidence] makes of the same match. *)
Definition block_of (max_text_chars : Z) (e : @rag.Evidence Score)
    (block : pystr) : Prop :=
  exists text,
    block = u8 "[" ++ rag.e_source e ++ u8 " | " ++ rag.e_section e
            ++ u8 " | chunk=" ++ rag.e_chunk_id e
            ++ u8 " | score=" ++ fmt3 (rag.e_score e) ++ u8 "]"
            ++ [10] ++ text
    /\ cut max_text_chars text (rag.e_text e).

End EvidenceVocabulary.

Module RagSamples.

(** Two chunks of one document and one without text; scores in
    thousandths. *)
Definition guide (chunk text : string) : Metadata :=
  {| md_source := Some (u8 "brand_guide.md"); md_section := Some (u8 "톤");
     md_chunk_id := Some (u8 chunk); md_text := Some (u8 text) |}.

Definition three_matches : list (@rag.Match Z) :=
  [ {| rag.m_id := Some (u8 "a"); rag.m_score := Some 912%Z;
       rag.m_metadata := Some (guide "0" "  산뜻한 데일리 루틴  ") |};
    {| rag.m_id := Some (u8 "b"); rag.m_score := Some 850%Z;
       rag.m_metadata := Some (guide "1" "   ") |};
    {| rag.m_id := Some (u8 "c"); rag.m_score := None;
       rag.m_metadata := Some (guide "2" "회원 전용 혜택") |} ].

End RagSamples.

(** ** agents/execution_agent.py: the final message *)

(** The keys of the brief that [_default_slots] reads; a value is whatever
    the stored brief holds. *)
Record BriefSlots := {
  b_product_name : option json;
  b_benefit : option json;
  b_skin_concern_primary : option json;
  b_sensitivity_level : option json;
  b_goal : option json;
}.

(** What [random.choice] may pick for the coupon code. *)
Inductive Coupon := AMORE10 | WELCOME5 | CARE15.

(** The dict that [generate_final_message] returns. *)
Record FinalMessage := {
  fm_used_template_id : option pystr;
  fm_final_message : pystr;
  fm_slot_values : gmap pystr json;
  fm_rag_used_hint : pystr;
}.

Module final_message.

Definition coupon_text (c : Coupon) : pystr :=
  match c with
  | AMORE10 => u8 "AMORE10"
  | WELCOME5 => u8 "WELCOME5"
  | CARE15 => u8 "CARE15"
  end.

Definition campaign_link : pystr := u8 "https://example.com/campaign".

Section Str.

(** [str(v)] on a value of the brief or of the template. *)
Variable json_str : json -> pystr.

(** The dict literal of [_default_slots].  [coupon] is the choice made,
    [expiry] is [str(today + 7 days)]. *)
Definition _default_slots (coupon : Coupon) (expiry : pystr) (brief : BriefSlots)
  : gmap pystr json :=
  let product_name := default (JStr (u8 "상품")) (b_product_name brief) in
  let benefit := default (JStr (u8 "혜택")) (b_benefit brief) in
  list_to_map
    [ (u8 "customer_name", JStr (u8 "고객"));
      (u8 "product_name", product_name);
      (u8 "benefit", benefit);
      (u8 "coupon_code", JStr (coupon_text coupon));
      (u8 "expiry_date", JStr expiry);
      (u8 "deep_link", JStr campaign_link);
      (u8 "cta", JStr campaign_link);
      (u8 "unsubscribe", JStr (u8 "080-0000-0000"));
      (u8 "brand_name", JStr (u8 "AMORE"));
      (u8 "support_contact", JStr (u8 "고객센터 080-0000-0000"));
      (u8 "skin_concern_primary",
         default (JStr (u8 "피부 고민")) (b_skin_concern_primary brief));
      (u8 "sensitivity_level",
         JStr (json_str (default (JStr (u8 "any")) (b_sensitivity_level brief))));
      (u8 "persona", JStr (u8 "default"));
      (u8 "subject",
         JStr (u8 "[" ++ json_str (default (JStr (u8 "캠페인")) (b_goal brief))
               ++ u8 "] " ++ json_str product_name
               ++ u8 " " ++ json_str benefit)) ].

(** The loop [for k, v in defaults.items(): slot_values[k] = str(v)]. *)
Definition apply_defaults (defaults slot_values : gmap pystr json)
  : gmap pystr json :=
  map_fold (fun k v acc => <[k := JStr (json_str v)]> acc) slot_values defaults.

(** The slot values after the defaults of the template were written
    over the computed ones and the call to action was resolved. *)
Definition resolve_slots (coupon : Coupon) (expiry : pystr) (brief : BriefSlots)
    (selected_template : Candidate) : gmap pystr json :=
  let slot_values := _default_slots coupon expiry brief in
  let defaults := default ∅ (default_slot_values selected_template) in
  let slot_values := apply_defaults defaults slot_values in
  match slot_values !! u8 "cta" with
  | Some (JStr s) =>
      if PyStr.eqb s (u8 "{deep_link}")
      then <[u8 "cta" := default (JStr s) (slot_values !! u8 "deep_link")]>
             slot_values
      else slot_values
  | _ => slot_values
  end.

Definition generate_final_message (coupon : Coupon) (expiry : pystr)
    (brief : BriefSlots) (selected_template : Candidate) (rag_context : pystr)
  : FinalMessage :=
  let body := default [] (body_with_slots selected_template) in
  let slot_values := resolve_slots coupon expiry brief selected_template in
  let rendered := @execution_agent._render json json_str body slot_values in
  {| fm_used_template_id := template_id selected_template;
     fm_final_message := rendered;
     fm_slot_values := slot_values;
     fm_rag_used_hint := prefix 800 rag_context |}.

End Str.

End final_message.

(** The keys of the dict literal of [_default_slots]. *)
Definition default_keys : list pystr :=
  [ u8 "customer_name"; u8 "product_name"; u8 "benefit"; u8 "coupon_code";
    u8 "expiry_date"; u8 "deep_link"; u8 "cta"; u8 "unsubscribe"; u8 "brand_name";
    u8 "support_contact"; u8 "skin_concern_primary"; u8 "sensitivity_level";
    u8 "persona"; u8 "subject" ].

Module MessageSamples.

(** [str] on the values that print without quoting; the samples hold no
    lists and no objects. *)
Definition plain_str (j : json) : pystr :=
  match j with
  | JNull => u8 "None"
  | JBool true => u8 "True"
  | JBool false => u8 "False"
  | JNum n => if (n <? 0)%Z then u8 "-" ++ str_of_N (Z.to_N (- n))
              else str_of_N (Z.to_N n)
  | JStr s => s
  | JList _ | JObj _ => []
  end.

Definition cushion_brief : BriefSlots :=
  {| b_product_name := Some (JStr (u8 "쿠션")); b_benefit := None;
     b_skin_concern_primary := None; b_sensitivity_level := None;
     b_goal := Some (JStr (u8 "연말 쿠션 프로모션")) |}.

(** An answer of the LLM with two candidates: the first body has no
    placeholder at all, the second brings its own offer text. *)
Definition cand_a : json :=
  JObj [ (u8 "title", JStr (u8 "A"));
         (u8 "body_with_slots", JStr (u8 "연말 혜택 안내")) ].

Definition cand_b : json :=
  JObj [ (u8 "title", JStr (u8 "B"));
         (u8 "body_with_slots",
          JStr (u8 "{customer_name}님 {product_name} {offer} {cta}"));
         (u8 "default_slot_values",
          JObj [ (u8 "offer", JStr (u8 "10% 할인")) ]) ].

Definition two_candidates : list (pystr * json) :=
  [ (u8 "candidates", JList [cand_a; cand_b]) ].

Definition llm_two (p : Prompt) : result (list (pystr * json)) :=
  Ok two_candidates.

(** A state for a run that the database does not have. *)
Definition stray_state
  : workflow.CRMState (BriefT:=unit) (TargetT:=unit) (RagT:=unit) :=
  {| workflow.run_id := u8 "run-2"; workflow.s_channel := Some (u8 "SMS");
     workflow.s_tone := Some (u8 "amoremall"); workflow.s_brief := None;
     workflow.s_target := None; workflow.s_rag := None;
     workflow.s_candidates := None; workflow.s_compliance := None;
     workflow.selected_template := None; workflow.execution_result := None |}.

End MessageSamples.

(** The pairs of column names that [_detect_join_keys] can return: the key
    of the audience table and the key of the feature table. *)
Definition key_pairs : list (pystr * pystr) :=
  [ (u8 "user_id", u8 "user_id"); (u8 "id", u8 "user_id"); (u8 "id", u8 "id");
    (u8 "username", u8 "username") ].

(** The four selections of a brief's target input. *)
Definition selections (brief : Brief) : list (list pystr) :=
  let ti := target_input brief in
  [ default [] (ti ≫= gender); default [] (ti ≫= age_group);
    default [] (ti ≫= skin_type); default [] (ti ≫= skin_concern) ].

(** The stage a node stores its handoff under; LOAD_BRIEF stores none. *)
Definition node_stage (n : Node) : option Stage :=
  match n with
  | stage_load_brief => None
  | stage_target => Some ST_TARGET
  | stage_rag => Some ST_RAG
  | stage_candidates => Some ST_TEMPLATE_CANDIDATES
  | stage_compliance => Some ST_COMPLIANCE
  | stage_execute => Some ST_EXECUTION_RESULT
  end.

(** A Hangul syllable. *)
Definition hangul (c : N) : Prop := 44032 <= c <= 55203.

(** The run a handoff belongs to. *)
Definition handoff_run {BriefT TargetT RagT : Type}
    (h : workflow.Handoff (BriefT:=BriefT) (TargetT:=TargetT) (RagT:=RagT)) : pystr :=
  match h with
  | workflow.H_BRIEF r _ | workflow.H_TARGET r _ | workflow.H_RAG r _
  | workflow.H_TEMPLATE_CANDIDATES r _ | workflow.H_COMPLIANCE r _
  | workflow.H_SELECTED_TEMPLATE r _ | workflow.H_EXECUTION_RESULT r _ => r
  end.

(** The step marker a node leaves on the run; LOAD_BRIEF leaves none. *)
Definition node_step (n : Node) : option pystr :=
  match n with
  | stage_load_brief => None
  | stage_target => Some (u8 "S2_TARGET")
  | stage_rag => Some (u8 "S3_RAG")
  | stage_candidates => Some (u8 "S4_CANDS")
  | stage_compliance => Some (u8 "S5_COMP")
  | stage_execute => Some (u8 "S6_EXEC")
  end.

(** The writes of a stage that stores one handoff and then marks the run:
    from [w] to [w'], under the state [st] of the stage [n]. *)
Definition wrote {BriefT TargetT RagT : Type} (n : Node)
    (st : workflow.CRMState (BriefT:=BriefT) (TargetT:=TargetT) (RagT:=RagT))
    (w w' : workflow.World (BriefT:=BriefT) (TargetT:=TargetT) (RagT:=RagT)) : Prop :=
  exists h,
    workflow.handoffs w' = workflow.handoffs w ++ [h]
    /\ Some (workflow.stage_of h) = node_stage n
    /\ handoff_run h = workflow.run_id st
    /\ (forall rid', rid' <> workflow.run_id st ->
          workflow.runs w' !! rid' = workflow.runs w !! rid')
    /\ (forall r, workflow.runs w !! workflow.run_id st = Some r ->
          exists r', workflow.runs w' !! workflow.run_id st = Some r'
                     /\ r_step_id r' = node_step n).

(** * Properties *)

(** ** Strings *)

Section StringFacts.

Lemma startswith_spec (s p : pystr) :
  startswith s p = true <-> exists post, s = p ++ post.
Proof.
  revert s; induction p as [|a p IH]; intros s; simpl.
  - split; [intros _; by exists s | reflexivity].
  - destruct s as [|b s].
    + split; [done | intros [post Hp]; discriminate].
    + rewrite andb_true_iff, N.eqb_eq, IH. split.
      * intros [-> [post ->]]. by exists post.
      * intros [post Hp]. injection Hp as -> ->. eauto.
Qed.

Lemma contains_spec (sub s : pystr) :
  contains sub s = true <-> exists pre post, s = pre ++ sub ++ post.
Proof.
  induction s as [|c s IH].
  - simpl. rewrite orb_false_r, startswith_spec. split.
    + intros [post Hp]. by exists [], post.
    + intros (pre & post & Hp). destruct pre; [|discriminate].
      exists post. exact Hp.
  - cbn [contains]. rewrite orb_true_iff, IH, startswith_spec. split.
    + intros [[post Hp] | (pre & post & Hp)].
      * by exists [], post.
      * exists (c :: pre), post. by rewrite Hp.
    + intros (pre & post & Hp). destruct pre as [|d pre].
      * left. by exists post.
      * right. injection Hp as -> ->. by exists pre, post.
Qed.

Lemma lstrip_cons_keep (c : N) (s : pystr) :
  is_space c = false -> lstrip (c :: s) = c :: s.
Proof. intros Hc. simpl. by rewrite Hc. Qed.

Lemma lstrip_cons_drop (c : N) (s : pystr) :
  is_space c = true -> lstrip (c :: s) = lstrip s.
Proof. intros Hc. simpl. by rewrite Hc. Qed.

(** A string whose last character is not white space keeps its end. *)
Lemma rstrip_snoc_keep (s : pystr) (c : N) :
  is_space c = false -> rstrip (s ++ [c]) = s ++ [c].
Proof.
  intros Hc. unfold rstrip. rewrite rev_app_distr. simpl.
  rewrite Hc. simpl. by rewrite rev_involutive.
Qed.

(** [lstrip] only removes a prefix. *)
Lemma lstrip_suffix (s : pystr) : exists ws, s = ws ++ lstrip s
  /\ Forall (fun c => is_space c = true) ws.
Proof.
  induction s as [|c s (ws & Hs & Hws)].
  - by exists [].
  - simpl. destruct (is_space c) eqn:Hc.
    + exists (c :: ws). split; [by rewrite Hs at 1 | by constructor].
    + by exists [].
Qed.

Lemma lstrip_last (s : pystr) (c : N) :
  is_space c = false -> exists t, lstrip (s ++ [c]) = t ++ [c].
Proof.
  intros Hc. induction s as [|d s IH]; simpl.
  - rewrite Hc. by exists [].
  - destruct (is_space d); [exact IH | by exists (d :: s)].
Qed.

(** So [strip] of a string that ends in such a character is [lstrip]. *)
Lemma strip_snoc (s : pystr) (c : N) :
  is_space c = false -> strip (s ++ [c]) = lstrip (s ++ [c]).
Proof.
  intros Hc. unfold strip. destruct (lstrip_last s c Hc) as [t ->].
  by apply rstrip_snoc_keep.
Qed.

Lemma digit_not_space (c : N) : is_digit c = true -> is_space c = false.
Proof.
  unfold is_digit, is_space. rewrite andb_true_iff, !N.leb_le. intros [H1 H2].
  repeat match goal with
         | |- context [?a <=? ?b] =>
             first [ rewrite (proj2 (N.leb_gt a b)) by lia
                   | rewrite (proj2 (N.leb_le a b)) by lia ]
         | |- context [?a =? ?b] => rewrite (proj2 (N.eqb_neq a b)) by lia
         end.
  reflexivity.
Qed.

Lemma strip_digits (ds : pystr) :
  Forall (fun c => is_digit c = true) ds -> strip ds = ds.
Proof.
  intros Hd. destruct (rev ds) as [|c r] eqn:Hr.
  - apply (f_equal (@rev N)) in Hr. rewrite rev_involutive in Hr. by subst.
  - apply (f_equal (@rev N)) in Hr. rewrite rev_involutive in Hr. simpl in Hr.
    subst ds. apply Forall_app in Hd as [Hd1 Hd2].
    apply Forall_inv in Hd2. rewrite strip_snoc by by apply digit_not_space.
    destruct (rev r) as [|d t]; simpl.
    + by rewrite (digit_not_space c).
    + apply Forall_inv in Hd1. by rewrite (digit_not_space d).
Qed.

End StringFacts.

(** ** Decimal numerals *)

Section DecimalFacts.


Lemma uint_digits_digits (d : Decimal.uint) :
  Forall (fun c => is_digit c = true) (uint_digits d).
Proof. induction d; simpl; constructor; auto. Qed.

Lemma int_digits_digits (ds : pystr) (acc : N) (prev : bool) :
  Forall (fun c => is_digit c = true) ds ->
  ds <> [] \/ prev = true ->
  int_digits ds acc prev = Some (dec_val ds acc).
Proof.
  intros Hd. revert acc prev.
  induction Hd as [|c ds Hc Hd IH]; intros acc prev Hne.
  - destruct Hne as [Hne | ->]; [done | reflexivity].
  - simpl. rewrite Hc. apply IH. by right.
Qed.

Lemma dec_val_of_uint_acc (d : Decimal.uint) (acc : positive) :
  dec_val (uint_digits d) (N.pos acc) = N.pos (Pos.of_uint_acc d acc).
Proof.
  revert acc. unfold dec_val.
  induction d; intros acc; simpl; [reflexivity | rewrite <- IHd; f_equal; lia ..].
Qed.

Lemma dec_val_of_uint (d : Decimal.uint) :
  dec_val (uint_digits d) 0 = N.of_uint d.
Proof.
  unfold N.of_uint.
  induction d; simpl; try reflexivity; try exact IHd;
    apply (dec_val_of_uint_acc d).
Qed.

Lemma dec_val_str_of_N (n : N) : dec_val (str_of_N n) 0 = n.
Proof.
  unfold str_of_N. rewrite dec_val_of_uint. apply DecimalN.Unsigned.of_to.
Qed.

Lemma str_of_N_digits (n : N) : Forall (fun c => is_digit c = true) (str_of_N n).
Proof. apply uint_digits_digits. Qed.

Lemma str_of_N_nonempty (n : N) : str_of_N n <> [].
Proof.
  unfold str_of_N. destruct n as [|p]; [done|]. simpl.
  pose proof (DecimalPos.Unsigned.to_uint_nonnil p) as Hp.
  by destruct (Pos.to_uint p).
Qed.

(** *** [int()] on digit strings *)

Lemma int_ascii_digit (c : N) : is_digit c = true -> int_ascii c = c.
Proof.
  unfold is_digit, int_ascii. rewrite andb_true_iff, !N.leb_le. intros [H1 H2].
  by rewrite (proj2 (N.ltb_lt c 127)) by lia.
Qed.

Lemma map_int_ascii_digits (ds : pystr) :
  Forall (fun c => is_digit c = true) ds -> List.map int_ascii ds = ds.
Proof.
  induction 1 as [|c ds Hc Hd IH]; [done|]. simpl.
  by rewrite int_ascii_digit, IH.
Qed.

Lemma digit_not_c_space (c : N) : is_digit c = true -> c_space c = false.
Proof.
  unfold is_digit, c_space. rewrite andb_true_iff, !N.leb_le. intros [H1 H2].
  rewrite (proj2 (N.leb_gt c 13)) by lia.
  rewrite (proj2 (N.eqb_neq c 32)) by lia. by rewrite andb_false_r.
Qed.

Lemma skip_space_digits (ds : pystr) :
  Forall (fun c => is_digit c = true) ds -> skip_space ds = ds.
Proof. intros [|c t Hc _]; [done|]. simpl. by rewrite digit_not_c_space. Qed.

Lemma int_trim_digits (ds : pystr) :
  Forall (fun c => is_digit c = true) ds -> int_trim ds = ds.
Proof.
  intros Hd. unfold int_trim. rewrite (skip_space_digits ds Hd).
  rewrite skip_space_digits by by apply Forall_rev. apply rev_involutive.
Qed.

Lemma count_digits_all (ds : pystr) :
  Forall (fun c => is_digit c = true) ds -> count_digits ds = length ds.
Proof.
  unfold count_digits. induction 1 as [|c ds Hc Hd IH]; [done|]. simpl.
  rewrite Hc. simpl. by rewrite IH.
Qed.

(** [int()] on a string of ASCII digits: its value, unless the string has
    more than 4300 digits. *)
Lemma py_int_digits (ds : pystr) :
  Forall (fun c => is_digit c = true) ds -> ds <> [] ->
  py_int ds
  = if (int_max_str_digits <? length ds)%nat then None
    else Some (Z.of_N (dec_val ds 0)).
Proof.
  intros Hd Hne. unfold py_int.
  rewrite map_int_ascii_digits, int_trim_digits by done.
  pose proof (count_digits_all ds Hd) as Hcount.
  destruct ds as [|c t]; [done|].
  pose proof (Forall_inv Hd) as Hc. unfold is_digit in Hc.
  apply andb_true_iff in Hc as [H1%N.leb_le H2%N.leb_le].
  rewrite (proj2 (N.eqb_neq c 45)), (proj2 (N.eqb_neq c 43)) by lia.
  unfold limited_digits. rewrite Hcount.
  destruct (int_max_str_digits <? length (c :: t))%nat; [done|].
  by rewrite int_digits_digits by (auto; by left).
Qed.

(** [int(str(n)) == n], for a number of at most 4300 digits. *)
Lemma py_int_str_of_N (n : N) :
  (length (str_of_N n) <= int_max_str_digits)%nat ->
  py_int (str_of_N n) = Some (Z.of_N n).
Proof.
  intros Hlen.
  rewrite py_int_digits by (apply str_of_N_digits || apply str_of_N_nonempty).
  rewrite (proj2 (Nat.ltb_ge _ _)) by done. by rewrite dec_val_str_of_N.
Qed.

Lemma py_int_str_of_N_long (n : N) :
  (int_max_str_digits < length (str_of_N n))%nat ->
  py_int (str_of_N n) = None.
Proof.
  intros Hlen.
  rewrite py_int_digits by (apply str_of_N_digits || apply str_of_N_nonempty).
  by rewrite (proj2 (Nat.ltb_lt _ _)) by done.
Qed.

End DecimalFacts.

(** ** Age bands (C8) *)

Section AgeBands.

Lemma u8_dae : u8 "대" = [45824].
Proof. reflexivity. Qed.

Lemma u8_dae_plus : u8 "대+" = [45824; 43].
Proof. reflexivity. Qed.

Lemma replace_digits_dae (ds : pystr) :
  Forall (fun c => is_digit c = true) ds ->
  replace (ds ++ [45824]) [45824] [] = ds.
Proof.
  unfold replace. induction 1 as [|c ds Hc Hd IH]; [reflexivity|].
  cbn [app replace_go startswith].
  unfold is_digit in Hc. apply andb_true_iff in Hc as [H1%N.leb_le H2%N.leb_le].
  rewrite (proj2 (N.eqb_neq 45824 c)) by lia. cbn [andb]. by rewrite IH.
Qed.

Lemma replace_digits_dae_plus (ds : pystr) :
  Forall (fun c => is_digit c = true) ds ->
  replace (ds ++ [45824; 43]) [45824; 43] [] = ds.
Proof.
  unfold replace. induction 1 as [|c ds Hc Hd IH]; [reflexivity|].
  cbn [app replace_go startswith].
  unfold is_digit in Hc. apply andb_true_iff in Hc as [H1%N.leb_le H2%N.leb_le].
  rewrite (proj2 (N.eqb_neq 45824 c)) by lia. cbn [andb]. by rewrite IH.
Qed.

Lemma endswith_dae (ds : pystr) : endswith (ds ++ [45824]) [45824; 43] = false.
Proof. unfold endswith. by rewrite rev_app_distr. Qed.

Lemma endswith_dae_plus (ds : pystr) :
  endswith (ds ++ [45824; 43]) [45824; 43] = true.
Proof. unfold endswith. by rewrite rev_app_distr. Qed.

(** The builder on a closed band ["B대"]. *)
Lemma age_group_closed (this_year : Z) (B : N) :
  (length (str_of_N B) <= int_max_str_digits)%nat ->
  targeting._age_group_to_birth_year_range this_year (str_of_N B ++ u8 "대")
  = Ok (Some (this_year - (Z.of_N B + 9))%Z, Some (this_year - Z.of_N B)%Z).
Proof.
  intros Hlen. unfold targeting._age_group_to_birth_year_range.
  rewrite u8_dae_plus, u8_dae, endswith_dae.
  rewrite replace_digits_dae by apply str_of_N_digits.
  by rewrite py_int_str_of_N.
Qed.

(** The builder on an open band ["B대+"]. *)
Lemma age_group_open (this_year : Z) (B : N) :
  (length (str_of_N B) <= int_max_str_digits)%nat ->
  targeting._age_group_to_birth_year_range this_year (str_of_N B ++ u8 "대+")
  = Ok (None, Some (this_year - Z.of_N B)%Z).
Proof.
  intros Hlen. unfold targeting._age_group_to_birth_year_range.
  rewrite u8_dae_plus, endswith_dae_plus.
  rewrite replace_digits_dae_plus by apply str_of_N_digits.
  by rewrite py_int_str_of_N.
Qed.

(** A band of more than 4300 digits: [int()] refuses it. *)
Lemma age_group_long (this_year : Z) (B : N) :
  (int_max_str_digits < length (str_of_N B))%nat ->
  targeting._age_group_to_birth_year_range this_year (str_of_N B ++ u8 "대")
  = Raise ValueError
  /\ targeting._age_group_to_birth_year_range this_year (str_of_N B ++ u8 "대+")
     = Raise ValueError.
Proof.
  intros Hlen. unfold targeting._age_group_to_birth_year_range. split.
  - rewrite u8_dae_plus, u8_dae, endswith_dae.
    rewrite replace_digits_dae by apply str_of_N_digits.
    by rewrite py_int_str_of_N_long.
  - rewrite u8_dae_plus, endswith_dae_plus.
    rewrite replace_digits_dae_plus by apply str_of_N_digits.
    by rewrite py_int_str_of_N_long.
Qed.

(** The helper next to the class in [db/repo.py] is the same function. *)
Lemma repo_helper_same :
  repo._age_group_to_birth_range = targeting._age_group_to_birth_year_range.
Proof. reflexivity. Qed.


Lemma band_range_outside (current_year : Z) (b : pystr) :
  strip b ∉ preview_labels -> repo.band_range current_year b = None.
Proof.
  intros Hb. unfold repo.band_range, PyStr.eqb, mem.
  repeat case_bool_decide; try reflexivity; exfalso; apply Hb;
    unfold preview_labels; subst; set_solver.
Qed.

End AgeBands.

(** C8, as the code has it.  For every natural number [B] of at most 4300
    decimal digits, the target-query builder maps the band ["B대"] to the
    birth years [this_year - (B + 9) .. this_year - B] and the band ["B대+"]
    to the range with no lower bound and the upper bound [this_year - B].
    A band with more digits makes it raise [ValueError]: [int()] refuses a
    string of more than 4300 digits.  The preview query of
    [Repo.preview_target_users] does not compute the ranges: it has a
    table, in which the bands 10대 to 40대 get the same ranges, the bands
    ["50대+"] and ["50대"] both get [1900 .. current_year - 50], and every
    other label gets no range.  Only the helper that follows the class in
    [db/repo.py] is the function of the builder again. *)
Theorem C8_age_band_ranges (this_year : Z) (B : N) :
  ((length (str_of_N B) <= 4300)%nat ->
   targeting._age_group_to_birth_year_range this_year (str_of_N B ++ u8 "대")
   = Ok (Some (this_year - (Z.of_N B + 9))%Z, Some (this_year - Z.of_N B)%Z)
   /\ targeting._age_group_to_birth_year_range this_year (str_of_N B ++ u8 "대+")
      = Ok (None, Some (this_year - Z.of_N B)%Z))
  /\ ((4300 < length (str_of_N B))%nat ->
      targeting._age_group_to_birth_year_range this_year (str_of_N B ++ u8 "대")
      = Raise ValueError
      /\ targeting._age_group_to_birth_year_range this_year (str_of_N B ++ u8 "대+")
         = Raise ValueError)
  /\ repo.band_range this_year (u8 "10대") = Some (this_year - 19, this_year - 10)%Z
  /\ repo.band_range this_year (u8 "20대") = Some (this_year - 29, this_year - 20)%Z
  /\ repo.band_range this_year (u8 "30대") = Some (this_year - 39, this_year - 30)%Z
  /\ repo.band_range this_year (u8 "40대") = Some (this_year - 49, this_year - 40)%Z
  /\ repo.band_range this_year (u8 "50대+") = Some (1900, this_year - 50)%Z
  /\ repo.band_range this_year (u8 "50대") = Some (1900, this_year - 50)%Z
  /\ (forall b, strip b ∉ preview_labels -> repo.band_range this_year b = None)
  /\ repo._age_group_to_birth_range = targeting._age_group_to_birth_year_range.
Proof.
  split; [intros Hlen; split; [by apply age_group_closed | by apply age_group_open]|].
  split; [apply age_group_long|].
  repeat (split; [reflexivity|]).
  split; [|reflexivity].
  intros b. apply band_range_outside.
Qed.

(** The year 2026: ["20대"] is 1997..2006 and ["50대+"] is ..1976 for the
    builder. *)
Lemma C8_age_band_ranges_witness :
  targeting._age_group_to_birth_year_range 2026 (u8 "20대")
  = Ok (Some 1997%Z, Some 2006%Z)
  /\ targeting._age_group_to_birth_year_range 2026 (u8 "50대+")
     = Ok (None, Some 1976%Z)
  /\ repo.band_range 2026 (u8 "60대") = None.
Proof.
  pose proof (C8_age_band_ranges 2026 20) as (H1 & _).
  pose proof (C8_age_band_ranges 2026 50) as (H2 & _ & _ & _ & _ & _ & _ & _ & H & _).
  split; [apply H1; vm_compute; lia|]. split; [apply H2; vm_compute; lia|].
  apply H. vm_compute. intros Hin.
  repeat (apply elem_of_cons in Hin as [Hin|Hin]; [discriminate|]).
  by apply elem_of_nil in Hin.
Defined.

(** C8 as stated fails for the preview query: the builder leaves the lower
    bound of ["50대+"] open, the preview closes it at 1900, so that a birth
    year 1890 passes the one and not the other; and the preview has no
    range for ["60대"], which the builder maps to 1957..1966. *)
Lemma C8_preview_differs :
  targeting._age_group_to_birth_year_range 2026 (u8 "50대+") = Ok (None, Some 1976%Z)
  /\ repo.band_range 2026 (u8 "50대+") = Some (1900, 1976)%Z
  /\ repo.birth_year_clause (repo.band_ranges 2026 [u8 "50대+"]) 1890 = false
  /\ targeting._age_group_to_birth_year_range 2026 (u8 "60대")
     = Ok (Some 1957%Z, Some 1966%Z)
  /\ repo.band_range 2026 (u8 "60대") = None
  /\ repo.band_range 2026 (u8 "60대") <> Some (2026 - (60 + 9), 2026 - 60)%Z
  /\ repo.birth_year_clause (repo.band_ranges 2026 [u8 "60대"]) 2020 = true.
Proof. vm_compute. repeat split. discriminate. Qed.

(** ** The slot pattern *)

Section SlotPatternFacts.

Import SlotPattern.


Lemma breaks_braced (name rest : pystr) : breaks (braced name ++ rest).
Proof. by split. Qed.

Lemma take_word_length (s : pystr) : (length (take_word s) <= length s)%nat.
Proof. induction s as [|c s IH]; simpl; [lia|]. destruct (is_word c); simpl; lia. Qed.

Lemma take_word_word (s : pystr) : Forall (fun c => is_word c = true) (take_word s).
Proof.
  induction s as [|c s IH]; simpl; [constructor|].
  destruct (is_word c) eqn:Hc; by constructor.
Qed.

Lemma take_word_prefix (s : pystr) : s = take_word s ++ drop (length (take_word s)) s.
Proof.
  induction s as [|c s IH]; simpl; [done|].
  destruct (is_word c); simpl; [by rewrite <- IH | done].
Qed.

Lemma take_word_app (t y : pystr) :
  breaks y -> take_word (t ++ y) = take_word t.
Proof.
  intros Hy. induction t as [|c t IH]; simpl.
  - destruct y as [|d y]; [done|]. simpl. destruct Hy as [-> _]. done.
  - by rewrite IH.
Qed.

Lemma take_word_all (name rest : pystr) (c : N) :
  Forall (fun c => is_word c = true) name -> is_word c = false ->
  take_word (name ++ c :: rest) = name.
Proof.
  intros Hn Hc. induction Hn as [|d name Hd Hn IH]; simpl.
  - by rewrite Hc.
  - by rewrite Hd, IH.
Qed.

Lemma match_at_braced (name rest : pystr) :
  slot_name name ->
  match_at (braced name ++ rest) = Some (name, S (S (length name))).
Proof.
  intros [Hne Hw]. unfold match_at, braced. cbn [app].
  rewrite N.eqb_refl. rewrite <- app_assoc. cbn [app].
  rewrite (take_word_all name rest rbrace Hw eq_refl).
  destruct name as [|a nm]; [done|]. rewrite drop_app_length. by rewrite N.eqb_refl.
Qed.

(** A match determines the text it covers. *)
Lemma match_at_Some (s name : pystr) (n : nat) :
  match_at s = Some (name, n) ->
  slot_name name /\ n = S (S (length name)) /\ s = braced name ++ drop n s.
Proof.
  unfold match_at. destruct s as [|c t]; [done|].
  destruct (c =? lbrace) eqn:Hc; [|done]. apply N.eqb_eq in Hc as ->.
  pose proof (take_word_word t) as Hw. pose proof (take_word_prefix t) as Hp.
  destruct (take_word t) as [|a name'] eqn:Hn; [done|].
  destruct (drop (length (a :: name')) t) as [|d r] eqn:Hd; [done|].
  destruct (d =? rbrace) eqn:Hd'; [|done]. apply N.eqb_eq in Hd' as ->.
  intros [= <- <-]. split; [by split|]. split; [done|].
  rewrite Hp. unfold braced. cbn [drop].
  replace (S (S (length name'))) with (length ((a :: name') ++ [rbrace]))
    by (rewrite length_app; simpl; lia).
  replace ((a :: name') ++ rbrace :: r) with (((a :: name') ++ [rbrace]) ++ r)
    by (by rewrite <- app_assoc).
  by rewrite drop_app_length.
Qed.

Lemma match_at_length (s name : pystr) (n : nat) :
  match_at s = Some (name, n) -> (n <= length s)%nat.
Proof.
  intros (_ & -> & Hs)%match_at_Some.
  apply (f_equal (@length N)) in Hs. unfold braced in Hs.
  rewrite length_app in Hs. simpl in Hs. rewrite length_app in Hs.
  simpl in Hs. lia.
Qed.

(** Text after a match attempt changes nothing, if it [breaks]. *)
Lemma match_at_app (s y : pystr) :
  s <> [] -> breaks y -> match_at (s ++ y) = match_at s.
Proof.
  intros Hs Hy. destruct s as [|c t]; [done|]. unfold match_at. cbn [app].
  destruct (c =? lbrace); [|done]. rewrite take_word_app by done.
  pose proof (take_word_length t) as Hl.
  destruct (take_word t) as [|a name] eqn:Hn; [done|].
  destruct (decide (length (a :: name) = length t)) as [He|He].
  - rewrite drop_app_length' by done. rewrite (drop_ge t) by lia.
    destruct y as [|d y]; [done|]. destruct Hy as [_ Hd].
    by rewrite (proj2 (N.eqb_neq d rbrace)).
  - rewrite drop_app_le by lia.
    destruct (drop (length (a :: name)) t) as [|d r] eqn:Hd; [|done].
    apply drop_nil_inv in Hd. lia.
Qed.

Section Scan.

Variable repl : pystr -> pystr.

Lemma sub_go_app (x y : pystr) (skip : nat) :
  breaks y -> (skip <= length x)%nat ->
  sub_go repl (x ++ y) skip = sub_go repl x skip ++ sub_go repl y O.
Proof.
  intros Hy. revert skip. induction x as [|c t IH]; intros skip Hs.
  - simpl in Hs. by replace skip with O by lia.
  - cbn [app sub_go]. destruct skip as [|k].
    + change (c :: t ++ y) with ((c :: t) ++ y). rewrite match_at_app by done.
      destruct (match_at (c :: t)) as [[name n]|] eqn:Hm.
      * apply match_at_length in Hm as Hn.
        apply match_at_Some in Hm as (_ & Hn' & _).
        rewrite IH by (simpl in Hn; lia). by rewrite <- app_assoc.
      * rewrite IH by lia. done.
    + apply IH. simpl in Hs. lia.
Qed.

Lemma sub_go_skip (pre rest : pystr) :
  sub_go repl (pre ++ rest) (length pre) = sub_go repl rest O.
Proof. induction pre as [|c pre IH]; [by destruct rest | exact IH]. Qed.

Lemma sub_braced (name rest : pystr) :
  slot_name name ->
  sub repl (braced name ++ rest) = repl name ++ sub repl rest.
Proof.
  intros Hn. unfold sub.
  pose proof (match_at_braced name rest Hn) as Hm.
  unfold braced in *. cbn [app sub_go] in *. rewrite Hm.
  f_equal. rewrite <- app_assoc.
  replace (S (S (length name)) - 1)%nat with (length (name ++ [rbrace]))
    by (rewrite length_app; simpl; lia).
  rewrite (app_assoc name). apply sub_go_skip.
Qed.

(** The text is rebuilt from what [repl] returns: where [repl] gives
    back the braced name for every name found, nothing changes. *)
Lemma sub_go_fixed (s : pystr) (skip : nat) :
  (forall name, name ∈ findall_go s skip -> repl name = braced name) ->
  sub_go repl s skip = drop skip s.
Proof.
  revert skip. induction s as [|c t IH]; intros skip Hr.
  - by destruct skip.
  - cbn [sub_go findall_go] in *. destruct skip as [|k].
    + destruct (match_at (c :: t)) as [[name n]|] eqn:Hm.
      * apply match_at_Some in Hm as (_ & -> & Hs).
        rewrite Hr by set_solver. rewrite IH by set_solver.
        rewrite drop_0.
        transitivity (braced name ++ drop (S (S (length name))) (c :: t));
          [|by symmetry].
        done.
      * rewrite IH by done. done.
    + by apply IH.
Qed.

End Scan.

Lemma findall_go_app (x y : pystr) (skip : nat) :
  breaks y -> (skip <= length x)%nat ->
  findall_go (x ++ y) skip = findall_go x skip ++ findall_go y O.
Proof.
  intros Hy. revert skip. induction x as [|c t IH]; intros skip Hs.
  - simpl in Hs. by replace skip with O by lia.
  - cbn [app findall_go]. destruct skip as [|k].
    + change (c :: t ++ y) with ((c :: t) ++ y). rewrite match_at_app by done.
      destruct (match_at (c :: t)) as [[name n]|] eqn:Hm.
      * apply match_at_length in Hm as Hn.
        rewrite IH by (simpl in Hn; lia). done.
      * by rewrite IH by lia.
    + apply IH. simpl in Hs. lia.
Qed.

Lemma findall_go_skip (pre rest : pystr) :
  findall_go (pre ++ rest) (length pre) = findall_go rest O.
Proof. induction pre as [|c pre IH]; [by destruct rest | exact IH]. Qed.

Lemma findall_braced (name rest : pystr) :
  slot_name name ->
  findall (braced name ++ rest) = name :: findall rest.
Proof.
  intros Hn. unfold findall.
  pose proof (match_at_braced name rest Hn) as Hm.
  unfold braced in *. cbn [app findall_go] in *. rewrite Hm.
  f_equal. rewrite <- app_assoc.
  replace (S (S (length name)) - 1)%nat with (length (name ++ [rbrace]))
    by (rewrite length_app; simpl; lia).
  rewrite (app_assoc name). apply findall_go_skip.
Qed.

(** Every name found is a slot name. *)
Lemma findall_go_names (s : pystr) (skip : nat) :
  Forall slot_name (findall_go s skip).
Proof.
  revert skip. induction s as [|c t IH]; intros skip; [constructor|].
  cbn [findall_go]. destruct skip; [|apply IH].
  destruct (match_at (c :: t)) as [[name n]|] eqn:Hm; [|apply IH].
  constructor; [|apply IH]. by apply match_at_Some in Hm as [? _].
Qed.

End SlotPatternFacts.

(** ** Rendering (C10) *)

(** C10.  For every body and every mapping, [_render] works placeholder by
    placeholder: around a placeholder [{name}] the text before and the text
    after are rendered on their own, and the placeholder itself becomes the
    string form of the value when [name] has an entry in the mapping, and
    stays as it is, braces included, when it has none.  A text in which no
    placeholder has an entry comes back unchanged.  [_render] is a total
    function: it does not raise. *)
Theorem C10_render {V : Type} `{execution_agent.PyShow V}
    (slot_values : gmap pystr V) (lit name rest : pystr) :
  slot_name name ->
  (forall v, slot_values !! name = Some v ->
     execution_agent._render (lit ++ SlotPattern.braced name ++ rest) slot_values
     = execution_agent._render lit slot_values
       ++ execution_agent.py_str v
       ++ execution_agent._render rest slot_values)
  /\ (slot_values !! name = None ->
     execution_agent._render (lit ++ SlotPattern.braced name ++ rest) slot_values
     = execution_agent._render lit slot_values
       ++ SlotPattern.braced name
       ++ execution_agent._render rest slot_values)
  /\ (forall body,
        (forall n, n ∈ SlotPattern.findall body -> slot_values !! n = None) ->
        execution_agent._render body slot_values = body).
Proof.
  intros Hn.
  assert (Hsplit :
    execution_agent._render (lit ++ SlotPattern.braced name ++ rest) slot_values
    = execution_agent._render lit slot_values
      ++ execution_agent.repl slot_values name
      ++ execution_agent._render rest slot_values).
  { unfold execution_agent._render, SlotPattern.sub.
    rewrite sub_go_app by (apply breaks_braced || lia).
    f_equal. by apply sub_braced. }
  split; [|split].
  - intros v Hv. rewrite Hsplit. unfold execution_agent.repl. by rewrite Hv.
  - intros Hv. rewrite Hsplit. unfold execution_agent.repl. by rewrite Hv.
  - intros body Hb. unfold execution_agent._render, SlotPattern.sub.
    rewrite sub_go_fixed; [done|].
    intros n Hin. unfold execution_agent.repl. by rewrite (Hb n Hin).
Qed.

(** A greeting with a known name and an offer that is still open. *)
Lemma C10_render_witness :
  execution_agent._render
    (u8 "Hi " ++ SlotPattern.braced (u8 "customer_name") ++ u8 ", {offer}!")
    ({[ u8 "customer_name" := u8 "Kim" ]} : gmap pystr pystr)
  = u8 "Hi Kim, {offer}!".
Proof.
  destruct (C10_render ({[ u8 "customer_name" := u8 "Kim" ]} : gmap pystr pystr)
              (u8 "Hi ") (u8 "customer_name") (u8 ", {offer}!"))
    as (Hsome & _ & Hsame).
  { split; [done | vm_compute; repeat constructor]. }
  rewrite (Hsome (u8 "Kim")) by reflexivity.
  rewrite (Hsame (u8 "Hi ")), (Hsame (u8 ", {offer}!")).
  - reflexivity.
  - intros n Hn. vm_compute in Hn. apply list_elem_of_singleton in Hn as ->.
    reflexivity.
  - intros n Hn. vm_compute in Hn. by apply elem_of_nil in Hn.
Defined.

(** ** The compliance validator *)

Section ComplianceFacts.

Import compilance.

Lemma str_ltb_irrefl (a : pystr) : str_ltb a a = false.
Proof.
  induction a as [|x a IH]; [done|]. simpl.
  by rewrite N.ltb_irrefl, N.eqb_refl, IH.
Qed.

Lemma str_ltb_trans (a b c : pystr) :
  str_ltb a b = true -> str_ltb b c = true -> str_ltb a c = true.
Proof.
  revert b c. induction a as [|x a IH]; intros [|y b] [|z c]; simpl; try done.
  rewrite !orb_true_iff, !andb_true_iff, !N.ltb_lt, !N.eqb_eq.
  intros [H1 | [-> H1]] [H2 | [-> H2]]; [left; lia | by left | by left |].
  right. split; [done|]. by apply (IH b).
Qed.

Lemma str_ltb_total (a b : pystr) :
  str_ltb a b = false -> a <> b -> str_ltb b a = true.
Proof.
  revert b. induction a as [|x a IH]; intros [|y b]; simpl; try done.
  rewrite orb_false_iff, andb_false_iff, orb_true_iff, andb_true_iff.
  rewrite !N.ltb_lt, N.ltb_ge, N.eqb_neq, N.eqb_eq.
  intros [H1 [H2 | H2]] Hne.
  - left. lia.
  - destruct (decide (x = y)) as [->|Hxy]; [|left; lia].
    right. split; [done|]. apply IH; [done|]. congruence.
Qed.


Lemma elem_of_insert_sorted (x y : pystr) (l : list pystr) :
  y ∈ insert_sorted x l <-> y = x \/ y ∈ l.
Proof.
  induction l as [|z l IH]; simpl.
  - set_solver.
  - unfold PyStr.eqb. case_bool_decide as Hxz.
    + subst. set_solver.
    + destruct (str_ltb x z); set_solver.
Qed.

Lemma elem_of_sorted_set (y : pystr) (l : list pystr) :
  y ∈ sorted_set l <-> y ∈ l.
Proof.
  unfold sorted_set. induction l as [|x l IH]; simpl; [done|].
  rewrite elem_of_insert_sorted, IH. set_solver.
Qed.

Lemma insert_sorted_sorted (x : pystr) (l : list pystr) :
  StronglySorted str_lt l -> StronglySorted str_lt (insert_sorted x l).
Proof.
  induction 1 as [|z l Hl IH Hz]; simpl.
  - repeat constructor.
  - unfold PyStr.eqb. case_bool_decide as Hxz; [by constructor|].
    destruct (str_ltb x z) eqn:Hlt.
    + constructor; [by constructor|]. constructor; [done|].
      eapply Forall_impl; [exact Hz|]. intros w Hw. by eapply str_ltb_trans.
    + constructor; [done|]. apply Forall_forall. intros w Hw.
      apply elem_of_insert_sorted in Hw as [->|Hw].
      * by apply str_ltb_total.
      * by apply (proj1 (Forall_forall _ _) Hz).
Qed.

(** [sorted(set(xs))] is strictly increasing: sorted and without
    repetition. *)
Lemma sorted_set_sorted (l : list pystr) : StronglySorted str_lt (sorted_set l).
Proof.
  unfold sorted_set. induction l; simpl; [constructor|].
  by apply insert_sorted_sorted.
Qed.

Lemma sorted_set_NoDup (l : list pystr) : NoDup (sorted_set l).
Proof.
  pose proof (sorted_set_sorted l) as Hs.
  induction Hs as [|z l' Hl IH Hz]; constructor; [|done].
  intros Hin. apply (proj1 (Forall_forall _ _) Hz) in Hin.
  unfold str_lt in Hin. by rewrite str_ltb_irrefl in Hin.
Qed.

Lemma extract_slots_spec (body name : pystr) :
  name ∈ _extract_slots body <-> name ∈ SlotPattern.findall body.
Proof. apply elem_of_sorted_set. Qed.

(** The missing names are the required names that are not found. *)
Lemma elem_of_missing_of (c : Candidate) (m : pystr) :
  m ∈ missing_of c <->
  m ∈ required_of c /\ m ∉ SlotPattern.findall (body_of c).
Proof.
  unfold missing_of, mem. rewrite !list_elem_of_In, filter_In, <- !list_elem_of_In.
  rewrite negb_true_iff, bool_decide_eq_false, extract_slots_spec. tauto.
Qed.


Lemma apply_rule_keeps_fail (v : Verdict) (r : Rule) :
  v_status v = FAIL -> v_status (apply_rule v r) = FAIL.
Proof.
  intros Hv. destruct r as [missing|body|body]; simpl.
  - unfold rule_required. by destruct missing.
  - unfold rule_banned. by destruct (existsb _ _).
  - unfold rule_length. destruct (_ >? _)%Z; [|done]. simpl. by rewrite Hv.
Qed.

Lemma apply_rule_appends (v : Verdict) (r : Rule) :
  exists more, v_reasons (apply_rule v r) = v_reasons v ++ more.
Proof.
  destruct r as [missing|body|body]; simpl.
  - unfold rule_required. destruct missing; [exists []; by rewrite app_nil_r | by eexists].
  - unfold rule_banned. destruct (existsb _ _); [by eexists | exists []; by rewrite app_nil_r].
  - unfold rule_length. destruct (_ >? _)%Z; [by eexists | exists []; by rewrite app_nil_r].
Qed.

Lemma rules_keep_fail (rules : list Rule) (v : Verdict) :
  v_status v = FAIL -> v_status (fold_left apply_rule rules v) = FAIL.
Proof.
  revert v. induction rules as [|r rules IH]; intros v Hv; [done|].
  simpl. apply IH. by apply apply_rule_keeps_fail.
Qed.

Lemma rules_append (rules : list Rule) (v : Verdict) :
  exists more, v_reasons (fold_left apply_rule rules v) = v_reasons v ++ more.
Proof.
  revert v. induction rules as [|r rules IH]; intros v; simpl.
  - exists []. by rewrite app_nil_r.
  - destruct (IH (apply_rule v r)) as [m2 ->].
    destruct (apply_rule_appends v r) as [m1 ->].
    exists (m1 ++ m2). by rewrite app_assoc.
Qed.

(** The loop body applies the rules in their fixed order. *)
Lemma validate_one_rules (c : Candidate) :
  let v := fold_left apply_rule
             [Required (missing_of c); Banned (body_of c); Length (body_of c)]
             initial in
  status (validate_one c) = v_status v /\ reasons (validate_one c) = v_reasons v.
Proof. done. Qed.

Lemma validate_one_missing (c : Candidate) (m : pystr) :
  m ∈ required_of c -> m ∉ _extract_slots (body_of c) ->
  status (validate_one c) = FAIL
  /\ MissingSlots (missing_of c) ∈ reasons (validate_one c)
  /\ m ∈ missing_of c.
Proof.
  intros Hreq Hnot.
  assert (Hin : m ∈ missing_of c).
  { apply elem_of_missing_of. by rewrite <- extract_slots_spec. }
  assert (Hv1 : rule_required (missing_of c) initial
                = {| v_status := FAIL; v_reasons := [MissingSlots (missing_of c)] |}).
  { unfold rule_required. destruct (missing_of c); [|done].
    by apply elem_of_nil in Hin. }
  split; [|split; [|done]].
  - apply (rules_keep_fail [Banned (body_of c); Length (body_of c)]
             (rule_required (missing_of c) initial)).
    by rewrite Hv1.
  - destruct (rules_append [Banned (body_of c); Length (body_of c)]
                (rule_required (missing_of c) initial)) as [more Hmore].
    change (reasons (validate_one c))
      with (v_reasons (fold_left apply_rule
              [Banned (body_of c); Length (body_of c)]
              (rule_required (missing_of c) initial))).
    rewrite Hmore, Hv1. set_solver.
Qed.

Lemma validate_one_banned (c : Candidate) (p pre post : pystr) :
  p ∈ banned_phrases -> body_of c = pre ++ p ++ post ->
  status (validate_one c) = FAIL /\ Exaggeration ∈ reasons (validate_one c).
Proof.
  intros Hp Hbody.
  assert (Hhit : existsb (fun x => contains x (body_of c)) banned_phrases = true).
  { apply existsb_exists. exists p. split; [by apply list_elem_of_In|].
    apply contains_spec. by exists pre, post. }
  set (v1 := rule_required (missing_of c) initial).
  assert (Hv2 : rule_banned (body_of c) v1
                = {| v_status := FAIL; v_reasons := v_reasons v1 ++ [Exaggeration] |}).
  { unfold rule_banned. by rewrite Hhit. }
  split.
  - apply (rules_keep_fail [Length (body_of c)] (rule_banned (body_of c) v1)).
    by rewrite Hv2.
  - destruct (rules_append [Length (body_of c)] (rule_banned (body_of c) v1))
      as [more Hmore].
    change (reasons (validate_one c))
      with (v_reasons (fold_left apply_rule [Length (body_of c)]
              (rule_banned (body_of c) v1))).
    rewrite Hmore, Hv2. set_solver.
Qed.

End ComplianceFacts.

(** A decidable statement about closed terms, by evaluation. *)
Ltac by_decide := apply (bool_decide_unpack _); vm_compute; exact I.

(** C6.  In [validate_candidates] the status only moves up.  Whatever the
    verdict a rule starts from, a FAIL stays a FAIL through any sequence of
    the three rules, in any order, and a rule only appends reasons.  For the
    loop body this gives: a FAIL set by the required-slot rule or by the
    banned-phrase rule is the final status, and the final status is WARN
    exactly when the body is longer than 220 characters and no rule before
    the length rule has set FAIL. *)
Theorem C6_status_monotone (c : Candidate) :
  let body := compilance.body_of c in
  let v1 := compilance.rule_required (compilance.missing_of c) compilance.initial in
  let v2 := compilance.rule_banned body v1 in
  let r := compilance.validate_one c in
  (forall rules v, compilance.v_status v = FAIL ->
     compilance.v_status (fold_left apply_rule rules v) = FAIL)
  /\ (forall rules v, exists more,
        compilance.v_reasons (fold_left apply_rule rules v)
        = compilance.v_reasons v ++ more)
  /\ (compilance.v_status v1 = FAIL -> status r = FAIL)
  /\ (compilance.v_status v2 = FAIL -> status r = FAIL)
  /\ (exists more, reasons r = compilance.v_reasons v1 ++ more)
  /\ (exists more, reasons r = compilance.v_reasons v2 ++ more)
  /\ (status r = WARN <->
      (len body > 220)%Z /\ compilance.v_status v2 <> FAIL)
  /\ (forall v, compilance.v_status (compilance.rule_length body v) = WARN ->
        compilance.v_status v <> FAIL).
Proof.
  intros body v1 v2 r.
  split; [apply rules_keep_fail|]. split; [apply rules_append|].
  split.
  { intros H1. apply (rules_keep_fail [Banned body; Length body] v1 H1). }
  split.
  { intros H2. apply (rules_keep_fail [Length body] v2 H2). }
  split; [apply (rules_append [Banned body; Length body] v1)|].
  split; [apply (rules_append [Length body] v2)|].
  split.
  - subst r. unfold compilance.validate_one. cbn [status].
    fold body. fold v1. fold v2. unfold compilance.rule_length.
    unfold compilance.length_threshold.
    destruct (len body >? 220)%Z eqn:Hlen.
    + apply Z.gtb_gt in Hlen. cbn [compilance.v_status].
      destruct (compilance.v_status v2); split; try done; try (intros [_ ?]; done).
      all: intros _; split; [lia | done].
    + assert (~ (len body > 220)%Z).
      { intros Hgt%Z.gtb_gt. congruence. }
      split; [|tauto]. intros Hw. exfalso.
      subst v2 v1. revert Hw. unfold compilance.rule_banned, compilance.rule_required.
      destruct (existsb _ _); [done|]. by destruct (compilance.missing_of c).
  - intros v. unfold compilance.rule_length.
    destruct (_ >? _)%Z; cbn [compilance.v_status].
    + by destruct (compilance.v_status v).
    + congruence.
Qed.

(** A body of 221 characters that names every required slot is WARN; with a
    banned phrase in front it is FAIL, and stays so through the length
    rule. *)
Lemma C6_status_monotone_witness :
  let long := u8 "{cta}" ++ repeat 46 216 in
  let c body :=
    {| template_id := Some (u8 "T001"); title := None;
       slot_schema := Some {| required := Some [u8 "cta"]; optional := None |};
       body_with_slots := Some body; channel := None; tone := None;
       notes := None; default_slot_values := None |} in
  status (compilance.validate_one (c long)) = WARN
  /\ status (compilance.validate_one (c (u8 "완치 " ++ long))) = FAIL
  /\ reasons (compilance.validate_one (c (u8 "완치 " ++ long))) = [Exaggeration; TooLong].
Proof.
  intros long c.
  pose proof (C6_status_monotone (c long)) as (_ & _ & _ & _ & _ & _ & Hw & _).
  pose proof (C6_status_monotone (c (u8 "완치 " ++ long))) as (_ & _ & _ & Hf & _).
  split; [|split].
  - apply Hw. vm_compute. split; [reflexivity | discriminate].
  - apply Hf. vm_compute. reflexivity.
  - vm_compute. reflexivity.
Defined.

(** C7.  [validate_candidates] returns one result per candidate, in the
    order of the input.  In the result of a candidate, [found_slots] is the
    sorted list, without repetition, of the names the slot pattern finds in
    the body.  The missing names are the names of the candidate's
    [slot_schema.required] list that are not among them, in the order of
    that list.  If there is one, the status is FAIL and the first reason is
    the missing-slot reason, which carries exactly these names; if there is
    none, no reason is a missing-slot reason.  If the body contains one of
    the phrases ["100% 효과"], ["완치"] and ["무조건"], the status is FAIL
    and the reasons hold the exaggeration reason.  These are the only two
    ways to FAIL. *)
Theorem C7_validate_candidates (cands : list Candidate) :
  length (compilance.validate_candidates cands) = length cands
  /\ forall i c, cands !! i = Some c ->
       let body := default [] (body_with_slots c) in
       let req := default [] (slot_schema c ≫= required) in
       let banned := [u8 "100% 효과"; u8 "완치"; u8 "무조건"] in
       exists r found,
         compilance.validate_candidates cands !! i = Some r
         /\ r_template_id r = Some (default [] (template_id c))
         /\ found_slots r = Some found
         /\ (forall n, n ∈ found <-> n ∈ SlotPattern.findall body)
         /\ NoDup found /\ StronglySorted str_lt found
         /\ (let missing := List.filter (fun s => bool_decide (s ∉ found)) req in
             (forall m, m ∈ missing <-> m ∈ req /\ m ∉ found)
             /\ (missing <> [] ->
                 status r = FAIL /\ head (reasons r) = Some (MissingSlots missing))
             /\ (missing = [] -> forall l, MissingSlots l ∉ reasons r)
             /\ (forall p pre post, p ∈ banned -> body = pre ++ p ++ post ->
                   status r = FAIL /\ Exaggeration ∈ reasons r)
             /\ (status r = FAIL <->
                 missing <> []
                 \/ exists p pre post, p ∈ banned /\ body = pre ++ p ++ post)).
Proof.
  split; [apply length_map|].
  intros i c Hc body req banned.
  exists (compilance.validate_one c), (compilance._extract_slots body).
  split.
  { unfold compilance.validate_candidates.
    change (List.map compilance.validate_one cands)
      with (compilance.validate_one <$> cands).
    by rewrite list_lookup_fmap, Hc. }
  split; [done|]. split; [done|].
  split; [intros n; apply extract_slots_spec|].
  split; [apply sorted_set_NoDup|]. split; [apply sorted_set_sorted|].
  intros missing.
  assert (Hreq : compilance.required_of c = req).
  { unfold compilance.required_of. subst req. by destruct (slot_schema c). }
  assert (Hmiss : compilance.missing_of c = missing).
  { unfold compilance.missing_of. rewrite Hreq. apply filter_ext. intros s.
    unfold mem. by rewrite bool_decide_not. }
  assert (Hban : existsb (fun x => contains x body) compilance.banned_phrases = true
                 <-> exists p pre post, p ∈ banned /\ body = pre ++ p ++ post).
  { rewrite existsb_exists. split.
    - intros (p & Hin & Hp). apply contains_spec in Hp as (pre & post & E).
      exists p, pre, post. split; [by apply list_elem_of_In | done].
    - intros (p & pre & post & Hin & E). exists p.
      split; [by apply list_elem_of_In|]. apply contains_spec. by exists pre, post. }
  split.
  { intros m. subst missing.
    rewrite list_elem_of_In, filter_In, <- list_elem_of_In, bool_decide_eq_true.
    done. }
  unfold compilance.validate_one. cbn [status reasons]. rewrite Hmiss.
  change (compilance.body_of c) with body.
  unfold compilance.rule_required, compilance.rule_banned, compilance.rule_length.
  destruct (existsb _ _) eqn:Hex.
  - assert (Hhit : exists p pre post, p ∈ banned /\ body = pre ++ p ++ post)
      by by apply Hban.
    destruct missing as [|m ms]; destruct (len body >? _)%Z;
      cbn [compilance.v_status compilance.v_reasons compilance.initial app head].
    all: split; [intros H; first [congruence | done]|].
    all: split; [intros H l Hin; try discriminate H;
                 repeat (apply elem_of_cons in Hin as [Hin|Hin]; [discriminate|]);
                 by apply elem_of_nil in Hin|].
    all: split; [intros _ _ _ _ _; split; [done|]; rewrite !elem_of_cons; tauto|].
    all: split; [intros _; by right | done].
  - assert (Hno : ~ exists p pre post, p ∈ banned /\ body = pre ++ p ++ post).
    { intros H. apply Hban in H. discriminate H. }
    destruct missing as [|m ms]; destruct (len body >? _)%Z;
      cbn [compilance.v_status compilance.v_reasons compilance.initial app head].
    all: split; [intros H; first [congruence | done]|].
    all: split; [intros H l Hin; try discriminate H;
                 repeat (apply elem_of_cons in Hin as [Hin|Hin]; [discriminate|]);
                 by apply elem_of_nil in Hin|].
    all: split; [intros p pre post Hp E; destruct Hno; by exists p, pre, post|].
    all: split; [first [discriminate | intros _; by left]
               | intros [H|H]; first [congruence | done | by destruct Hno]].
Qed.

(** An SMS candidate without [{customer_name}] and [{unsubscribe}], one
    with a banned phrase, and one without a schema. *)
Lemma C7_validate_candidates_witness :
  let sms := [u8 "customer_name"; u8 "product_name"; u8 "offer"; u8 "cta";
              u8 "unsubscribe"] in
  let c sch body :=
    {| template_id := Some (u8 "T001"); title := None;
       slot_schema := sch;
       body_with_slots := Some body; channel := None; tone := None;
       notes := None; default_slot_values := None |} in
  let schema := Some {| required := Some sms; optional := None |} in
  let c1 := c schema (u8 "{product_name} {offer} {cta}") in
  let c2 :=
    c schema
      (u8 "{customer_name}님, {product_name} {offer} {cta} 무조건! {unsubscribe}") in
  let c3 := c None (u8 "{cta}") in
  exists r1 r2 r3,
    compilance.validate_candidates [c1; c2; c3] = [r1; r2; r3]
    /\ status r1 = FAIL
    /\ head (reasons r1) = Some (MissingSlots [u8 "customer_name"; u8 "unsubscribe"])
    /\ found_slots r1 = Some [u8 "cta"; u8 "offer"; u8 "product_name"]
    /\ status r2 = FAIL /\ Exaggeration ∈ reasons r2
    /\ status r3 <> FAIL.
Proof.
  intros sms c schema c1 c2 c3.
  destruct (C7_validate_candidates [c1; c2; c3]) as [Hlen Hall].
  destruct (Hall 0%nat c1 eq_refl)
    as (r1 & f1 & Hr1 & _ & Hf1 & _ & _ & _ & _ & Hm1 & _).
  destruct (Hall 1%nat c2 eq_refl)
    as (r2 & f2 & Hr2 & _ & _ & _ & _ & _ & _ & _ & _ & Hb2 & _).
  destruct (Hall 2%nat c3 eq_refl)
    as (r3 & f3 & Hr3 & _ & _ & _ & _ & _ & _ & _ & _ & _ & Hi3).
  exists r1, r2, r3.
  simpl in Hr1, Hr2, Hr3.
  injection Hr1 as <-; injection Hr2 as <-; injection Hr3 as <-.
  injection Hf1 as <-.
  destruct Hm1 as [Hs1 Hh1]; [vm_compute; discriminate|].
  destruct (Hb2 (u8 "무조건") (u8 "{customer_name}님, {product_name} {offer} {cta} ")
              (u8 "! {unsubscribe}")) as (Hs2 & Hin2).
  { by_decide. }
  { vm_compute. reflexivity. }
  split; [reflexivity|]. split; [exact Hs1|].
  split; [rewrite Hh1; vm_compute; reflexivity|].
  split; [vm_compute; reflexivity|].
  split; [exact Hs2|]. split; [exact Hin2|].
  vm_compute. discriminate.
Defined.

(** ** Candidate generation *)

Section TemplateAgentFacts.

Import template_agent.


Lemma _normalize_channel_cases (ch : pystr) : _normalize_channel ch ∈ channels.
Proof.
  unfold _normalize_channel, mem. case_bool_decide as Hin; [exact Hin|].
  by_decide.
Qed.

Lemma _normalize_channel_idem (ch : pystr) :
  _normalize_channel (_normalize_channel ch) = _normalize_channel ch.
Proof.
  pose proof (_normalize_channel_cases ch) as Hin. unfold channels in Hin.
  repeat (apply elem_of_cons in Hin as [-> | Hin]; [by vm_compute|]).
  by apply elem_of_nil in Hin.
Qed.

Lemma required_slots_total (ch : pystr) :
  ch ∈ channels -> exists req, REQUIRED_SLOTS_BY_CHANNEL ch = Ok req
    /\ Forall slot_name req /\ u8 "customer_name" ∈ req.
Proof.
  intros Hin. unfold channels in Hin.
  repeat (apply elem_of_cons in Hin as [-> | Hin];
    [eexists; split; [by vm_compute|]; split;
     [repeat constructor; by vm_compute || (vm_compute; repeat constructor)
     | by_decide]|]).
  by apply elem_of_nil in Hin.
Qed.

(** *** Tagging the fallback batch *)

Lemma set_llm_error_idem (msg : pystr) (n : Notes) :
  set_llm_error msg (set_llm_error msg n) = set_llm_error msg n.
Proof. reflexivity. Qed.

Lemma tag_shared (msg : pystr) (cs seen : list Candidate) (n : Notes) :
  Forall (fun c => notes c = Some O) cs ->
  fold_left (tag_one msg) cs ([n], seen)
  = ([match cs with [] => n | _ :: _ => set_llm_error msg n end], seen ++ cs).
Proof.
  intros Hcs. revert seen n.
  induction Hcs as [|c cs Hc Hcs IH]; intros seen n.
  - by rewrite app_nil_r.
  - cbn [fold_left]. unfold tag_one at 2. rewrite Hc.
    change (alter (set_llm_error msg) O [n]) with [set_llm_error msg n].
    rewrite IH, <- app_assoc. cbn [app]. by destruct cs.
Qed.

Lemma tag_llm_error_shared (msg : pystr) (n : Notes) (cs : list Candidate) :
  cs <> [] -> Forall (fun c => notes c = Some O) cs ->
  tag_llm_error msg {| notes_heap := [n]; candidates := cs |}
  = {| notes_heap := [set_llm_error msg n]; candidates := cs |}.
Proof.
  intros Hne Hcs. unfold tag_llm_error. cbn [candidates notes_heap].
  rewrite tag_shared by done. by destruct cs.
Qed.

(** *** The canned templates *)


Lemma canned_facts (ch tone_id : pystr) (req : list pystr) :
  ch ∈ channels ->
  exists c1 c2 c3 c4,
    canned ch tone_id req = [c1; c2; c3; c4]
    /\ Forall (fun c => notes c = Some O) [c1; c2; c3; c4]
    /\ lacks_customer_name req c1
    /\ (ch = u8 "SMS" ->
        Forall (fun c => contains (u8 "{unsubscribe}") (compilance.body_of c) = true)
               [c1; c2; c3; c4]).
Proof.
  intros Hin. unfold canned, _fallback_openers_ctas_by_brand.
  unfold channels in Hin.
  destruct (PyStr.eqb (lower (strip tone_id)) (u8 "innisfree"));
    repeat (apply elem_of_cons in Hin as [-> | Hin];
      [do 4 eexists; split; [reflexivity|]; split; [by repeat constructor|];
       split;
       [split; [reflexivity|]; split; [reflexivity|]; by_decide
       | intros Hsms; first [discriminate Hsms
                            | repeat constructor; vm_compute; reflexivity]]|]);
    by apply elem_of_nil in Hin.
Qed.

Lemma fallback_bound_range (k : Z) :
  (1 <= fallback_bound k <= 4)%nat.
Proof. unfold fallback_bound. lia. Qed.

(** *** Repairing a body *)

Lemma findall_lstrip (s : pystr) :
  SlotPattern.findall (lstrip s) = SlotPattern.findall s.
Proof.
  unfold SlotPattern.findall. induction s as [|c s IH]; [done|].
  simpl lstrip. destruct (is_space c) eqn:Hc; [|done].
  rewrite IH. cbn [SlotPattern.findall_go SlotPattern.match_at].
  destruct (c =? SlotPattern.lbrace) eqn:Hb; [|done].
  apply N.eqb_eq in Hb as ->. discriminate.
Qed.

Lemma findall_nl (s : pystr) :
  SlotPattern.findall (nl ++ s) = SlotPattern.findall s.
Proof. reflexivity. Qed.

Lemma findall_joined (ms : list pystr) :
  Forall slot_name ms ->
  SlotPattern.findall (join nl (List.map SlotPattern.braced ms)) = ms.
Proof.
  induction 1 as [|m ms Hm Hms IH]; [done|].
  destruct ms as [|m' ms'].
  - simpl. rewrite <- (app_nil_r (SlotPattern.braced m)).
    by rewrite findall_braced.
  - change (join nl (List.map SlotPattern.braced (m :: m' :: ms')))
      with (SlotPattern.braced m ++ nl
            ++ join nl (List.map SlotPattern.braced (m' :: ms'))).
    rewrite findall_braced by done. by rewrite findall_nl, IH.
Qed.

Lemma braced_joined_last (ms : list pystr) :
  ms <> [] ->
  exists t, join nl (List.map SlotPattern.braced ms) = t ++ [SlotPattern.rbrace].
Proof.
  induction ms as [|m ms IH]; [done|]. intros _.
  destruct ms as [|m' ms'].
  - exists (SlotPattern.lbrace :: m). reflexivity.
  - destruct IH as [t Ht]; [done|].
    change (join nl (List.map SlotPattern.braced (m :: m' :: ms')))
      with (SlotPattern.braced m ++ nl
            ++ join nl (List.map SlotPattern.braced (m' :: ms'))).
    rewrite Ht. exists (SlotPattern.braced m ++ nl ++ t).
    by rewrite <- !app_assoc.
Qed.

(** The names found in a repaired body: those of the body, then the
    missing ones. *)
Lemma findall_repair (body : pystr) (missing : list pystr) :
  Forall slot_name missing ->
  SlotPattern.findall (repair body missing)
  = SlotPattern.findall body ++ missing.
Proof.
  intros Hm. unfold repair. destruct missing as [|m ms] eqn:E.
  - by rewrite app_nil_r.
  - rewrite <- E in *. assert (Hne : missing <> []) by (by subst).
    clear E m ms. destruct (braced_joined_last missing Hne) as [t Ht].
    rewrite Ht, !app_assoc, strip_snoc by done.
    rewrite findall_lstrip, <- !app_assoc, <- Ht.
    unfold SlotPattern.findall.
    rewrite findall_go_app; [|by split|lia].
    f_equal. change (SlotPattern.findall_go (nl ++ ?s) O)
      with (SlotPattern.findall s). by apply findall_joined.
Qed.

Lemma filter_nil {A} (f : A -> bool) (l : list A) :
  (forall x, x ∈ l -> f x = false) -> List.filter f l = [].
Proof.
  induction l as [|a l IH]; intros H; [done|]. simpl.
  rewrite (H a) by set_solver. apply IH. intros x Hx. apply H. set_solver.
Qed.

(** After the repair no required name is missing. *)
Lemma repair_complete (body : pystr) (req : list pystr) :
  Forall slot_name req ->
  _validate_candidate_body
    (repair body (_validate_candidate_body body req)) req = [].
Proof.
  intros Hreq. set (missing := _validate_candidate_body body req).
  assert (Hsub : forall m, m ∈ missing <->
                   m ∈ req /\ m ∉ SlotPattern.findall body).
  { intros m. subst missing. unfold _validate_candidate_body.
    rewrite !list_elem_of_In, filter_In, <- !list_elem_of_In.
    rewrite bool_decide_eq_true. unfold _slot_placeholders_in_text.
    rewrite elem_of_list_to_set. tauto. }
  assert (Hm : Forall slot_name missing).
  { apply Forall_forall. intros m [Hin _]%Hsub.
    by apply (proj1 (Forall_forall _ _) Hreq). }
  unfold _validate_candidate_body at 1. apply filter_nil. intros r Hr.
  apply bool_decide_eq_false. intros Hnot. apply Hnot.
  unfold _slot_placeholders_in_text. rewrite elem_of_list_to_set.
  rewrite findall_repair by done. apply elem_of_app.
  destruct (decide (r ∈ SlotPattern.findall body)); [by left|].
  right. by apply Hsub.
Qed.

End TemplateAgentFacts.

Section GenerationFacts.

Import template_agent.

Variable load_tone_guide : pystr -> pystr.
Variable normalize_campaign_text : pystr -> Normalized.

(** Reading a text key of the brief that holds a string, or that is
    absent. *)
Lemma strip_field_text (o : option json) (t : option pystr) :
  o = JStr <$> t -> strip_field o = Ok (strip (default [] t)).
Proof. intros ->. by destruct t. Qed.

(** A value that is not a string cannot be read. *)
Lemma strip_field_other (o : option json) (j : json) :
  o = Some j -> (forall s, j <> JStr s) -> strip_field o = Raise AttributeError.
Proof. intros -> Hj. destruct j; try done. by destruct (Hj s). Qed.

(** A successful read is that of a string, or of an absent key. *)
Lemma strip_field_Ok (o : option json) (s : pystr) :
  strip_field o = Ok s -> exists t, o = JStr <$> t /\ s = strip (default [] t).
Proof.
  destruct o as [j|]; [|intros [= <-]; by exists None].
  destruct j; try done. intros [= <-]. by eexists (Some _).
Qed.

Lemma strip_field_raises (o : option json) (e : exn) :
  strip_field o = Raise e -> e = AttributeError.
Proof. destruct o as [j|]; [|done]. destruct j; try done; by intros [= <-]. Qed.

(** The goal of the prompt: [goal], or [campaign_goal] when [goal] is
    blank. *)
Lemma goal_read (brief : Brief) (g cg : option pystr) :
  goal brief = JStr <$> g -> campaign_goal brief = JStr <$> cg ->
  exists goal_text,
    (do g <~ strip_field (goal brief);
     match g with
     | [] => strip_field (campaign_goal brief)
     | _ :: _ => Ok g
     end) = Ok goal_text.
Proof.
  intros Hg Hcg.
  rewrite (strip_field_text _ g Hg), (strip_field_text _ cg Hcg). cbn [bind].
  destruct (strip (default [] g)); by eexists.
Qed.

(** The fallback batch and its tag, whatever the failure was. *)
Lemma fallback_tagged (call : Prompt -> result (list (pystr * json)))
    (channel tone : pystr) (brief : Brief) (rag : pystr) (k : Z) (msg : pystr)
    (ct g : option pystr) :
  campaign_text brief = JStr <$> ct -> goal brief = JStr <$> g ->
  exists req tone_id notes0 c1 c2 c3 c4,
    REQUIRED_SLOTS_BY_CHANNEL (_normalize_channel channel) = Ok req
    /\ canned (_normalize_channel channel) tone_id req = [c1; c2; c3; c4]
    /\ Forall (fun c => notes c = Some O) [c1; c2; c3; c4]
    /\ lacks_customer_name req c1
    /\ (_normalize_channel channel = u8 "SMS" ->
        Forall (fun c => contains (u8 "{unsubscribe}") (compilance.body_of c) = true)
               [c1; c2; c3; c4])
    /\ (do fb <~ _fallback_candidates load_tone_guide normalize_campaign_text
                   (_normalize_channel channel) tone brief rag k;
        Ok (tag_llm_error msg fb))
       = Ok {| notes_heap := [set_llm_error msg notes0];
               candidates := firstn (fallback_bound k) [c1; c2; c3; c4] |}.
Proof.
  intros Hct Hg.
  destruct (required_slots_total _ (_normalize_channel_cases channel))
    as (req & Hreq & _).
  unfold _fallback_candidates. rewrite _normalize_channel_idem, Hreq.
  cbn [bind].
  rewrite (strip_field_text _ ct Hct), (strip_field_text _ g Hg). cbn [bind].
  set (tone_id := lower (strip (tone_or_default tone))).
  destruct (canned_facts (_normalize_channel channel) tone_id req
              (_normalize_channel_cases channel))
    as (c1 & c2 & c3 & c4 & Hc & Hn & Hl & Hs).
  exists req, tone_id. eexists. exists c1, c2, c3, c4.
  split; [done|]. split; [done|]. split; [done|]. split; [done|].
  split; [done|]. rewrite Hc. rewrite tag_llm_error_shared; [done| |].
  - pose proof (fallback_bound_range k) as Hk.
    destruct (fallback_bound k); [lia | done].
  - by apply Forall_take.
Qed.

(** A mapped list, element by element. *)
Lemma mapM_Forall2 {A B} (f : A -> result B) (l : list A) (l' : list B) :
  mapM f l = Ok l' -> Forall2 (fun a b => f a = Ok b) l l'.
Proof.
  revert l'. induction l as [|a l IH]; intros l'; simpl.
  - intros [= <-]. constructor.
  - destruct (f a) as [b|e] eqn:Hf; [|done]. simpl.
    destruct (mapM f l) as [bs|e] eqn:Hm; [|done]. simpl.
    intros [= <-]. constructor; [done | by apply IH].
Qed.

Lemma llm_candidate_repaired (channel tone_id : pystr) (req : list pystr)
    (notes0 : Notes) (entry : nat * json) (n : Notes) (c : Candidate) :
  Forall slot_name req ->
  llm_candidate channel tone_id req notes0 entry = Ok (n, c) ->
  compilance.required_of c = req
  /\ _validate_candidate_body (compilance.body_of c) req = [].
Proof.
  intros Hreq. unfold llm_candidate. destruct entry as [idx rc].
  destruct rc as [| | | |l|items]; try done.
  destruct (str_or_default (json_get items (u8 "title")) _) as [ttl|]; [|done].
  cbn [bind].
  destruct (str_or_default (json_get items (u8 "body_with_slots")) _)
    as [body|]; [|done].
  cbn [bind]. intros [= <- <-]. split; [done|].
  unfold compilance.body_of. cbn [body_with_slots default].
  by apply repair_complete.
Qed.

End GenerationFacts.

(** C1, as far as the code goes.  When the LLM collaborator raises,
    [generate_template_candidates] returns, for every brief whose
    campaign text, goal and campaign goal are strings where it has them,
    and for every channel, tone and [k], the first [max(1, min(k, 4))] of the four canned templates of
    the normalized channel and tone: between one and four candidates, all
    referring to one notes dict, which carries [repr] of the error under
    [llm_error]; for the channel SMS every body contains [{unsubscribe}].
    The last part of the claim fails: the first canned template, T001, has
    no [{customer_name}] although its schema requires it, and the
    compliance validator gives it FAIL with the missing-slot reason. *)
Theorem C1_fallback_on_llm_error
    (load_tone_guide : pystr -> pystr)
    (normalize_campaign_text : pystr -> Normalized)
    (_call_openai : Prompt -> result (list (pystr * json)))
    (brief : Brief) (channel tone rag_context : pystr) (k : Z) (e : exn)
    (ct g cg : option pystr) :
  (forall p, _call_openai p = Raise e) ->
  campaign_text brief = JStr <$> ct ->
  goal brief = JStr <$> g ->
  campaign_goal brief = JStr <$> cg ->
  exists b req tone_id c1,
    template_agent.generate_template_candidates load_tone_guide
      normalize_campaign_text _call_openai brief channel tone rag_context k = Ok b
    /\ template_agent.REQUIRED_SLOTS_BY_CHANNEL
         (template_agent._normalize_channel channel) = Ok req
    /\ candidates b
       = firstn (template_agent.fallback_bound k)
           (template_agent.canned (template_agent._normalize_channel channel)
              tone_id req)
    /\ (1 <= length (candidates b) <= 4)%nat
    /\ Forall (fun c => notes_of b c ≫= llm_error = Some (exn_repr e)) (candidates b)
    /\ (template_agent._normalize_channel channel = u8 "SMS" ->
        Forall (fun c => contains (u8 "{unsubscribe}") (compilance.body_of c) = true)
               (candidates b))
    /\ head (candidates b) = Some c1
    /\ lacks_customer_name req c1
    /\ u8 "customer_name" ∈ compilance.missing_of c1
    /\ status (compilance.validate_one c1) = FAIL
    /\ MissingSlots (compilance.missing_of c1) ∈ reasons (compilance.validate_one c1).
Proof.
  intros Hraise Hct Hg Hcg.
  unfold template_agent.generate_template_candidates.
  set (tone_id0 := lower (strip (template_agent.tone_or_default tone))).
  set (rag0 := prefix 2500 (strip rag_context)).
  destruct (fallback_tagged load_tone_guide normalize_campaign_text _call_openai
              channel tone_id0 brief rag0 k (exn_repr e) ct g Hct Hg)
    as (req & tone_id & notes0 & c1 & c2 & c3 & c4 & Hreq & Hc & Hn & Hl & Hs & Hfb).
  destruct (required_slots_total _ (_normalize_channel_cases channel))
    as (req' & Hreq' & _ & Hcn).
  rewrite Hreq in Hreq'. injection Hreq' as <-.
  rewrite Hreq. cbn [bind].
  rewrite (strip_field_text _ ct Hct). cbn [bind].
  destruct (goal_read brief g cg Hg Hcg) as [goal_text ->]. cbn [bind].
  rewrite Hraise, Hfb.
  pose proof (fallback_bound_range k) as Hk.
  eexists. exists req, tone_id, c1. split; [reflexivity|].
  cbn [candidates]. split; [done|]. split; [by rewrite Hc|].
  split.
  { rewrite length_take. simpl. lia. }
  split.
  { apply Forall_take. eapply Forall_impl; [exact Hn|].
    intros c Hc0. unfold notes_of. cbn [notes_heap]. by rewrite Hc0. }
  split; [intros Hsms; by apply Forall_take, Hs|].
  split.
  { destruct (template_agent.fallback_bound k); [lia | done]. }
  split; [done|].
  destruct Hl as (Htid & Hsch & Hlack).
  assert (Hreqc : u8 "customer_name" ∈ compilance.required_of c1).
  { unfold compilance.required_of. by rewrite Hsch. }
  assert (Hnot : u8 "customer_name" ∉ compilance._extract_slots (compilance.body_of c1)).
  { by rewrite extract_slots_spec. }
  destruct (validate_one_missing c1 _ Hreqc Hnot) as (? & ? & ?). done.
Qed.

(** The scenario of the specification: the year-end brief, SMS, amoremall,
    and an LLM that is down. *)
Lemma C1_fallback_on_llm_error_witness :
  exists b c1,
    template_agent.generate_template_candidates Samples.no_tone_guide
      Samples.normalize_empty Samples.llm_down Samples.year_end_brief
      (u8 "SMS") (u8 "amoremall") [] 4 = Ok b
    /\ (1 <= length (candidates b) <= 4)%nat
    /\ Forall (fun c => notes_of b c ≫= llm_error
                        = Some (exn_repr Samples.llm_down_error)) (candidates b)
    /\ Forall (fun c => contains (u8 "{unsubscribe}") (compilance.body_of c) = true)
              (candidates b)
    /\ head (candidates b) = Some c1
    /\ status (compilance.validate_one c1) = FAIL.
Proof.
  destruct (C1_fallback_on_llm_error Samples.no_tone_guide Samples.normalize_empty
              Samples.llm_down Samples.year_end_brief (u8 "SMS") (u8 "amoremall")
              [] 4 Samples.llm_down_error (Some [])
              (Some (u8 "연말 쿠션 프로모션")) None
              (fun p => eq_refl) eq_refl eq_refl eq_refl)
    as (b & req & tone_id & c1 & Hgen & _ & _ & Hlen & Htag & Hsms & Hhd & _ & _ & Hfail & _).
  exists b, c1. split; [exact Hgen|]. split; [exact Hlen|]. split; [exact Htag|].
  split; [apply Hsms; vm_compute; reflexivity|]. split; [exact Hhd | exact Hfail].
Defined.

(** What the validator says about the whole fallback batch of that
    scenario: only the last template passes. *)
Example fallback_sms_statuses :
  (b ← match template_agent.generate_template_candidates Samples.no_tone_guide
               Samples.normalize_empty Samples.llm_down Samples.year_end_brief
               (u8 "SMS") (u8 "amoremall") [] 4 with
       | Ok b => Some b
       | Raise _ => None
       end;
   Some (List.map (fun r => (status r, reasons r))
           (compilance.validate_candidates (candidates b))))
  = Some [ (FAIL, [MissingSlots [u8 "customer_name"]]);
           (FAIL, [MissingSlots [u8 "customer_name"]]);
           (FAIL, [MissingSlots [u8 "customer_name"]]);
           (PASS, []) ].
Proof. vm_compute. reflexivity. Qed.

(** C2 fails on the fallback path.  When the LLM answers without
    candidates, [generate_template_candidates] returns the canned batch as it
    is: for the channel PUSH, whatever the tone, [k] and the texts of the
    brief (its campaign text, goal and campaign goal being strings where it
    has them), the first candidate is T001, and [customer_name], which its
    schema requires, is missing from its body.  No repair is applied on this
    path. *)
Theorem C2_fallback_not_repaired
    (load_tone_guide : pystr -> pystr)
    (normalize_campaign_text : pystr -> Normalized)
    (brief : Brief) (tone rag_context : pystr) (k : Z)
    (ct g cg : option pystr) :
  campaign_text brief = JStr <$> ct ->
  goal brief = JStr <$> g ->
  campaign_goal brief = JStr <$> cg ->
  exists b c1,
    template_agent.generate_template_candidates load_tone_guide
      normalize_campaign_text Samples.llm_empty brief (u8 "PUSH") tone
      rag_context k = Ok b
    /\ head (candidates b) = Some c1
    /\ template_id c1 = Some (u8 "T001")
    /\ u8 "customer_name"
       ∈ template_agent._validate_candidate_body (compilance.body_of c1)
           (compilance.required_of c1).
Proof.
  intros Hct Hg Hcg.
  unfold template_agent.generate_template_candidates.
  set (tone_id0 := lower (strip (template_agent.tone_or_default tone))).
  set (rag0 := prefix 2500 (strip rag_context)).
  destruct (fallback_tagged load_tone_guide normalize_campaign_text
              Samples.llm_empty (u8 "PUSH") tone_id0 brief rag0 k
              (u8 "LLM returned empty candidates") ct g Hct Hg)
    as (req & tone_id & notes0 & c1 & c2 & c3 & c4 & Hreq & Hc & Hn & Hl & Hs & Hfb).
  destruct (required_slots_total _ (_normalize_channel_cases (u8 "PUSH")))
    as (req' & Hreq' & _ & Hcn).
  rewrite Hreq in Hreq'. injection Hreq' as <-.
  rewrite Hreq. cbn [bind].
  rewrite (strip_field_text _ ct Hct). cbn [bind].
  destruct (goal_read brief g cg Hg Hcg) as [goal_text ->]. cbn [bind].
  unfold Samples.llm_empty.
  change (json_get [] (u8 "candidates")) with (@None json). cbv iota.
  rewrite Hfb. pose proof (fallback_bound_range k) as Hk.
  eexists. exists c1. split; [reflexivity|]. cbn [candidates].
  split; [destruct (template_agent.fallback_bound k); [lia | done]|].
  destruct Hl as (Htid & Hsch & Hlack). split; [done|].
  unfold compilance.required_of. rewrite Hsch. cbn [required default].
  unfold template_agent._validate_candidate_body.
  rewrite list_elem_of_In, filter_In, <- list_elem_of_In.
  split; [done|]. apply bool_decide_eq_true.
  unfold template_agent._slot_placeholders_in_text.
  by rewrite elem_of_list_to_set.
Qed.

(** The year-end brief, PUSH, and an LLM that answers without candidates:
    T001 comes back without [{customer_name}]. *)
Lemma C2_fallback_not_repaired_witness :
  exists b c1,
    template_agent.generate_template_candidates Samples.no_tone_guide
      Samples.normalize_empty Samples.llm_empty Samples.year_end_brief
      (u8 "PUSH") (u8 "amoremall") [] 4 = Ok b
    /\ head (candidates b) = Some c1
    /\ template_id c1 = Some (u8 "T001")
    /\ u8 "customer_name"
       ∈ template_agent._validate_candidate_body (compilance.body_of c1)
           (compilance.required_of c1).
Proof.
  apply (C2_fallback_not_repaired Samples.no_tone_guide Samples.normalize_empty
           Samples.year_end_brief (u8 "amoremall") [] 4
           (Some []) (Some (u8 "연말 쿠션 프로모션")) None);
    reflexivity.
Defined.

(** The two reads of the brief at the head of
    [generate_template_candidates], for a call that returns. *)
Ltac brief_reads Hraw Hg0 :=
  destruct (template_agent.strip_field (campaign_text _)) as [?raw|?] eqn:Hraw;
    [|done];
  cbn [bind];
  destruct (template_agent.strip_field (goal _)) as [?g0|?] eqn:Hg0; [|done];
  cbn [bind];
  match goal with
  | |- context [bind (match ?g with
                      | [] => template_agent.strip_field ?o
                      | _ :: _ => Ok ?g
                      end) _] =>
      destruct (match g with
                | [] => template_agent.strip_field o
                | _ :: _ => Ok g
                end) as [?goal_text|?]; [|done]
  end;
  cbn [bind].

(** On the LLM path the repair does what C2 says: every candidate that is
    returned has all the names of its required list in its body. *)
Theorem llm_path_repaired
    (load_tone_guide : pystr -> pystr)
    (normalize_campaign_text : pystr -> Normalized)
    (_call_openai : Prompt -> result (list (pystr * json)))
    (brief : Brief) (channel tone rag_context : pystr) (k : Z)
    (out : list (pystr * json)) (rc : json) (rcs : list json) (b : Batch) :
  (forall p, _call_openai p = Ok out) ->
  json_get out (u8 "candidates") = Some (JList (rc :: rcs)) ->
  template_agent.generate_template_candidates load_tone_guide
    normalize_campaign_text _call_openai brief channel tone rag_context k = Ok b ->
  Forall (fun c =>
            template_agent._validate_candidate_body (compilance.body_of c)
              (compilance.required_of c) = [])
         (candidates b).
Proof.
  intros Hcall Hout.
  unfold template_agent.generate_template_candidates.
  destruct (required_slots_total _ (_normalize_channel_cases channel))
    as (req & Hreq & Hnames & _).
  rewrite Hreq. cbn [bind]. brief_reads Hraw Hg0.
  rewrite Hcall, Hout. cbn [truthy].
  set (picked := firstn (template_agent.llm_bound k) (rc :: rcs)).
  set (f := template_agent.llm_candidate _ _ _ _).
  destruct (mapM f (combine (seq 1 (length picked)) picked)) as [final|e] eqn:Hm;
    [|done].
  cbn [bind]. apply mapM_Forall2 in Hm.
  assert (Hall : Forall (fun nc =>
            template_agent._validate_candidate_body (compilance.body_of nc.2)
              (compilance.required_of nc.2) = []) final).
  { clear -Hm Hnames. induction Hm as [|entry [n c] l l' Hf _ IH]; constructor; [|done].
    subst f. cbn [snd]. apply llm_candidate_repaired in Hf as [-> ?]; done. }
  destruct final as [|nc final']; [|].
  - exfalso. apply Forall2_nil_inv_r in Hm.
    subst picked. unfold template_agent.llm_bound in Hm.
    destruct (Z.to_nat (Z.max 1 k)) as [|n] eqn:Hn; [lia|]. done.
  - intros [= <-]. cbn [candidates].
    apply Forall_forall. intros c Hin.
    apply list_elem_of_In, in_map_iff in Hin as ([n c'] & <- & Hin).
    apply list_elem_of_In in Hin.
    assert (Hin' : (n, c') ∈ nc :: final').
    { revert Hin. generalize (nc :: final'). intros l Hin.
      by eapply (subseteq_take (template_agent.llm_bound k) l). }
    by apply (proj1 (Forall_forall _ _) Hall) in Hin'.
Qed.

(** ** Target queries (C9) *)

Section TargetingFacts.

Import targeting.

Variable DB : Type.
Variable show : DB -> pystr -> result (list pystr) * DB.
Variable this_year : Z.

Lemma age_label_range (a : pystr) :
  age_label a -> exists r, _age_group_to_birth_year_range this_year a = Ok r.
Proof.
  intros (B & Hlen & [-> | ->]); eexists.
  - by apply age_group_closed.
  - by apply age_group_open.
Qed.

Lemma mapM_total {A B} (f : A -> result B) (l : list A) :
  Forall (fun a => exists b, f a = Ok b) l -> exists l', mapM f l = Ok l'.
Proof.
  induction 1 as [|a l [b Hb] _ [l' Hl']]; [by eexists|].
  exists (b :: l'). simpl. by rewrite Hb, Hl'.
Qed.

Lemma _detect_join_keys_users_fail (db db1 : DB) (e : exn) :
  show db (u8 "users") = (Raise e, db1) ->
  _detect_join_keys DB show db = ((None, None), db1).
Proof. intros H. unfold _detect_join_keys, _show_columns. by rewrite H. Qed.

Lemma _detect_join_keys_features_fail (db db1 db2 : DB) (u : list pystr) (e : exn) :
  show db (u8 "users") = (Ok u, db1) ->
  show db1 (u8 "user_features") = (Raise e, db2) ->
  _detect_join_keys DB show db = ((None, None), db2).
Proof.
  intros H1 H2. unfold _detect_join_keys, _show_columns. by rewrite H1, H2.
Qed.

(** [build_target] on labels that parse. *)
Lemma build_target_total (db : DB) (brief : Brief) (channel tone : pystr) :
  Forall age_label (age_groups_of brief) ->
  exists ranges t,
    mapM (_age_group_to_birth_year_range this_year) (age_groups_of brief) = Ok ranges
    /\ build_target DB show this_year db brief channel tone
       = (Ok t, (show (_detect_join_keys DB show db).2 (u8 "user_features")).2)
    /\ birth_year_ranges (target_query t) = ranges
    /\ join_keys (target_query t) = (_detect_join_keys DB show db).1
    /\ feature_cols (target_query t)
       = match (show (_detect_join_keys DB show db).2 (u8 "user_features")).1 with
         | Ok fcols =>
             {| skin_type_col :=
                  first_present [u8 "skin_type"; u8 "skin_type_primary"] fcols;
                skin_concern_col :=
                  first_present [u8 "skin_concern"; u8 "skin_concern_primary"] fcols |}
         | Raise _ => {| skin_type_col := None; skin_concern_col := None |}
         end
    /\ skin_type_in (target_query t) = default [] (target_input brief ≫= skin_type)
    /\ skin_concern_in (target_query t)
       = default [] (target_input brief ≫= skin_concern).
Proof.
  intros Hages.
  destruct (mapM_total (_age_group_to_birth_year_range this_year)
              (age_groups_of brief)) as [ranges Hr].
  { eapply Forall_impl; [exact Hages|]. apply age_label_range. }
  exists ranges. unfold build_target, list_field, _show_columns.
  unfold age_groups_of in Hr. rewrite Hr.
  destruct (_detect_join_keys DB show db) as [[ukey fkey] db1].
  cbn [fst snd].
  destruct (show db1 (u8 "user_features")) as [rf db2].
  eexists. split; [done|]. split; [reflexivity|].
  cbn [target_query birth_year_ranges join_keys feature_cols skin_type_in
       skin_concern_in fst snd].
  repeat split.
Qed.

End TargetingFacts.

(** C9, as the code has it.  For every target input whose age bands are
    labels ["B대"] or ["B대+"], with [B] a decimal number of at most 4300
    digits, and whatever the introspection of the two
    tables returns or raises, [build_target] returns a target query.  If the
    introspection of the audience table raises, or that of the feature table
    raises during the join-key detection, the join keys are [(None, None)].
    The feature-column map comes from one more introspection of the feature
    table, after the detection: it is empty if that one raises, and
    otherwise names the first candidate column present, if any.  The
    skin-type and skin-concern selections are recorded as given. *)
Theorem C9_build_target_degrades (DB : Type)
    (show : DB -> pystr -> result (list pystr) * DB) (this_year : Z)
    (db : DB) (brief : Brief) (channel tone : pystr) :
  Forall age_label (age_groups_of brief) ->
  exists t db',
    targeting.build_target DB show this_year db brief channel tone = (Ok t, db')
    /\ (forall e db1, show db (u8 "users") = (Raise e, db1) ->
          join_keys (target_query t) = (None, None))
    /\ (forall u db1 e db2,
          show db (u8 "users") = (Ok u, db1) ->
          show db1 (u8 "user_features") = (Raise e, db2) ->
          join_keys (target_query t) = (None, None))
    /\ (forall e db2,
          show (targeting._detect_join_keys DB show db).2 (u8 "user_features")
          = (Raise e, db2) ->
          feature_cols (target_query t)
          = {| skin_type_col := None; skin_concern_col := None |})
    /\ (forall fcols db2,
          show (targeting._detect_join_keys DB show db).2 (u8 "user_features")
          = (Ok fcols, db2) ->
          feature_cols (target_query t)
          = {| skin_type_col :=
                 targeting.first_present [u8 "skin_type"; u8 "skin_type_primary"] fcols;
               skin_concern_col :=
                 targeting.first_present
                   [u8 "skin_concern"; u8 "skin_concern_primary"] fcols |})
    /\ skin_type_in (target_query t) = default [] (target_input brief ≫= skin_type)
    /\ skin_concern_in (target_query t)
       = default [] (target_input brief ≫= skin_concern).
Proof.
  intros Hages.
  destruct (build_target_total DB show this_year db brief channel tone Hages)
    as (ranges & t & _ & Hb & _ & Hj & Hf & Hst & Hsc).
  exists t. eexists. split; [exact Hb|].
  split.
  { intros e db1 H. rewrite Hj. by erewrite _detect_join_keys_users_fail. }
  split.
  { intros u db1 e db2 H1 H2. rewrite Hj.
    by erewrite _detect_join_keys_features_fail. }
  split; [intros e db2 H; by rewrite Hf, H|].
  split; [intros fcols db2 H; by rewrite Hf, H|].
  done.
Qed.

(** A session without access to any table: the bands are translated, the
    join keys and the feature columns are left out. *)
Lemma C9_build_target_degrades_witness :
  exists t,
    (targeting.build_target unit TargetSamples.show_fails 2026 tt
       (TargetSamples.brief_of [u8 "20대"; u8 "50대+"]) (u8 "SMS") (u8 "amoremall")).1
    = Ok t
    /\ join_keys (target_query t) = (None, None)
    /\ feature_cols (target_query t)
       = {| skin_type_col := None; skin_concern_col := None |}
    /\ skin_type_in (target_query t) = [u8 "건성"].
Proof.
  destruct (C9_build_target_degrades unit TargetSamples.show_fails 2026 tt
              (TargetSamples.brief_of [u8 "20대"; u8 "50대+"])
              (u8 "SMS") (u8 "amoremall"))
    as (t & db' & Hb & Hu & _ & Hf & _ & Hst & _).
  { repeat constructor.
    - exists 20. split; [vm_compute; lia|]. left. vm_compute. reflexivity.
    - exists 50. split; [vm_compute; lia|]. right. vm_compute. reflexivity. }
  exists t. split; [by rewrite Hb|]. split; [by eapply Hu|].
  split; [by eapply Hf | exact Hst].
Defined.

(** C9 as stated fails twice.  A band that is not a number followed by
    ["대"] makes [build_target] raise [ValueError], before any table is
    looked at.  And when only the audience table cannot be inspected, the
    join keys are [(None, None)] but the feature-column map is not empty. *)
Lemma C9_not_every_input :
  (targeting.build_target unit TargetSamples.show_fails 2026 tt
     (TargetSamples.brief_of [u8 "전체"]) (u8 "SMS") (u8 "amoremall")).1
  = Raise ValueError
  /\ exists t,
       (targeting.build_target unit TargetSamples.show_users_fails 2026 tt
          (TargetSamples.brief_of [u8 "20대"]) (u8 "SMS") (u8 "amoremall")).1
       = Ok t
       /\ (TargetSamples.show_users_fails tt (u8 "users")).1
          = Raise (Exn (u8 "OperationalError"))
       /\ join_keys (target_query t) = (None, None)
       /\ feature_cols (target_query t)
          = {| skin_type_col := Some (u8 "skin_type");
               skin_concern_col := Some (u8 "skin_concern_primary") |}.
Proof.
  split; [vm_compute; reflexivity|].
  eexists. split; [vm_compute; reflexivity|]. vm_compute. repeat split.
Qed.

(** ** The stage graph *)

Section OrchestratorFacts.

Import workflow.

Context {BriefT TargetT RagT : Type}.
Variable brief_of_goal : option pystr -> BriefT.
Variable empty_brief : BriefT.
Variable build_target : BriefT -> pystr -> pystr -> result TargetT.
Variable rag_stage : BriefT -> option TargetT -> pystr -> pystr -> result RagT.
Variable rag_context : option RagT -> pystr.
Variable generate_template_candidates
  : option (BriefT -> pystr -> pystr -> pystr -> result Batch).
Variable generate_final_message
  : option (BriefT -> Candidate -> pystr -> result Exec).
Variable inline_format : BriefT -> pystr -> result pystr.

Abbreviation State := (@CRMState BriefT TargetT RagT).
Abbreviation DBase := (@World BriefT TargetT RagT).
Abbreviation Row := (@Handoff BriefT TargetT RagT).
Abbreviation graph :=
  (GRAPH brief_of_goal empty_brief build_target rag_stage rag_context
     generate_template_candidates generate_final_message inline_format).

(** The import of [crm_agent.agents.compliance] fails: the package has
    no module of that name. *)
Lemma validate_candidates_unbound : validate_candidates = None.
Proof. reflexivity. Qed.

Lemma inline_check_status (c : Candidate) :
  let body := default [] (body_with_slots c) in
  let hit := (exists pre post, body = pre ++ u8 "100% 효과" ++ post)
             \/ (exists pre post, body = pre ++ u8 "완치" ++ post) in
  (hit -> status (inline_check c) = FAIL /\ reasons (inline_check c) = [Exaggeration])
  /\ (~ hit -> status (inline_check c) = PASS /\ reasons (inline_check c) = []).
Proof.
  intros body hit. unfold inline_check. fold body.
  assert (Hiff : contains (u8 "100% 효과") body || contains (u8 "완치") body = true
                 <-> hit).
  { rewrite orb_true_iff, !contains_spec. done. }
  destruct (contains (u8 "100% 효과") body || contains (u8 "완치") body).
  - split; [done|]. intros Hn. exfalso. by apply Hn, Hiff.
  - split; [|done]. intros Hh%Hiff. done.
Qed.




Lemma run_from_step (fuel : nat) (n : Node) (st : State) (w : DBase)
    (seen : list Node) :
  run_from graph (S fuel) n st w seen
  = match node_fn graph n st w with
    | (Raise e, w') => {| returned := Raise e; world := w'; trace := seen ++ [n] |}
    | (Ok st', w') =>
        match next graph n st' with
        | END => {| returned := Ok st'; world := w'; trace := seen ++ [n] |}
        | To m => run_from graph fuel m st' w' (seen ++ [n])
        end
    end.
Proof. cbn [run_from]. by destruct (node_fn graph n st w) as [[?|?] ?]. Qed.





(** *** The selection of the state and that of the store *)








(** *** Databases that differ in their selections *)






End OrchestratorFacts.

Section OrchestratorClaims.

Import workflow.

Context {BriefT TargetT RagT : Type}.
Variable brief_of_goal : option pystr -> BriefT.
Variable empty_brief : BriefT.
Variable build_target : BriefT -> pystr -> pystr -> result TargetT.
Variable rag_stage : BriefT -> option TargetT -> pystr -> pystr -> result RagT.
Variable rag_context : option RagT -> pystr.
Variable generate_template_candidates
  : option (BriefT -> pystr -> pystr -> pystr -> result Batch).
Variable generate_final_message
  : option (BriefT -> Candidate -> pystr -> result Exec).
Variable inline_format : BriefT -> pystr -> result pystr.

Abbreviation State := (@CRMState BriefT TargetT RagT).
Abbreviation DBase := (@World BriefT TargetT RagT).
Abbreviation graph :=
  (GRAPH brief_of_goal empty_brief build_target rag_stage rag_context
     generate_template_candidates generate_final_message inline_format).

(** C3.  The name [validate_candidates] of the orchestrator is [None],
    because [crm_agent.agents.compliance] is not a module of the package
    (the validator is in [compilance.py]).  So [node_compliance] always
    runs its own check: it returns one result per candidate, in order,
    stores exactly these under COMPLIANCE, and the result of a candidate
    is FAIL with the one exaggeration reason if its body contains
    ["100% 효과"] or ["완치"], and PASS without reasons if not.  The result
    depends on the body alone: the required slots play no part, and
    neither does the length. *)
Theorem C3_compliance_inline (st : State) (w : DBase) :
  let cands := match s_candidates st with Some b => candidates b | None => [] end in
  let results := List.map inline_check cands in
  validate_candidates = None
  /\ (exists st' w',
        node_compliance st w = (Ok st', w')
        /\ s_compliance st' = Some results
        /\ handoffs w' = handoffs w ++ [H_COMPLIANCE (run_id st) results])
  /\ length results = length cands
  /\ (forall i c, cands !! i = Some c ->
        exists r,
          results !! i = Some r
          /\ r_template_id r = template_id c
          /\ let body := default [] (body_with_slots c) in
             let hit := (exists pre post, body = pre ++ u8 "100% 효과" ++ post)
                        \/ (exists pre post, body = pre ++ u8 "완치" ++ post) in
             (hit -> status r = FAIL /\ reasons r = [Exaggeration])
             /\ (~ hit -> status r = PASS /\ reasons r = []))
  /\ (forall c c', body_with_slots c = body_with_slots c' ->
        status (inline_check c) = status (inline_check c')
        /\ reasons (inline_check c) = reasons (inline_check c')).
Proof.
  intros cands results. split; [reflexivity|]. split.
  { do 2 eexists. unfold node_compliance.
    rewrite validate_candidates_unbound. split; [reflexivity|]. by split. }
  split; [apply length_map|]. split.
  - intros i c Hc. exists (inline_check c). split.
    { subst results. change (List.map inline_check cands) with (inline_check <$> cands).
      by rewrite list_lookup_fmap, Hc. }
    split; [done|]. apply inline_check_status.
  - intros c c' Hb. unfold inline_check. cbn [status reasons]. by rewrite Hb.
Qed.



End OrchestratorClaims.





(** Two candidates in the state, one with a banned phrase and none of its
    required slots: only the phrase counts. *)
Lemma C3_compliance_inline_witness :
  let c body :=
    {| template_id := Some (u8 "T001"); title := None;
       slot_schema := Some {| required := Some [u8 "cta"]; optional := None |};
       body_with_slots := Some body; channel := None; tone := None;
       notes := None; default_slot_values := None |} in
  let st : workflow.CRMState (BriefT:=unit) (TargetT:=unit) (RagT:=unit) :=
    {| workflow.run_id := FlowSamples.rid; workflow.s_channel := None;
       workflow.s_tone := None; workflow.s_brief := None;
       workflow.s_target := None; workflow.s_rag := None;
       workflow.s_candidates :=
         Some {| notes_heap := [];
                 candidates := [c (u8 "완치 보장"); c (u8 "{offer}")] |};
       workflow.s_compliance := None; workflow.selected_template := None;
       workflow.execution_result := None |} in
  exists st' w',
    workflow.node_compliance st FlowSamples.fresh = (Ok st', w')
    /\ List.map status (default [] (workflow.s_compliance st')) = [FAIL; PASS].
Proof.
  intros c st.
  destruct (C3_compliance_inline st FlowSamples.fresh)
    as (_ & (st' & w' & Hn & Hc & _) & _).
  exists st', w'. split; [exact Hn|]. rewrite Hc. vm_compute. reflexivity.
Defined.

(** * Further properties of the code *)

(** ** The handoff store and the runs: db/repo.py *)

Section StoreFacts.

Import workflow.

Context {BriefT TargetT RagT : Type}.

Abbreviation DBase := (@World BriefT TargetT RagT).
Abbreviation Row := (@Handoff BriefT TargetT RagT).

Lemma prefix_length (n : nat) (s : pystr) : (length (prefix n s) <= n)%nat.
Proof. unfold prefix. rewrite length_take. lia. Qed.

Lemma _upper_channel_cases (c : pystr) : repo._upper_channel c ∈ channels.
Proof.
  unfold repo._upper_channel, mem.
  case_bool_decide as Hin.
  - unfold channels.
    repeat (apply elem_of_cons in Hin as [-> | Hin]; [by_decide|]).
    by apply elem_of_nil in Hin.
  - repeat (destruct (PyStr.eqb _ _); [by_decide|]). by_decide.
Qed.

End StoreFacts.

(** ** What the stages write: flow/workflow.py *)

Section StageEffects.

Import workflow.

Context {BriefT TargetT RagT : Type}.
Variable brief_of_goal : option pystr -> BriefT.
Variable empty_brief : BriefT.
Variable build_target : BriefT -> pystr -> pystr -> result TargetT.
Variable rag_stage : BriefT -> option TargetT -> pystr -> pystr -> result RagT.
Variable rag_context : option RagT -> pystr.
Variable generate_template_candidates
  : option (BriefT -> pystr -> pystr -> pystr -> result Batch).
Variable generate_final_message
  : option (BriefT -> Candidate -> pystr -> result Exec).
Variable inline_format : BriefT -> pystr -> result pystr.

Abbreviation State := (@CRMState BriefT TargetT RagT).
Abbreviation DBase := (@World BriefT TargetT RagT).
Abbreviation Row := (@Handoff BriefT TargetT RagT).
Abbreviation graph :=
  (GRAPH brief_of_goal empty_brief build_target rag_stage rag_context
     generate_template_candidates generate_final_message inline_format).

Lemma stored (n : Node) (st : State) (w : DBase) (h : Row)
    (channel candidate_id rendered_text : option pystr) (s : pystr) :
  Some (stage_of h) = node_stage n -> handoff_run h = run_id st ->
  node_step n = Some s -> prefix 16 s = s ->
  wrote n st w
    (update_run (run_id st) channel (Some s) candidate_id rendered_text
       (create_handoff h w)).
Proof.
  intros Hs Hr Hn Hp. exists h. split; [done|]. split; [done|]. split; [done|].
  split.
  - intros rid' Hne. unfold update_run. cbn [runs create_handoff].
    by rewrite lookup_alter_ne.
  - intros r Hrun. unfold update_run. cbn [runs create_handoff].
    rewrite lookup_alter_eq, Hrun. cbn [fmap option_fmap option_map].
    eexists. split; [reflexivity|]. cbn [r_step_id]. by rewrite Hp, Hn.
Qed.

Lemma stage_writes (n : Node) (st : State) (w : DBase) :
  match node_fn graph n st w with
  | (Raise _, w') => w' = w
  | (Ok st', w') =>
      run_id st' = run_id st
      /\ selected_template st' = selected_template st
      /\ match n with
         | stage_load_brief => w' = w /\ is_Some (runs w !! run_id st)
         | _ => wrote n st w w'
         end
  end.
Proof.
  destruct n; cbn [node_fn GRAPH build_graph].
  - unfold node_load_brief, get_run.
    destruct (runs w !! run_id st) as [r|] eqn:Hr; [|done].
    split; [done|]. split; [done|]. split; [done | by eexists].
  - unfold node_targeting. destruct (build_target _ _ _) as [t|e]; [|done].
    split; [done|]. split; [done|]. by apply stored.
  - unfold node_rag. destruct (rag_stage _ _ _ _) as [t|e]; [|done].
    split; [done|]. split; [done|]. by apply stored.
  - unfold node_candidates.
    destruct (match generate_template_candidates with
              | Some g => _
              | None => _
              end) as [b|e]; [|done].
    split; [done|]. split; [done|]. by apply stored.
  - unfold node_compliance. split; [done|]. split; [done|]. by apply stored.
  - unfold node_execute.
    destruct (match selected_in_state st with
              | Some c => Some c
              | None => get_latest_selected w (run_id st)
              end) as [sel|]; [|done].
    destruct (match generate_final_message with
              | Some g => _
              | None => _
              end) as [res|e]; [|done].
    split; [done|]. split; [done|]. by apply stored.
Qed.

(** X2.  A stage that raises leaves the database as it was.  A stage that
    returns keeps the run identifier and the selection of the state;
    LOAD_BRIEF writes nothing and needs the run to exist, and each of the
    other stages appends exactly one handoff, of its own stage and of the
    run of the state, and sets the step marker of that run. *)
Theorem node_effects (n : Node) (st : State) (w : DBase) :
  match node_fn graph n st w with
  | (Raise _, w') => w' = w
  | (Ok st', w') =>
      run_id st' = run_id st
      /\ selected_template st' = selected_template st
      /\ match n with
         | stage_load_brief => w' = w /\ is_Some (runs w !! run_id st)
         | _ => wrote n st w w'
         end
  end.
Proof. apply stage_writes. Qed.

(** X3.  An unknown run identifier is fatal at LOAD_BRIEF: the invocation
    raises there, and nothing is written. *)
Theorem unknown_run_is_fatal (st : State) (w : DBase) :
  runs w !! run_id st = None ->
  let out := invoke graph st w in
  (exists e, returned out = Raise e)
  /\ trace out = [stage_load_brief]
  /\ world out = w.
Proof.
  intros Hnone. unfold invoke, recursion_limit.
  change (entry_point graph) with stage_load_brief.
  rewrite run_from_step. cbn [node_fn GRAPH build_graph].
  unfold node_load_brief, get_run. rewrite Hnone. split; [by eexists | done].
Qed.

(** EXECUTE takes the selection of the state if there is one, whatever
    the store holds; without one it takes the latest stored selection of
    the run; with neither it raises and writes nothing. *)
Lemma node_execute_selection (st : State) (w : DBase) :
  let run sel :=
    match generate_final_message with
    | Some generate =>
        generate (default empty_brief (s_brief st)) sel (rag_context (s_rag st))
    | None =>
        do final_text <~ inline_format (default empty_brief (s_brief st))
                           (default [] (body_with_slots sel));
        Ok {| used_template_id := template_id sel;
              final_message := Some final_text;
              slot_values := None; rag_used_hint := None;
              rag_used := Some (prefix 1500 (rag_context (s_rag st))) |}
    end in
  let outcome := node_execute empty_brief rag_context generate_final_message
                   inline_format st w in
  let used sel :=
    match run sel with
    | Raise e => outcome = (Raise e, w)
    | Ok res =>
        exists st' w',
          outcome = (Ok st', w')
          /\ execution_result st' = Some res
          /\ handoffs w' = handoffs w ++ [H_EXECUTION_RESULT (run_id st) res]
    end in
  (forall sel, selected_in_state st = Some sel -> used sel)
  /\ (forall sel, selected_in_state st = None ->
        get_latest_selected w (run_id st) = Some sel -> used sel)
  /\ (selected_in_state st = None -> get_latest_selected w (run_id st) = None ->
      exists e, outcome = (Raise e, w)).
Proof.
  intros run outcome used.
  assert (Huse : forall sel,
    match selected_in_state st with
    | Some c => Some c
    | None => get_latest_selected w (run_id st)
    end = Some sel -> used sel).
  { intros sel Hsel. subst used outcome. cbv beta. unfold node_execute.
    rewrite Hsel. subst run. cbv beta.
    destruct (match generate_final_message with
              | Some g => _
              | None => _
              end) as [res|e]; [|done].
    do 2 eexists. split; [reflexivity|]. by split. }
  split; [|split].
  - intros sel Hs. apply Huse. by rewrite Hs.
  - intros sel Hs Hl. apply Huse. by rewrite Hs.
  - intros Hs Hl. subst outcome. unfold node_execute. rewrite Hs, Hl. by eexists.
Qed.

(** X4.  An invocation only appends handoffs, all of them for its own run, and
    leaves the other runs alone.  The stages of the handoffs it appends
    are, in order, those of the stages that completed: a stage that raises
    has written none, and what the stages before it wrote stays.  When the
    invocation returns, the step marker of the run is that of the last
    stage that ran. *)
Theorem invoke_audit_trail (st : State) (w : DBase) :
  let out := invoke graph st w in
  exists added : list Row,
    handoffs (world out) = handoffs w ++ added
    /\ Forall (fun h => handoff_run h = run_id st) added
    /\ (forall rid', rid' <> run_id st ->
          runs (world out) !! rid' = runs w !! rid')
    /\ List.map stage_of added
       = omap node_stage
           (match returned out with
            | Ok _ => trace out
            | Raise _ => removelast (trace out)
            end)
    /\ (forall st', returned out = Ok st' ->
          exists r n,
            last (trace out) = Some n
            /\ runs (world out) !! run_id st = Some r
            /\ r_step_id r = node_step n).
Proof.
  unfold invoke, recursion_limit.
  change (entry_point graph) with stage_load_brief.
  (* LOAD_BRIEF *)
  rewrite run_from_step.
  pose proof (stage_writes stage_load_brief st w) as E1.
  destruct (node_fn graph stage_load_brief st w) as [[st1|e] w1].
  2:{ subst w1. exists []. rewrite app_nil_r. repeat split; done. }
  destruct E1 as (R1 & _ & -> & [r0 Hr0]).
  change (next graph stage_load_brief st1) with (To stage_target). cbv iota.
  (* TARGET *)
  rewrite run_from_step.
  pose proof (stage_writes stage_target st1 w) as E2.
  destruct (node_fn graph stage_target st1 w) as [[st2|e] w2].
  2:{ subst w2. exists []. rewrite app_nil_r. repeat split; done. }
  destruct E2 as (R2 & _ & h2 & H2 & S2 & U2 & O2 & M2).
  change (next graph stage_target st2) with (To stage_rag). cbv iota.
  (* RAG *)
  rewrite run_from_step.
  pose proof (stage_writes stage_rag st2 w2) as E3.
  destruct (node_fn graph stage_rag st2 w2) as [[st3|e] w3].
  2:{ subst w3. exists [h2]. cbn [world returned trace].
      split; [done|]. split; [constructor; [congruence | done]|].
      split; [intros rid' Hne; apply O2; congruence|].
      split; [cbn; by injection S2 as -> | done]. }
  destruct E3 as (R3 & _ & h3 & H3 & S3 & U3 & O3 & M3).
  change (next graph stage_rag st3) with (To stage_candidates). cbv iota.
  (* CANDIDATES *)
  rewrite run_from_step.
  pose proof (stage_writes stage_candidates st3 w3) as E4.
  destruct (node_fn graph stage_candidates st3 w3) as [[st4|e] w4].
  2:{ subst w4. exists [h2; h3]. cbn [world returned trace].
      split; [by rewrite H3, H2, <- app_assoc|].
      split; [repeat constructor; congruence|].
      split; [intros rid' Hne; rewrite O3, O2; congruence|].
      split; [cbn; injection S2 as ->; by injection S3 as -> | done]. }
  destruct E4 as (R4 & _ & h4 & H4 & S4 & U4 & O4 & M4).
  change (next graph stage_candidates st4) with (To stage_compliance). cbv iota.
  (* COMPLIANCE *)
  rewrite run_from_step.
  pose proof (stage_writes stage_compliance st4 w4) as E5.
  destruct (node_fn graph stage_compliance st4 w4) as [[st5|e] w5].
  2:{ subst w5. exists [h2; h3; h4]. cbn [world returned trace].
      split; [by rewrite H4, H3, H2, <- !app_assoc|].
      split; [repeat constructor; congruence|].
      split; [intros rid' Hne; rewrite O4, O3, O2; congruence|].
      split; [cbn; injection S2 as ->; injection S3 as ->; by injection S4 as ->
             | done]. }
  destruct E5 as (R5 & _ & h5 & H5 & S5 & U5 & O5 & M5).
  assert (Hrun : forall r, runs w !! run_id st = Some r ->
                   exists r5, runs w5 !! run_id st = Some r5
                              /\ r_step_id r5 = node_step stage_compliance).
  { intros r Hr. rewrite <- R1 in Hr. destruct (M2 r Hr) as (r2 & Hr2 & _).
    rewrite <- R2 in Hr2. destruct (M3 r2 Hr2) as (r3 & Hr3 & _).
    rewrite <- R3 in Hr3. destruct (M4 r3 Hr3) as (r4 & Hr4 & _).
    rewrite <- R4 in Hr4. destruct (M5 r4 Hr4) as (r5 & Hr5 & Hs5).
    exists r5. split; [|done]. rewrite <- R1, <- R2, <- R3, <- R4. done. }
  change (next graph stage_compliance st5) with (route_after_compliance st5).
  unfold route_after_compliance.
  destruct (selected_in_state st5) as [sel|].
  - (* EXECUTE *)
    rewrite run_from_step.
    pose proof (stage_writes stage_execute st5 w5) as E6.
    destruct (node_fn graph stage_execute st5 w5) as [[st6|e] w6].
    2:{ subst w6. exists [h2; h3; h4; h5]. cbn [world returned trace].
        split; [by rewrite H5, H4, H3, H2, <- !app_assoc|].
        split; [repeat constructor; congruence|].
        split; [intros rid' Hne; rewrite O5, O4, O3, O2; congruence|].
        split; [cbn; injection S2 as ->; injection S3 as ->; injection S4 as ->;
                by injection S5 as -> | done]. }
    destruct E6 as (R6 & _ & h6 & H6 & S6 & U6 & O6 & M6).
    change (next graph stage_execute st6) with END. cbv iota.
    exists [h2; h3; h4; h5; h6]. cbn [world returned trace].
    split; [by rewrite H6, H5, H4, H3, H2, <- !app_assoc|].
    split; [repeat constructor; congruence|].
    split; [intros rid' Hne; rewrite O6, O5, O4, O3, O2; congruence|].
    split; [cbn; injection S2 as ->; injection S3 as ->; injection S4 as ->;
            injection S5 as ->; by injection S6 as ->|].
    intros st' _. destruct (Hrun r0 Hr0) as (r5 & Hr5 & _).
    assert (Hr5' : runs w5 !! run_id st5 = Some r5) by congruence.
    destruct (M6 r5 Hr5') as (r6 & Hr6 & Hs6).
    exists r6, stage_execute. split; [done|]. split; [congruence | done].
  - exists [h2; h3; h4; h5]. cbn [world returned trace].
    split; [by rewrite H5, H4, H3, H2, <- !app_assoc|].
    split; [repeat constructor; congruence|].
    split; [intros rid' Hne; rewrite O5, O4, O3, O2; congruence|].
    split; [cbn; injection S2 as ->; injection S3 as ->; injection S4 as ->;
            by injection S5 as ->|].
    intros st' _. destruct (Hrun r0 Hr0) as (r5 & Hr5 & Hs5).
    exists r5, stage_compliance. done.
Qed.

End StageEffects.

(** ** Candidate batches: agents/template_agent.py *)

Section BatchFacts.

Import template_agent.

Lemma lstrip_idem_nonspace (s : pystr) :
  match s with [] => True | c :: _ => is_space c = false end -> lstrip s = s.
Proof. destruct s as [|c s]; [done|]. intros Hc. simpl. by rewrite Hc. Qed.

Lemma lstrip_spaces (ws s : pystr) :
  Forall (fun c => is_space c = true) ws -> lstrip (ws ++ s) = lstrip s.
Proof. induction 1 as [|c ws Hc _ IH]; [done|]. simpl. by rewrite Hc. Qed.

(** [strip] of a text between white space. *)
Lemma strip_padded (pre s post : pystr) (a b : N) :
  Forall (fun c => is_space c = true) pre ->
  Forall (fun c => is_space c = true) post ->
  is_space a = false -> is_space b = false ->
  strip (pre ++ (a :: s ++ [b]) ++ post) = a :: s ++ [b].
Proof.
  intros Hpre Hpost Ha Hb. unfold strip.
  rewrite lstrip_spaces by done. cbn [app]. rewrite lstrip_cons_keep by done.
  unfold rstrip.
  assert (E : rev (a :: (s ++ [b]) ++ post) = rev post ++ b :: rev (a :: s)).
  { change (a :: (s ++ [b]) ++ post) with (((a :: s) ++ [b]) ++ post).
    by rewrite !rev_app_distr. }
  assert (Hrev : Forall (fun c => is_space c = true) (rev post)).
  { apply Forall_forall. intros c Hc. apply list_elem_of_In, in_rev in Hc.
    apply list_elem_of_In in Hc. by apply (proj1 (Forall_forall _ _) Hpost). }
  rewrite E, lstrip_spaces, lstrip_cons_keep by done.
  change (rev (b :: rev (a :: s))) with (rev (rev (a :: s)) ++ [b]).
  by rewrite rev_involutive.
Qed.

(** A spelling of an upper-case ASCII name: each letter as it is or in
    lower case. *)
Lemma upper_spelling (s name : pystr) :
  Forall (fun c => (65 <=? c) && (c <=? 90) = true) name ->
  Forall2 (fun a b => a = b \/ a = b + 32) s name ->
  upper s = name.
Proof.
  intros Hname Hs. unfold upper.
  induction Hs as [|a b s name Hab Hs IH]; [done|].
  apply Forall_cons in Hname as [Hb Hname]. cbn [List.map concat].
  rewrite IH by done. apply andb_true_iff in Hb as [H1%N.leb_le H2%N.leb_le].
  destruct Hab as [-> | ->]; unfold upper1.
  - rewrite (proj2 (N.leb_gt 97 b)) by lia. cbn [andb].
    repeat rewrite (proj2 (N.eqb_neq b _)) by lia. done.
  - rewrite (proj2 (N.leb_le 97 (b + 32))), (proj2 (N.leb_le (b + 32) 122)) by lia.
    cbn [andb app]. f_equal. lia.
Qed.

Lemma letter_not_space (c : N) :
  (65 <= c <= 90 \/ 97 <= c <= 122) -> is_space c = false.
Proof.
  intros Hc. unfold is_space.
  repeat match goal with
         | |- context [?a <=? ?b] =>
             first [ rewrite (proj2 (N.leb_gt a b)) by lia
                   | rewrite (proj2 (N.leb_le a b)) by lia ]
         | |- context [?a =? ?b] => rewrite (proj2 (N.eqb_neq a b)) by lia
         end.
  destruct Hc; repeat match goal with
         | |- context [?a <=? ?b] =>
             first [ rewrite (proj2 (N.leb_gt a b)) by lia
                   | rewrite (proj2 (N.leb_le a b)) by lia ]
         end; reflexivity.
Qed.

(** X5.  [_normalize_channel] always gives one of the four channels and is
    idempotent; it accepts each of the four names in any mix of upper and
    lower case and between any white space. *)
Theorem normalize_channel_spec (ch : pystr) :
  _normalize_channel ch ∈ channels
  /\ _normalize_channel (_normalize_channel ch) = _normalize_channel ch
  /\ (forall name s pre post,
        name ∈ channels ->
        Forall2 (fun a b => a = b \/ a = b + 32) s name ->
        Forall (fun c => is_space c = true) pre ->
        Forall (fun c => is_space c = true) post ->
        _normalize_channel (pre ++ s ++ post) = name).
Proof.
  split; [apply _normalize_channel_cases|].
  split; [apply _normalize_channel_idem|].
  intros name s pre post Hname Hs Hpre Hpost.
  assert (Hup : Forall (fun c => (65 <=? c) && (c <=? 90) = true) name).
  { unfold channels in Hname.
    repeat (apply elem_of_cons in Hname as [-> | Hname];
            [repeat constructor|]).
    by apply elem_of_nil in Hname. }
  assert (Hlen : (2 <= length name)%nat).
  { unfold channels in Hname.
    repeat (apply elem_of_cons in Hname as [-> | Hname]; [vm_compute; lia|]).
    by apply elem_of_nil in Hname. }
  assert (Hstrip : strip (pre ++ s ++ post) = s).
  { pose proof (Forall2_length _ _ _ Hs) as Hl.
    destruct s as [|a s]; [simpl in Hl; lia|].
    destruct (rev s) as [|b r] eqn:Hr.
    { apply (f_equal (@rev N)) in Hr. rewrite rev_involutive in Hr. subst s.
      simpl in Hl. lia. }
    apply (f_equal (@rev N)) in Hr. rewrite rev_involutive in Hr.
    cbn [rev] in Hr. subst s.
    assert (Hns : forall c, c ∈ a :: rev r ++ [b] -> is_space c = false).
    { intros c Hc. apply letter_not_space.
      assert (Hall : Forall (fun c => 65 <= c <= 90 \/ 97 <= c <= 122)
                       (a :: rev r ++ [b])).
      { clear -Hs Hup. induction Hs as [|x y s' n' Hxy _ IH]; [constructor|].
        apply Forall_cons in Hup as [Hy Hup].
        apply andb_true_iff in Hy as [H1%N.leb_le H2%N.leb_le].
        constructor; [destruct Hxy; subst; lia | by apply IH]. }
      by apply (proj1 (Forall_forall _ _) Hall). }
    apply strip_padded; try done; apply Hns; set_solver. }
  unfold _normalize_channel. rewrite Hstrip, (upper_spelling s name) by done.
  unfold mem. by rewrite bool_decide_eq_true_2.
Qed.

(** *** Template identifiers *)

Lemma dec_val_zeros (n : nat) (ds : pystr) :
  dec_val (repeat 48 n ++ ds) 0 = dec_val ds 0.
Proof. induction n as [|n IH]; [done|]. exact IH. Qed.

Lemma template_id_of_value (idx : nat) :
  dec_val (drop 1 (template_id_of idx)) 0 = N.of_nat idx.
Proof.
  unfold template_id_of.
  set (ds := str_of_N (N.of_nat idx)).
  change (drop 1 (u8 "T" ++ repeat 48 (3 - length ds) ++ ds))
    with (repeat 48 (3 - length ds) ++ ds).
  rewrite dec_val_zeros. apply dec_val_str_of_N.
Qed.

Lemma template_id_of_inj (i j : nat) :
  template_id_of i = template_id_of j -> i = j.
Proof.
  intros H. apply (f_equal (fun s => dec_val (drop 1 s) 0)) in H.
  rewrite !template_id_of_value in H. lia.
Qed.

(** *** The loop of the LLM path *)

Lemma setdefault_has (k : pystr) (v : json) (d : gmap pystr json) :
  is_Some (setdefault k v d !! k).
Proof.
  unfold setdefault. destruct (d !! k) as [y|] eqn:Hk; [by rewrite Hk|].
  rewrite lookup_insert_eq. by eexists.
Qed.

Lemma setdefault_keeps (k k' : pystr) (v x : json) (d : gmap pystr json) :
  d !! k' = Some x -> setdefault k v d !! k' = Some x.
Proof.
  unfold setdefault. destruct (d !! k) as [y|] eqn:Hk; [done|].
  intros Hx. destruct (decide (k = k')) as [->|Hne]; [congruence|].
  by rewrite lookup_insert_ne.
Qed.

Lemma setdefault_fresh (k : pystr) (v : json) (d : gmap pystr json) :
  d !! k = None -> setdefault k v d !! k = Some v.
Proof. unfold setdefault. intros ->. by rewrite lookup_insert_eq. Qed.

(** [(rc.get(key) or dflt)] when it can be stripped: the string under
    the key if it is not empty, and the default otherwise. *)
Lemma str_or_default_Ok (o : option json) (dflt s : pystr) :
  str_or_default o dflt = Ok s ->
  s = match o with
      | Some (JStr (a :: t)) => a :: t
      | _ => dflt
      end.
Proof.
  unfold str_or_default. destruct o as [j|]; [|by intros [= <-]].
  destruct j as [|b|n|t|l|items]; cbn [truthy].
  - by intros [= <-].
  - destruct b; [done | by intros [= <-]].
  - destruct (negb _); [done | by intros [= <-]].
  - destruct t; by intros [= <-].
  - destruct l; [by intros [= <-] | done].
  - destruct items; [by intros [= <-] | done].
Qed.

(** The missing names of the template agent, computed on the list of
    the names found. *)
Lemma missing_by_list (body : pystr) (req : list pystr) :
  _validate_candidate_body body req
  = List.filter (fun s => bool_decide (s ∉ SlotPattern.findall body)) req.
Proof.
  unfold _validate_candidate_body, _slot_placeholders_in_text.
  apply filter_ext. intros s. apply bool_decide_ext.
  by rewrite elem_of_list_to_set.
Qed.

Lemma braced_text (m : pystr) : SlotPattern.braced m = u8 "{" ++ m ++ u8 "}".
Proof. reflexivity. Qed.

Lemma repair_text (body : pystr) (missing : list pystr) :
  repair body missing
  = match missing with
    | [] => body
    | _ :: _ =>
        strip (body ++ [10]
               ++ join [10] (List.map (fun m => u8 "{" ++ m ++ u8 "}") missing))
    end.
Proof. reflexivity. Qed.

(** The table of the required slots, spelled out. *)
Lemma required_slots_table (ch : pystr) :
  ch ∈ channels ->
  REQUIRED_SLOTS_BY_CHANNEL ch
  = Ok ([u8 "customer_name"; u8 "product_name"; u8 "offer"; u8 "cta"]
        ++ (if decide (ch = u8 "SMS") then [u8 "unsubscribe"]
            else if decide (ch = u8 "EMAIL") then [u8 "subject"]
            else [])).
Proof.
  intros Hin. unfold channels in Hin.
  repeat (apply elem_of_cons in Hin as [-> | Hin]; [vm_compute; reflexivity|]).
  by apply elem_of_nil in Hin.
Qed.

Lemma llm_candidate_fields (ch tone_id : pystr) (req : list pystr)
    (notes0 : Notes) (idx : nat) (rc : json) (n : Notes) (c : Candidate) :
  llm_candidate ch tone_id req notes0 (idx, rc) = Ok (n, c) ->
  template_id c = Some (template_id_of idx)
  /\ notes c = Some (idx - 1)%nat
  /\ channel c = Some ch
  /\ tone c = Some tone_id
  /\ slot_schema c = Some {| required := Some req; optional := Some OPTIONAL_SLOTS |}
  /\ exists items d,
       rc = JObj items
       /\ title c
          = Some (strip match json_get items (u8 "title") with
                        | Some (JStr (a :: t)) => a :: t
                        | _ => tone_id ++ u8 " | 후보" ++ str_of_N (N.of_nat idx)
                        end)
       /\ (let raw := strip match json_get items (u8 "body_with_slots") with
                             | Some (JStr s) => s
                             | _ => []
                             end in
           missing_slots_fixed n = Some (_validate_candidate_body raw req)
           /\ body_with_slots c
              = Some (repair raw (_validate_candidate_body raw req)))
       /\ default_slot_values c = Some d
       /\ is_Some (d !! u8 "cta") /\ is_Some (d !! u8 "subject")
       /\ (forall given k x,
             json_get items (u8 "default_slot_values") = Some (JObj given) ->
             json_dict given !! k = Some x -> d !! k = Some x)
       /\ ((forall given, json_get items (u8 "default_slot_values")
                          = Some (JObj given) ->
                          json_dict given !! u8 "cta" = None) ->
           d !! u8 "cta" = Some (JStr (u8 "{deep_link}"))).
Proof.
  unfold llm_candidate. destruct rc as [| | | |l|items]; try done.
  destruct (str_or_default (json_get items (u8 "title")) _) as [ttl|] eqn:Ht;
    [|done].
  cbn [bind].
  destruct (str_or_default (json_get items (u8 "body_with_slots")) _)
    as [body|] eqn:Hb; [|done].
  cbn [bind]. intros [= <- <-].
  cbn [template_id notes channel tone missing_slots_fixed body_with_slots
       default_slot_values slot_schema title].
  apply str_or_default_Ok in Ht, Hb.
  repeat (split; [done|]).
  exists items. eexists. split; [done|].
  split; [by rewrite Ht|].
  split.
  { assert (Hraw : body = match json_get items (u8 "body_with_slots") with
                          | Some (JStr s) => s
                          | _ => []
                          end).
    { rewrite Hb. destruct (json_get items (u8 "body_with_slots")) as [[| | |[|]| |]|];
        done. }
    by rewrite <- Hraw. }
  split; [reflexivity|].
  set (d0 := match json_get items (u8 "default_slot_values") with
             | Some (JObj d) => json_dict d
             | _ => ∅
             end).
  set (d1 := setdefault (u8 "cta") (JStr (u8 "{deep_link}")) d0).
  assert (Hcta : is_Some (d1 !! u8 "cta")) by apply setdefault_has.
  split.
  { destruct Hcta as [x Hx]. exists x.
    destruct (PyStr.eqb ch (u8 "EMAIL")); by apply setdefault_keeps. }
  split.
  { destruct (PyStr.eqb ch (u8 "EMAIL")); apply setdefault_has. }
  split.
  { intros given k x Hg Hk.
    assert (H0 : d0 !! k = Some x) by (subst d0; by rewrite Hg).
    assert (H1 : d1 !! k = Some x) by by apply setdefault_keeps.
    destruct (PyStr.eqb ch (u8 "EMAIL")); by apply setdefault_keeps. }
  intros Hno.
  assert (H0 : d0 !! u8 "cta" = None).
  { subst d0. destruct (json_get items (u8 "default_slot_values")) as [[| | | | |g]|];
      try apply lookup_empty. by apply Hno. }
  assert (H1 : d1 !! u8 "cta" = Some (JStr (u8 "{deep_link}")))
    by by apply setdefault_fresh.
  destruct (PyStr.eqb ch (u8 "EMAIL")); by apply setdefault_keeps.
Qed.

Lemma Forall2_enumerate {A B} (P : nat -> A -> B -> Prop) (start : nat)
    (l : list A) (l' : list B) :
  Forall2 (fun e b => P e.1 e.2 b) (combine (seq start (length l)) l) l' ->
  length l' = length l
  /\ forall i a b, l !! i = Some a -> l' !! i = Some b -> P (start + i)%nat a b.
Proof.
  revert start l'. induction l as [|a l IH]; intros start l' H.
  - apply Forall2_nil_inv_l in H as ->. split; [done|]. by intros [|i].
  - cbn [length seq combine] in H.
    apply Forall2_cons_inv_l in H as (b & l'' & Hb & Hrest & ->).
    apply IH in Hrest as [Hlen Hrest]. split; [simpl; lia|].
    intros [|i] a' b' Ha' Hb'; simpl in Ha', Hb'.
    + injection Ha' as <-. injection Hb' as <-. by rewrite Nat.add_0_r.
    + replace (start + S i)%nat with (S start + i)%nat by lia. by apply Hrest.
Qed.

End BatchFacts.

(** ** Updating a run: db/repo.py *)

Section RunUpdates.

Import workflow.

Context {BriefT TargetT RagT : Type}.

(** A spelling of a channel name between white space, stripped and in
    upper case, is the name. *)
Lemma spelled_channel (name s pre post : pystr) :
  name ∈ channels ->
  Forall2 (fun a b => a = b \/ a = b + 32) s name ->
  Forall (fun c => is_space c = true) pre ->
  Forall (fun c => is_space c = true) post ->
  upper (strip (pre ++ s ++ post)) = name.
Proof.
  intros Hname Hs Hpre Hpost.
  assert (Hup : Forall (fun c => (65 <=? c) && (c <=? 90) = true) name).
  { unfold channels in Hname.
    repeat (apply elem_of_cons in Hname as [-> | Hname];
            [repeat constructor|]).
    by apply elem_of_nil in Hname. }
  assert (Hlen : (2 <= length name)%nat).
  { unfold channels in Hname.
    repeat (apply elem_of_cons in Hname as [-> | Hname]; [vm_compute; lia|]).
    by apply elem_of_nil in Hname. }
  assert (Hall : Forall (fun c => 65 <= c <= 90 \/ 97 <= c <= 122) s).
  { clear -Hs Hup. induction Hs as [|x y s' n' Hxy _ IH]; [constructor|].
    apply Forall_cons in Hup as [Hy Hup].
    apply andb_true_iff in Hy as [H1%N.leb_le H2%N.leb_le].
    constructor; [destruct Hxy; subst; lia | by apply IH]. }
  pose proof (Forall2_length _ _ _ Hs) as Hl.
  destruct s as [|a s]; [simpl in Hl; lia|].
  destruct (rev s) as [|b r] eqn:Hr.
  { apply (f_equal (@rev N)) in Hr. rewrite rev_involutive in Hr. subst s.
    simpl in Hl. lia. }
  apply (f_equal (@rev N)) in Hr. rewrite rev_involutive in Hr.
  cbn [rev] in Hr. subst s.
  assert (Hns : forall c, c ∈ a :: rev r ++ [b] -> is_space c = false).
  { intros c Hc. apply letter_not_space.
    by apply (proj1 (Forall_forall _ _) Hall). }
  rewrite strip_padded; try done; try (apply Hns; set_solver).
  by apply upper_spelling.
Qed.

Lemma strip_blank (c : pystr) :
  Forall (fun x => is_space x = true) c -> strip c = [].
Proof.
  intros Hc. unfold strip.
  assert (Hl : lstrip c = []).
  { induction Hc as [|x c Hx _ IH]; [done|]. simpl. by rewrite Hx. }
  by rewrite Hl.
Qed.

(** X1.  [update_run] rewrites one row of [campaign_runs] and nothing else:
    the handoffs and the other runs stay, and an unknown run identifier
    changes nothing.  In the row of the run, the goal is kept; a step
    marker that is passed is stored cut to its first 16 characters; a
    channel that is passed is stored as [_upper_channel] returns it; a
    candidate identifier that is passed is stored cut to 16 characters,
    and as NULL when it is empty; a rendered text is stored as given;
    what is not passed is kept.  [_upper_channel] always returns one of
    PUSH, SMS, KAKAO and EMAIL: the name itself for each of the four
    names in any mix of upper and lower case and between any white
    space, and PUSH for a blank text. *)
Theorem update_run_frame (rid : pystr)
    (chan step_id candidate_id rendered_text : option pystr)
    (w : @World BriefT TargetT RagT) :
  let w' := update_run rid chan step_id candidate_id rendered_text w in
  let names := [u8 "PUSH"; u8 "SMS"; u8 "KAKAO"; u8 "EMAIL"] in
  handoffs w' = handoffs w
  /\ (forall rid', rid' <> rid -> runs w' !! rid' = runs w !! rid')
  /\ (runs w !! rid = None -> w' = w)
  /\ (forall r, runs w !! rid = Some r ->
        exists r',
          runs w' !! rid = Some r'
          /\ r_campaign_goal r' = r_campaign_goal r
          /\ r_step_id r'
             = match step_id with
               | Some s => Some (firstn 16 s)
               | None => r_step_id r
               end
          /\ r_channel r'
             = match chan with
               | Some c => Some (repo._upper_channel c)
               | None => r_channel r
               end
          /\ r_candidate_id r'
             = match candidate_id with
               | Some [] => None
               | Some (a :: c) => Some (firstn 16 (a :: c))
               | None => r_candidate_id r
               end
          /\ r_rendered_text r'
             = match rendered_text with
               | Some t => Some t
               | None => r_rendered_text r
               end)
  /\ (forall c, repo._upper_channel c ∈ names)
  /\ (forall name s pre post,
        name ∈ names ->
        Forall2 (fun a b => a = b \/ a = b + 32) s name ->
        Forall (fun c => is_space c = true) pre ->
        Forall (fun c => is_space c = true) post ->
        repo._upper_channel (pre ++ s ++ post) = name)
  /\ (forall c, Forall (fun x => is_space x = true) c ->
        repo._upper_channel c = u8 "PUSH").
Proof.
  intros w' names. subst w'. unfold update_run. cbn [handoffs runs].
  split; [done|]. split.
  { intros rid' Hne. by rewrite lookup_alter_ne. }
  split.
  { intros Hnone. destruct w as [rs hs]. cbn [runs handoffs] in *. f_equal.
    apply map_eq. intros i. destruct (decide (i = rid)) as [->|Hne].
    - by rewrite lookup_alter_eq, Hnone.
    - by rewrite lookup_alter_ne. }
  split.
  { intros r Hr. rewrite lookup_alter_eq, Hr. cbn [fmap option_fmap option_map].
    eexists. split; [reflexivity|]. cbn [r_campaign_goal r_step_id r_channel
      r_candidate_id r_rendered_text].
    split; [done|]. split; [done|]. split; [done|].
    split; [by destruct candidate_id as [[|a c]|] | done]. }
  split.
  { intros c. pose proof (_upper_channel_cases c) as Hin. unfold channels in Hin.
    exact Hin. }
  split.
  { intros name s pre post Hname Hs Hpre Hpost.
    unfold repo._upper_channel.
    rewrite (spelled_channel name s pre post Hname Hs Hpre Hpost).
    unfold mem. rewrite bool_decide_eq_true_2; [done|].
    subst names.
    repeat (apply elem_of_cons in Hname as [-> | Hname]; [by_decide|]).
    by apply elem_of_nil in Hname. }
  intros c Hc. unfold repo._upper_channel. by rewrite (strip_blank c Hc).
Qed.

End RunUpdates.

Section BatchClaims.

Import template_agent.

Variable load_tone_guide : pystr -> pystr.
Variable normalize_campaign_text : pystr -> Normalized.
Variable _call_openai : Prompt -> result (list (pystr * json)).

Abbreviation generate :=
  (generate_template_candidates load_tone_guide normalize_campaign_text
     _call_openai).

(** The two computations of the missing slots agree: the one of the
    template agent, over a set, and the one of the validator, over a
    sorted list. *)
Lemma missing_agree (body : pystr) (req : list pystr) :
  _validate_candidate_body body req
  = List.filter (fun s => negb (mem s (compilance._extract_slots body))) req.
Proof.
  unfold _validate_candidate_body. apply filter_ext. intros s.
  unfold mem, _slot_placeholders_in_text.
  destruct (bool_decide (s ∈ compilance._extract_slots body)) eqn:Hin.
  - apply bool_decide_eq_true in Hin. apply extract_slots_spec in Hin.
    apply bool_decide_eq_false. intros Hn. apply Hn.
    by apply elem_of_list_to_set.
  - apply bool_decide_eq_false in Hin. apply bool_decide_eq_true.
    intros Hs. apply Hin, extract_slots_spec. by apply elem_of_list_to_set in Hs.
Qed.

Lemma no_missing_verdict (c : Candidate) :
  compilance.missing_of c = [] ->
  (status (compilance.validate_one c) = FAIL <->
   existsb (fun x => contains x (compilance.body_of c)) compilance.banned_phrases
   = true)
  /\ forall m, MissingSlots m ∉ reasons (compilance.validate_one c).
Proof.
  intros Hm. unfold compilance.validate_one. cbn [status reasons]. rewrite Hm.
  unfold compilance.rule_required, compilance.rule_banned, compilance.rule_length.
  destruct (existsb _ _); destruct (_ >? _)%Z;
    cbn [compilance.v_status compilance.v_reasons compilance.initial app];
    (split; [split; (done || discriminate)|]);
    intros m Hin;
    repeat (apply elem_of_cons in Hin as [Hin|Hin]; [discriminate|]);
    by apply elem_of_nil in Hin.
Qed.

(** X6.  The batch on the LLM path: as many candidates as the LLM gave, up to
    [max(1, k)].  The candidate at position [i] is made from the object
    at position [i] of the answer: its identifier is [T] and [i + 1] in
    three digits, so the identifiers of a batch are pairwise distinct; it
    has the normalized channel, the tone identifier, and the required
    slots of that channel as its schema; its notes dict is its own, the
    one at position [i] of the batch, and records the required names that the slot pattern does not find in the
    raw body, which is the stripped string the object has under
    [body_with_slots] (empty if it has none); its body is that raw body,
    followed by one line per missing name when there is one, and stripped
    again; it has defaults for [cta] and [subject], and a default the LLM
    gave is kept. *)
Theorem llm_batch_shape (brief : Brief) (chan tn rag_context : pystr) (k : Z)
    (out : list (pystr * json)) (rc : json) (rcs : list json) (b : Batch) :
  (forall p, _call_openai p = Ok out) ->
  json_get out (u8 "candidates") = Some (JList (rc :: rcs)) ->
  generate brief chan tn rag_context k = Ok b ->
  let ch := _normalize_channel chan in
  let req :=
    [u8 "customer_name"; u8 "product_name"; u8 "offer"; u8 "cta"]
    ++ (if decide (ch = u8 "SMS") then [u8 "unsubscribe"]
        else if decide (ch = u8 "EMAIL") then [u8 "subject"]
        else []) in
  length (candidates b) = Nat.min (length (rc :: rcs)) (Z.to_nat (Z.max 1 k))
  /\ NoDup (template_id <$> candidates b)
  /\ forall i c, candidates b !! i = Some c ->
       exists items nt d,
         (rc :: rcs) !! i = Some (JObj items)
         /\ template_id c
            = Some (let ds := str_of_N (N.of_nat (S i)) in
                    u8 "T" ++ repeat 48 (3 - length ds) ++ ds)
         /\ channel c = Some ch
         /\ tone c
            = Some (lower (strip match tn with
                                 | [] => u8 "amoremall"
                                 | _ :: _ => tn
                                 end))
         /\ slot_schema c
            = Some {| required := Some req; optional := Some OPTIONAL_SLOTS |}
         /\ notes c = Some i /\ notes_of b c = Some nt
         /\ (let raw := strip match json_get items (u8 "body_with_slots") with
                               | Some (JStr s) => s
                               | _ => []
                               end in
             let missing :=
               List.filter (fun s => bool_decide (s ∉ SlotPattern.findall raw))
                 req in
             missing_slots_fixed nt = Some missing
             /\ body_with_slots c
                = Some match missing with
                       | [] => raw
                       | _ :: _ =>
                           strip (raw ++ [10]
                                  ++ join [10]
                                       (List.map (fun m => u8 "{" ++ m ++ u8 "}")
                                          missing))
                       end)
         /\ default_slot_values c = Some d
         /\ is_Some (d !! u8 "cta") /\ is_Some (d !! u8 "subject")
         /\ (forall given key x,
               json_get items (u8 "default_slot_values") = Some (JObj given) ->
               json_dict given !! key = Some x -> d !! key = Some x).
Proof.
  intros Hcall Hout Hgen ch req. revert Hgen.
  unfold generate_template_candidates. fold ch.
  pose proof (required_slots_table ch (_normalize_channel_cases chan)) as Hreq.
  fold req in Hreq. rewrite Hreq. cbn [bind]. brief_reads Hraw Hg0.
  rewrite Hcall, Hout. cbn [truthy].
  set (picked := firstn (llm_bound k) (rc :: rcs)).
  set (tone_id := lower (strip (tone_or_default tn))).
  set (notes0 := Build_Notes _ _ _ _ _ _ _ _ _ _ _).
  destruct (mapM (llm_candidate ch tone_id req notes0)
              (combine (seq 1 (length picked)) picked)) as [final|e] eqn:Hm;
    [|done].
  cbn [bind]. apply mapM_Forall2 in Hm.
  assert (Hm' : Forall2 (fun e nc =>
                  llm_candidate ch tone_id req notes0 (e.1, e.2) = Ok nc)
                  (combine (seq 1 (length picked)) picked) final).
  { eapply Forall2_impl; [exact Hm|]. by intros [i r] nc. }
  apply (Forall2_enumerate
           (fun idx r nc => llm_candidate ch tone_id req notes0 (idx, r) = Ok nc))
    in Hm' as [Hlen Hat].
  assert (Hpicked : length picked = Nat.min (length (rc :: rcs)) (llm_bound k)).
  { subst picked. rewrite length_take. lia. }
  assert (Hbound : (1 <= llm_bound k)%nat) by (unfold llm_bound; lia).
  destruct final as [|nc final'] eqn:Hfinal.
  { exfalso. rewrite Hpicked in Hlen. cbn [length] in Hlen. lia. }
  rewrite <- Hfinal in *. clear Hfinal nc final'.
  intros [= <-]. cbn [candidates notes_heap].
  assert (Htake : firstn (llm_bound k) final = final).
  { apply take_ge. lia. }
  rewrite Htake.
  assert (Hi : forall i c, List.map snd final !! i = Some c ->
                 exists nt r, final !! i = Some (nt, c) /\ picked !! i = Some r
                   /\ llm_candidate ch tone_id req notes0 (S i, r) = Ok (nt, c)).
  { intros i c Hc. change (List.map snd final) with (snd <$> final) in Hc.
    rewrite list_lookup_fmap in Hc.
    destruct (final !! i) as [[nt c']|] eqn:Hf; [|done].
    injection Hc as <-.
    destruct (picked !! i) as [r|] eqn:Hp.
    - exists nt, r. split; [done|]. split; [done|]. by apply (Hat i r (nt, c')).
    - apply lookup_ge_None in Hp. apply lookup_lt_Some in Hf. lia. }
  split; [by rewrite length_map, Hlen|].
  split.
  { apply NoDup_alt. intros i j x Hx Hy.
    change (template_id <$> List.map snd final)
      with (template_id <$> (snd <$> final)) in Hx, Hy.
    rewrite list_lookup_fmap in Hx, Hy.
    destruct ((snd <$> final) !! i) as [ci|] eqn:Hci; [|done].
    destruct ((snd <$> final) !! j) as [cj|] eqn:Hcj; [|done].
    destruct (Hi i ci Hci) as (? & ? & _ & _ & (Hti & _)%llm_candidate_fields).
    destruct (Hi j cj Hcj) as (? & ? & _ & _ & (Htj & _)%llm_candidate_fields).
    simpl in Hx, Hy. rewrite Hti in Hx. rewrite Htj in Hy.
    assert (template_id_of (S i) = template_id_of (S j)) by congruence.
    apply template_id_of_inj in H. lia. }
  intros i c Hc. destruct (Hi i c Hc) as (nt & r & Hf & Hp & Hl).
  apply llm_candidate_fields in Hl
    as (Htid & Hnotes & Hch & Htone & Hsch & items & d & -> & _ & Hbody & Hd).
  exists items, nt, d.
  split.
  { subst picked. by apply lookup_take_Some in Hp as [Hp _]. }
  split; [exact Htid|]. split; [done|]. split; [done|]. split; [done|].
  split; [rewrite Hnotes; f_equal; lia|].
  split.
  { unfold notes_of. rewrite Hnotes. cbn [notes_heap mbind option_bind].
    replace (S i - 1)%nat with i by lia.
    change (List.map fst final) with (fst <$> final).
    by rewrite list_lookup_fmap, Hf. }
  split.
  { cbv zeta in Hbody. rewrite repair_text, missing_by_list in Hbody.
    exact Hbody. }
  destruct Hd as (Hd & Hcta & Hsub & Hkeep & _). done.
Qed.

(** X7.  Composition with the validator: a candidate that comes back on the
    LLM path never fails the required-slot rule.  The validator gives it
    FAIL exactly when its body contains a banned phrase, and never a
    missing-slot reason. *)
Theorem llm_path_passes_slot_rule (brief : Brief)
    (chan tone rag_context : pystr) (k : Z)
    (out : list (pystr * json)) (rc : json) (rcs : list json) (b : Batch) :
  (forall p, _call_openai p = Ok out) ->
  json_get out (u8 "candidates") = Some (JList (rc :: rcs)) ->
  generate brief chan tone rag_context k = Ok b ->
  Forall (fun c =>
            compilance.missing_of c = []
            /\ (status (compilance.validate_one c) = FAIL <->
                exists p, p ∈ compilance.banned_phrases
                          /\ contains p (compilance.body_of c) = true)
            /\ forall m, MissingSlots m ∉ reasons (compilance.validate_one c))
         (candidates b).
Proof.
  intros Hcall Hout Hgen.
  pose proof (llm_path_repaired load_tone_guide normalize_campaign_text
                _call_openai brief chan tone rag_context k out rc rcs b
                Hcall Hout Hgen) as Hall.
  eapply Forall_impl; [exact Hall|]. intros c Hc. cbv beta in Hc.
  rewrite missing_agree in Hc.
  assert (Hm : compilance.missing_of c = []) by exact Hc.
  destruct (no_missing_verdict c Hm) as [Hiff Hno].
  split; [done|]. split; [|done]. rewrite Hiff, existsb_exists.
  split; intros (p & Hp & Hcp); exists p; (split; [|done]);
    by apply list_elem_of_In.
Qed.

(** X8.  Whatever the LLM does, a batch that is returned is never empty and
    has at most [max(1, k)] candidates; with [k <= 0] it has one. *)
Theorem generate_never_empty (brief : Brief) (chan tone rag_context : pystr)
    (k : Z) (b : Batch) :
  generate brief chan tone rag_context k = Ok b ->
  (1 <= length (candidates b) <= llm_bound k)%nat.
Proof.
  unfold generate_template_candidates.
  destruct (required_slots_total _ (_normalize_channel_cases chan))
    as (req & Hreq & Hnames & _).
  rewrite Hreq. cbn [bind]. brief_reads Hraw Hg0.
  pose proof Hraw as (ct & Hct & _)%strip_field_Ok.
  pose proof Hg0 as (g & Hg & _)%strip_field_Ok.
  set (tone_id0 := lower (strip (tone_or_default tone))).
  set (rag0 := prefix 2500 (strip rag_context)).
  assert (Hfb : forall msg b',
    (do fb <~ _fallback_candidates load_tone_guide normalize_campaign_text
                (_normalize_channel chan) tone_id0 brief rag0 k;
     Ok (tag_llm_error msg fb)) = Ok b' ->
    (1 <= length (candidates b') <= llm_bound k)%nat).
  { intros msg b' Hb'.
    destruct (fallback_tagged load_tone_guide normalize_campaign_text _call_openai
                chan tone_id0 brief rag0 k msg ct g Hct Hg)
      as (? & ? & ? & c1 & c2 & c3 & c4 & _ & _ & _ & _ & _ & Heq).
    rewrite Heq in Hb'. injection Hb' as <-. cbn [candidates].
    rewrite length_take. pose proof (fallback_bound_range k).
    unfold fallback_bound, llm_bound in *. simpl. lia. }
  assert (Hplain : forall b',
    _fallback_candidates load_tone_guide normalize_campaign_text
      (_normalize_channel chan) tone_id0 brief rag0 k = Ok b' ->
    (1 <= length (candidates b') <= llm_bound k)%nat).
  { intros b'. unfold _fallback_candidates.
    rewrite _normalize_channel_idem, Hreq. cbn [bind].
    rewrite Hraw, Hg0. cbn [bind]. intros [= <-].
    cbn [candidates].
    destruct (canned_facts (_normalize_channel chan)
                (lower (strip (tone_or_default tone_id0))) req
                (_normalize_channel_cases chan))
      as (c1 & c2 & c3 & c4 & -> & _).
    rewrite length_take. pose proof (fallback_bound_range k).
    unfold fallback_bound, llm_bound in *. simpl. lia. }
  destruct (_call_openai _) as [out|e]; [|apply Hfb].
  destruct (match json_get out (u8 "candidates") with
            | Some j => if truthy j then j else JList []
            | None => JList []
            end) as [| | | |l|items]; try apply Hfb.
  destruct l as [|r l]; [apply Hfb|].
  destruct (mapM _ _) as [final|e]; [|done]. cbn [bind].
  destruct final as [|nc final]; [apply Hplain|].
  intros [= <-]. cbn [candidates]. rewrite length_map, length_take.
  assert (1 <= llm_bound k)%nat by (unfold llm_bound; lia). simpl. lia.
Qed.

Lemma not_text_raises (o : option json) :
  ~ (exists t : option pystr, o = JStr <$> t) ->
  strip_field o = Raise AttributeError.
Proof.
  intros Hn. destruct o as [j|]; [|destruct Hn; by exists None].
  destruct j; try done. destruct Hn. by eexists (Some _).
Qed.

(** X23.  A brief whose texts cannot be read.  [generate_template_candidates]
    strips the campaign text and the goal of the brief, and the campaign
    goal when the goal is absent or blank.  If one of these is there and
    is not a string ([None], as in the brief of a run without a goal,
    included), it raises [AttributeError]; the LLM has not been called,
    and there is no fallback. *)
Theorem non_text_brief_raises (brief : Brief) (chan tn rag_context : pystr)
    (k : Z) :
  let text (o : option json) := exists t : option pystr, o = JStr <$> t in
  let blank (o : option json) :=
    o = None \/ exists s, o = Some (JStr s) /\ strip s = [] in
  ~ text (campaign_text brief)
  \/ ~ text (goal brief)
  \/ (blank (goal brief) /\ ~ text (campaign_goal brief)) ->
  generate brief chan tn rag_context k = Raise AttributeError.
Proof.
  intros text blank Hbad. unfold generate_template_candidates.
  destruct (required_slots_total _ (_normalize_channel_cases chan))
    as (req & Hreq & _).
  rewrite Hreq. cbn [bind].
  destruct (strip_field (campaign_text brief)) as [raw|e] eqn:Hraw.
  2:{ apply strip_field_raises in Hraw as ->. done. }
  cbn [bind].
  destruct (strip_field (goal brief)) as [g0|e] eqn:Hg0.
  2:{ apply strip_field_raises in Hg0 as ->. done. }
  cbn [bind].
  destruct Hbad as [Hct|[Hg|[Hblank Hcg]]].
  - by rewrite (not_text_raises _ Hct) in Hraw.
  - by rewrite (not_text_raises _ Hg) in Hg0.
  - assert (Hempty : g0 = []).
    { destruct Hblank as [Hnone|(s & Hs & Hstrip)].
      - rewrite Hnone in Hg0. by injection Hg0 as <-.
      - rewrite Hs in Hg0. injection Hg0 as <-. exact Hstrip. }
    rewrite Hempty, (not_text_raises _ Hcg). done.
Qed.

(** X9.  The repair adds exactly the missing names, in the order of the
    schema, after the names the body already had, and leaves a body alone
    when nothing is missing. *)
Theorem repair_adds_missing (body : pystr) (missing : list pystr) :
  Forall slot_name missing ->
  SlotPattern.findall (repair body missing) = SlotPattern.findall body ++ missing
  /\ repair body [] = body.
Proof. intros Hm. split; [by apply findall_repair | done]. Qed.

End BatchClaims.

(** X10.  The check that [node_compliance] runs is weaker than the validator: a
    candidate it fails, the validator fails too, and it never warns. *)
Theorem inline_check_weaker (c : Candidate) :
  (status (workflow.inline_check c) = FAIL ->
   status (compilance.validate_one c) = FAIL)
  /\ status (workflow.inline_check c) <> WARN.
Proof.
  unfold workflow.inline_check. cbn [status].
  destruct (contains (u8 "100% 효과") (default [] (body_with_slots c))) eqn:H1.
  - split; [|done]. intros _. apply contains_spec in H1 as (pre & post & Hb).
    apply (validate_one_banned c (u8 "100% 효과") pre post); [by_decide | exact Hb].
  - destruct (contains (u8 "완치") (default [] (body_with_slots c))) eqn:H2;
      cbn [orb]; [|done].
    split; [|done]. intros _. apply contains_spec in H2 as (pre & post & Hb).
    apply (validate_one_banned c (u8 "완치") pre post); [by_decide | exact Hb].
Qed.

Section FinalMessageFacts.

Import final_message.

Variable json_str : json -> pystr.

Lemma apply_defaults_lookup (d sv : gmap pystr json) (k : pystr) :
  apply_defaults json_str d sv !! k
  = match d !! k with
    | Some v => Some (JStr (json_str v))
    | None => sv !! k
    end.
Proof.
  unfold apply_defaults. revert k.
  apply (map_fold_weak_ind
           (fun r m => forall k, r !! k = match m !! k with
                                          | Some v => Some (JStr (json_str v))
                                          | None => sv !! k
                                          end)).
  - intros k. by rewrite lookup_empty.
  - intros i x m r Hi IH k. destruct (decide (i = k)) as [->|Hne].
    + by rewrite !lookup_insert_eq.
    + rewrite !lookup_insert_ne by done. apply IH.
Qed.

Lemma default_slots_dom (coupon : Coupon) (expiry : pystr) (brief : BriefSlots)
    (k : pystr) :
  _default_slots json_str coupon expiry brief !! k = None <-> k ∉ default_keys.
Proof. unfold _default_slots. by rewrite <- not_elem_of_list_to_map. Qed.

Lemma default_slots_links (coupon : Coupon) (expiry : pystr) (brief : BriefSlots) :
  _default_slots json_str coupon expiry brief !! u8 "cta"
  = Some (JStr campaign_link)
  /\ _default_slots json_str coupon expiry brief !! u8 "deep_link"
     = Some (JStr campaign_link).
Proof. split; vm_compute; reflexivity. Qed.

(** Where [re.sub] meets a name that [findall] finds, the text holds what
    [repl] returns for it. *)
Lemma sub_go_at (repl : pystr -> pystr) (s : pystr) (skip : nat) (name : pystr) :
  name ∈ SlotPattern.findall_go s skip ->
  exists pre post, SlotPattern.sub_go repl s skip = pre ++ repl name ++ post.
Proof.
  revert skip. induction s as [|ch t IH]; intros skip Hin;
    cbn [SlotPattern.findall_go SlotPattern.sub_go] in *.
  - by apply elem_of_nil in Hin.
  - destruct skip as [|n]; [|by apply IH].
    destruct (SlotPattern.match_at (ch :: t)) as [[nm n]|].
    + apply elem_of_cons in Hin as [->|Hin].
      * by exists [], (SlotPattern.sub_go repl t (n - 1)).
      * destruct (IH _ Hin) as (pre & post & ->).
        exists (repl nm ++ pre), post. by rewrite <- app_assoc.
    + destruct (IH _ Hin) as (pre & post & ->). by exists (ch :: pre), post.
Qed.

Lemma resolve_away_cta (coupon : Coupon) (expiry : pystr) (brief : BriefSlots)
    (c : Candidate) (k : pystr) :
  k <> u8 "cta" ->
  resolve_slots json_str coupon expiry brief c !! k
  = match default ∅ (default_slot_values c) !! k with
    | Some v => Some (JStr (json_str v))
    | None => _default_slots json_str coupon expiry brief !! k
    end.
Proof.
  intros Hk. rewrite <- apply_defaults_lookup. unfold resolve_slots.
  destruct (apply_defaults _ _ _ !! u8 "cta") as [[| | |s| |]|]; try done.
  destruct (PyStr.eqb s _); [|done]. by rewrite lookup_insert_ne.
Qed.

Lemma resolve_unbound (coupon : Coupon) (expiry : pystr) (brief : BriefSlots)
    (c : Candidate) (k : pystr) :
  k ∉ default_keys ->
  default ∅ (default_slot_values c) !! k = None ->
  resolve_slots json_str coupon expiry brief c !! k = None.
Proof.
  intros Hk Hd. rewrite resolve_away_cta.
  - rewrite Hd. by apply default_slots_dom.
  - intros ->. apply Hk. by_decide.
Qed.

(** The call to action of a template that refers to the deep link and
    sets none itself. *)
Lemma resolve_cta_link (coupon : Coupon) (expiry : pystr) (brief : BriefSlots)
    (c : Candidate) (d : gmap pystr json) :
  (forall s, json_str (JStr s) = s) ->
  default_slot_values c = Some d ->
  d !! u8 "cta" = Some (JStr (u8 "{deep_link}")) ->
  d !! u8 "deep_link" = None ->
  resolve_slots json_str coupon expiry brief c !! u8 "cta"
  = Some (JStr campaign_link).
Proof.
  intros Hstr Hc Hcta Hdl. unfold resolve_slots. rewrite Hc.
  change (default ∅ (Some d)) with d.
  rewrite !apply_defaults_lookup, Hcta, Hdl, Hstr.
  change (PyStr.eqb (u8 "{deep_link}") (u8 "{deep_link}")) with true. cbv iota.
  rewrite lookup_insert_eq.
  by rewrite (proj2 (default_slots_links coupon expiry brief)).
Qed.

Lemma render_at (sv : gmap pystr json) (body name : pystr) :
  name ∈ SlotPattern.findall body ->
  exists pre post,
    @execution_agent._render json json_str body sv
    = pre ++ @execution_agent.repl json json_str sv name ++ post.
Proof. intros Hin. by apply sub_go_at. Qed.

(** X11.  What [generate_final_message] binds the slots to.  Away from [cta]
    a default of the template wins, as its [str], over the computed
    value, and a name that neither has stays unbound ([offer] is one:
    [_default_slots] does not compute it).  [cta] is bound to the text
    the template gives, except when that text is ["{deep_link}"]: then
    it is bound to what [deep_link] is bound to.  Without a template
    default, [cta] is the campaign link. *)
Theorem resolve_slots_spec (coupon : Coupon) (expiry : pystr) (brief : BriefSlots)
    (c : Candidate) :
  let d := default ∅ (default_slot_values c) in
  let base := _default_slots json_str coupon expiry brief in
  let r := resolve_slots json_str coupon expiry brief c in
  (forall k, k <> u8 "cta" ->
     r !! k = match d !! k with
              | Some v => Some (JStr (json_str v))
              | None => base !! k
              end)
  /\ (forall k, k ∉ default_keys -> d !! k = None -> r !! k = None)
  /\ r !! u8 "offer" = (fun v => JStr (json_str v)) <$> d !! u8 "offer"
  /\ (d !! u8 "cta" = None -> r !! u8 "cta" = Some (JStr campaign_link))
  /\ (forall v, d !! u8 "cta" = Some v -> json_str v <> u8 "{deep_link}" ->
        r !! u8 "cta" = Some (JStr (json_str v)))
  /\ (forall v, d !! u8 "cta" = Some v -> json_str v = u8 "{deep_link}" ->
        r !! u8 "cta" = r !! u8 "deep_link"
        /\ (d !! u8 "deep_link" = None ->
            r !! u8 "cta" = Some (JStr campaign_link))).
Proof.
  intros d base r.
  destruct (default_slots_links coupon expiry brief) as [Hcta Hlink].
  fold base in Hcta, Hlink.
  set (sv := apply_defaults json_str d base).
  assert (Hr : r = match sv !! u8 "cta" with
                   | Some (JStr s) =>
                       if PyStr.eqb s (u8 "{deep_link}")
                       then <[u8 "cta" := default (JStr s) (sv !! u8 "deep_link")]> sv
                       else sv
                   | _ => sv
                   end) by reflexivity.
  assert (Hsv : forall k, sv !! k = match d !! k with
                                     | Some v => Some (JStr (json_str v))
                                     | None => base !! k
                                     end)
    by (intros k; apply apply_defaults_lookup).
  assert (Hne : forall k, k <> u8 "cta" -> r !! k = sv !! k).
  { intros k Hk. subst r sv d base. rewrite resolve_away_cta by done.
    by rewrite apply_defaults_lookup. }
  assert (Hdl : r !! u8 "deep_link" = sv !! u8 "deep_link") by (by apply Hne).
  split; [intros k Hk; by rewrite Hne, Hsv|].
  split.
  { intros k Hk Hd. destruct (decide (k = u8 "cta")) as [->|Hc].
    - exfalso. apply Hk. by_decide.
    - rewrite Hne, Hsv, Hd by done. by apply default_slots_dom. }
  split.
  { rewrite Hne, Hsv by done. destruct (d !! u8 "offer"); [done|].
    apply default_slots_dom. by_decide. }
  split.
  { intros Hd. rewrite Hr, (Hsv (u8 "cta")), Hd, Hcta.
    change (PyStr.eqb campaign_link (u8 "{deep_link}")) with false. cbv iota.
    by rewrite Hsv, Hd. }
  split.
  { intros v Hd Hv. rewrite Hr, (Hsv (u8 "cta")), Hd.
    destruct (PyStr.eqb (json_str v) (u8 "{deep_link}")) eqn:He; [|by rewrite Hsv, Hd].
    apply bool_decide_eq_true in He. done. }
  intros v Hd Hv. rewrite Hdl. rewrite Hr, (Hsv (u8 "cta")), Hd, Hv.
  change (PyStr.eqb (u8 "{deep_link}") (u8 "{deep_link}")) with true. cbv iota.
  rewrite lookup_insert_eq.
  assert (Hs : is_Some (sv !! u8 "deep_link")).
  { rewrite Hsv. destruct (d !! u8 "deep_link"); [by eexists|]. by rewrite Hlink. }
  destruct Hs as [x Hx]. rewrite Hx. split; [done|].
  intros Hn. rewrite Hsv, Hn, Hlink in Hx. by injection Hx as <-.
Qed.

(** X12.  A placeholder of the template whose name ends up unbound is still in
    the final message, braces included; one whose name is bound to a
    string has that string in the final message. *)
Theorem final_message_at_slot (coupon : Coupon) (expiry : pystr)
    (brief : BriefSlots) (c : Candidate) (rag_context name : pystr) :
  (forall s, json_str (JStr s) = s) ->
  name ∈ SlotPattern.findall (default [] (body_with_slots c)) ->
  let fm := generate_final_message json_str coupon expiry brief c rag_context in
  (fm_slot_values fm !! name = None ->
   exists pre post, fm_final_message fm = pre ++ SlotPattern.braced name ++ post)
  /\ (forall s, fm_slot_values fm !! name = Some (JStr s) ->
      exists pre post, fm_final_message fm = pre ++ s ++ post)
  /\ fm_used_template_id fm = template_id c
  /\ (len (fm_rag_used_hint fm) <= 800)%Z.
Proof.
  intros Hstr Hin fm. subst fm.
  unfold generate_final_message.
  cbn [fm_slot_values fm_final_message fm_used_template_id fm_rag_used_hint].
  set (sv := resolve_slots json_str coupon expiry brief c).
  destruct (sub_go_at (execution_agent.repl (H:=json_str) sv) _ _ _ Hin)
    as (pre & post & Heq).
  split; [|split; [|split; [done|]]].
  - intros Hn. exists pre, post. unfold execution_agent._render, SlotPattern.sub.
    rewrite Heq. unfold execution_agent.repl. by rewrite Hn.
  - intros s Hs. exists pre, post. unfold execution_agent._render, SlotPattern.sub.
    rewrite Heq. unfold execution_agent.repl. rewrite Hs.
    unfold execution_agent.py_str. by rewrite Hstr.
  - unfold len, prefix. rewrite length_take. lia.
Qed.

End FinalMessageFacts.

Section MessageOfBatch.

Import template_agent final_message.

Variable load_tone_guide : pystr -> pystr.
Variable normalize_campaign_text : pystr -> Normalized.
Variable _call_openai : Prompt -> result (list (pystr * json)).
Variable json_str : json -> pystr.

(** The slots of the canned templates: every body has [{offer}] and
    [{cta}], every template refers the call to action to the deep link
    and sets neither the deep link nor the offer; T002 sets the coupon
    code to its own placeholder. *)
Lemma canned_slots (ch tone_id : pystr) (req : list pystr) :
  ch ∈ channels ->
  Forall (fun c =>
            exists d,
              default_slot_values c = Some d
              /\ d !! u8 "offer" = None
              /\ d !! u8 "cta" = Some (JStr (u8 "{deep_link}"))
              /\ d !! u8 "deep_link" = None
              /\ u8 "offer" ∈ SlotPattern.findall (compilance.body_of c)
              /\ u8 "cta" ∈ SlotPattern.findall (compilance.body_of c)
              /\ (template_id c = Some (u8 "T002") ->
                  d !! u8 "coupon_code" = Some (JStr (u8 "{coupon_code}"))
                  /\ u8 "coupon_code" ∈ SlotPattern.findall (compilance.body_of c)))
         (canned ch tone_id req).
Proof.
  intros Hin. unfold canned, _fallback_openers_ctas_by_brand.
  unfold channels in Hin.
  destruct (PyStr.eqb (lower (strip tone_id)) (u8 "innisfree"));
    repeat (apply elem_of_cons in Hin as [-> | Hin];
      [repeat constructor;
       (eexists; split; [reflexivity|];
        split; [vm_compute; reflexivity|];
        split; [vm_compute; reflexivity|];
        split; [vm_compute; reflexivity|];
        split; [by_decide|];
        split; [by_decide|];
        intros Ht; first [ by (vm_compute in Ht; discriminate Ht)
                         | split; [vm_compute; reflexivity | by_decide] ])|]);
    by apply elem_of_nil in Hin.
Qed.

Lemma generated_kinds (brief : Brief) (chan tone rag_context : pystr) (k : Z)
    (b : Batch) :
  generate_template_candidates load_tone_guide normalize_campaign_text
    _call_openai brief chan tone rag_context k = Ok b ->
  exists req,
    REQUIRED_SLOTS_BY_CHANNEL (_normalize_channel chan) = Ok req
    /\ ((exists tone_id n,
           candidates b = firstn n (canned (_normalize_channel chan) tone_id req)
           /\ (1 <= n <= 4)%nat)
        \/ Forall (fun c =>
                     compilance.required_of c = req
                     /\ _validate_candidate_body (compilance.body_of c) req = [])
                  (candidates b)).
Proof.
  unfold generate_template_candidates.
  destruct (required_slots_total _ (_normalize_channel_cases chan))
    as (req & Hreq & Hnames & _).
  rewrite Hreq. cbn [bind]. intros Hgen. exists req. split; [done|].
  revert Hgen. brief_reads Hraw Hg0.
  pose proof Hraw as (ct & Hct & _)%strip_field_Ok.
  pose proof Hg0 as (g & Hg & _)%strip_field_Ok.
  set (tone_id0 := lower (strip (tone_or_default tone))).
  set (rag0 := prefix 2500 (strip rag_context)).
  set (ch := _normalize_channel chan).
  assert (Hfb : forall msg,
    (do fb <~ _fallback_candidates load_tone_guide normalize_campaign_text
                ch tone_id0 brief rag0 k;
     Ok (tag_llm_error msg fb)) = Ok b ->
    exists tone_id n,
      candidates b = firstn n (canned ch tone_id req) /\ (1 <= n <= 4)%nat).
  { intros msg Hb.
    destruct (fallback_tagged load_tone_guide normalize_campaign_text _call_openai
                chan tone_id0 brief rag0 k msg ct g Hct Hg)
      as (req' & tone_id & ? & c1 & c2 & c3 & c4 & Hreq' & Hc & _ & _ & _ & Heq).
    fold ch in Hc, Heq. rewrite Hreq in Hreq'. injection Hreq' as <-.
    rewrite Heq in Hb. injection Hb as <-. cbn [candidates].
    exists tone_id, (fallback_bound k). rewrite Hc. split; [done|].
    apply fallback_bound_range. }
  assert (Hplain :
    _fallback_candidates load_tone_guide normalize_campaign_text
      ch tone_id0 brief rag0 k = Ok b ->
    exists tone_id n,
      candidates b = firstn n (canned ch tone_id req) /\ (1 <= n <= 4)%nat).
  { unfold _fallback_candidates. subst ch.
    rewrite _normalize_channel_idem, Hreq. cbn [bind].
    rewrite Hraw, Hg0. cbn [bind]. intros [= <-].
    cbn [candidates]. eexists _, (fallback_bound k). split; [reflexivity|].
    apply fallback_bound_range. }
  destruct (_call_openai _) as [out|e]; [|intros H; left; by apply (Hfb _ H)].
  destruct (match json_get out (u8 "candidates") with
            | Some j => if truthy j then j else JList []
            | None => JList []
            end) as [| | | |l|items];
    try (intros H; left; by apply (Hfb _ H)).
  destruct l as [|r l]; [intros H; left; by apply (Hfb _ H)|].
  destruct (mapM _ _) as [final|e] eqn:Hm; [|done]. cbn [bind].
  destruct final as [|nc final]; [intros H; left; by apply Hplain|].
  intros [= <-]. right. cbn [candidates].
  apply mapM_Forall2 in Hm.
  assert (Hall : Forall (fun nc' =>
            compilance.required_of nc'.2 = req
            /\ _validate_candidate_body (compilance.body_of nc'.2) req = [])
            (nc :: final)).
  { clear -Hm Hnames. revert Hm. generalize (nc :: final).
    intros l' Hm. induction Hm as [|entry [n c] l0 l1 Hf _ IH]; constructor; [|done].
    cbn [snd]. by apply llm_candidate_repaired in Hf. }
  apply Forall_forall. intros c Hin.
  apply list_elem_of_In, in_map_iff in Hin as ([n c'] & <- & Hin).
  apply list_elem_of_In in Hin.
  assert (Hin' : (n, c') ∈ nc :: final).
  { revert Hin. generalize (nc :: final). intros l' Hin.
    by eapply (subseteq_take (llm_bound k) l'). }
  by apply (proj1 (Forall_forall _ _) Hall) in Hin'.
Qed.

(** X13.  Whatever the LLM returns or raises, a candidate that
    [generate_template_candidates] returns is one of two kinds: a canned
    template of the fallback, or a candidate of the LLM whose schema is
    the required list of the channel and whose body has every name of
    it. *)
Theorem generate_cases (brief : Brief) (chan tone rag_context : pystr) (k : Z)
    (b : Batch) :
  generate_template_candidates load_tone_guide normalize_campaign_text
    _call_openai brief chan tone rag_context k = Ok b ->
  exists req,
    REQUIRED_SLOTS_BY_CHANNEL (_normalize_channel chan) = Ok req
    /\ ((exists tone_id n,
           candidates b = firstn n (canned (_normalize_channel chan) tone_id req)
           /\ (1 <= n <= 4)%nat)
        \/ Forall (fun c =>
                     compilance.required_of c = req
                     /\ _validate_candidate_body (compilance.body_of c) req = [])
                  (candidates b)).
Proof. apply generated_kinds. Qed.

Lemma offer_required (ch : pystr) (req : list pystr) :
  REQUIRED_SLOTS_BY_CHANNEL ch = Ok req -> u8 "offer" ∈ req.
Proof.
  unfold REQUIRED_SLOTS_BY_CHANNEL.
  repeat (destruct (PyStr.eqb ch _); [intros [= <-]; by_decide|]).
  done.
Qed.

Lemma repaired_has (body : pystr) (req : list pystr) (name : pystr) :
  _validate_candidate_body body req = [] -> name ∈ req ->
  name ∈ SlotPattern.findall body.
Proof.
  unfold _validate_candidate_body, _slot_placeholders_in_text. intros Hnil Hin.
  destruct (decide (name ∈ SlotPattern.findall body)) as [|Hn]; [done|].
  exfalso. assert (Hf : In name (List.filter
    (fun s => bool_decide (s ∉ (list_to_set (SlotPattern.findall body) : gset pystr)))
    req)).
  { apply filter_In. split; [by apply list_elem_of_In|].
    apply bool_decide_eq_true. by rewrite elem_of_list_to_set. }
  by rewrite Hnil in Hf.
Qed.

(** X14.  From the template agent to the execution agent: every candidate
    that [generate_template_candidates] returns has [{offer}] in its
    body, and unless its own defaults set [offer], the final message that
    [generate_final_message] renders from it still has the text
    [{offer}]: no computed slot value fills it. *)
Theorem offer_stays_open (brief : Brief) (chan tone rag_context : pystr) (k : Z)
    (b : Batch) (c : Candidate) (coupon : Coupon) (expiry : pystr)
    (bs : BriefSlots) (rag_hint : pystr) :
  generate_template_candidates load_tone_guide normalize_campaign_text
    _call_openai brief chan tone rag_context k = Ok b ->
  c ∈ candidates b ->
  u8 "offer" ∈ SlotPattern.findall (compilance.body_of c)
  /\ (default ∅ (default_slot_values c) !! u8 "offer" = None ->
      exists pre post,
        fm_final_message
          (generate_final_message json_str coupon expiry bs c rag_hint)
        = pre ++ u8 "{offer}" ++ post).
Proof.
  intros Hgen Hc.
  assert (Hbody : u8 "offer" ∈ SlotPattern.findall (compilance.body_of c)).
  { apply generated_kinds in Hgen as (req & Hreq & [(tid & n & Hcs & _)|Hall]).
    - rewrite Hcs in Hc. apply (subseteq_take n) in Hc.
      pose proof (canned_slots _ tid req (_normalize_channel_cases chan)) as Hs.
      apply (proj1 (Forall_forall _ _) Hs) in Hc as (d & _ & _ & _ & _ & Ho & _).
      done.
    - apply (proj1 (Forall_forall _ _) Hall) in Hc as [_ Hv].
      eapply repaired_has; [exact Hv|]. by eapply offer_required. }
  split; [done|]. intros Hd. unfold generate_final_message.
  cbn [fm_final_message].
  destruct (render_at json_str (resolve_slots json_str coupon expiry bs c)
              _ _ Hbody) as (pre & post & Heq).
  exists pre, post. unfold compilance.body_of in Heq. rewrite Heq.
  unfold execution_agent.repl. rewrite resolve_unbound; [done| |done].
  by_decide.
Qed.

(** X15.  The final message of a canned template: the call to action is bound
    to the campaign link, which the text then holds, and the offer is left
    open.  For T002 the coupon code that was chosen is overwritten by the
    default of the template, the placeholder itself, so the text holds
    [{coupon_code}]. *)
Theorem fallback_final_message (ch tone_id : pystr) (req : list pystr)
    (c : Candidate) (coupon : Coupon) (expiry : pystr) (bs : BriefSlots)
    (rag_hint : pystr) :
  (forall s, json_str (JStr s) = s) ->
  ch ∈ channels ->
  c ∈ canned ch tone_id req ->
  let fm := generate_final_message json_str coupon expiry bs c rag_hint in
  fm_slot_values fm !! u8 "cta" = Some (JStr campaign_link)
  /\ fm_slot_values fm !! u8 "offer" = None
  /\ (exists pre post, fm_final_message fm = pre ++ campaign_link ++ post)
  /\ (exists pre post, fm_final_message fm = pre ++ u8 "{offer}" ++ post)
  /\ (template_id c = Some (u8 "T002") ->
      fm_slot_values fm !! u8 "coupon_code" = Some (JStr (u8 "{coupon_code}"))
      /\ exists pre post, fm_final_message fm = pre ++ u8 "{coupon_code}" ++ post).
Proof.
  intros Hstr Hch Hc fm. subst fm. unfold generate_final_message.
  cbn [fm_slot_values fm_final_message].
  pose proof (canned_slots ch tone_id req Hch) as Hs.
  apply (proj1 (Forall_forall _ _) Hs) in Hc
    as (d & Hd & Hoff & Hcta & Hdl & Hbo & Hbc & H2).
  set (sv := resolve_slots json_str coupon expiry bs c).
  assert (Hsc : sv !! u8 "cta" = Some (JStr campaign_link))
    by (by eapply resolve_cta_link).
  assert (Hso : sv !! u8 "offer" = None).
  { apply resolve_unbound; [by_decide|]. by rewrite Hd. }
  split; [done|]. split; [done|]. split.
  { destruct (render_at json_str sv _ _ Hbc) as (pre & post & Heq).
    exists pre, post. unfold compilance.body_of in Heq. rewrite Heq.
    unfold execution_agent.repl. rewrite Hsc.
    unfold execution_agent.py_str. by rewrite Hstr. }
  split.
  { destruct (render_at json_str sv _ _ Hbo) as (pre & post & Heq).
    exists pre, post. unfold compilance.body_of in Heq. rewrite Heq.
    unfold execution_agent.repl. by rewrite Hso. }
  intros Ht. destruct (H2 Ht) as [Hcc Hbcc].
  assert (Hscc : sv !! u8 "coupon_code" = Some (JStr (u8 "{coupon_code}"))).
  { subst sv. rewrite resolve_away_cta by done. rewrite Hd.
    change (default ∅ (Some d)) with d. by rewrite Hcc, Hstr. }
  split; [done|].
  destruct (render_at json_str sv _ _ Hbcc) as (pre & post & Heq).
  exists pre, post. unfold compilance.body_of in Heq. rewrite Heq.
  unfold execution_agent.repl. rewrite Hscc.
  unfold execution_agent.py_str. by rewrite Hstr.
Qed.

End MessageOfBatch.

Section TargetingExtras.

Import targeting.

Variable DB : Type.
Variable show : DB -> pystr -> result (list pystr) * DB.
Variable this_year : Z.

Lemma mem_spec (x : pystr) (xs : list pystr) : mem x xs = true <-> x ∈ xs.
Proof. unfold mem. by rewrite bool_decide_eq_true. Qed.

Lemma mem_filter (x : pystr) (u f : list pystr) :
  mem x (List.filter (fun c => mem c f) u) = true <-> x ∈ u /\ x ∈ f.
Proof.
  rewrite mem_spec, list_elem_of_In, filter_In, mem_spec.
  by rewrite <- list_elem_of_In.
Qed.

(** X16.  The join keys that are detected exist: a pair is returned only when
    both tables could be inspected, it is one of the four pairs the code
    knows, and each name is a column of its table.  The detection is
    complete for those pairs: with both tables inspected, no key is
    returned only if none of the four pairs is present.  A key is returned
    for both tables or for none, and the feature table is not inspected
    when the audience table cannot be. *)
Theorem detect_join_keys_spec (db : DB) :
  exists uk fk db',
    _detect_join_keys DB show db = ((uk, fk), db')
    /\ (uk = None <-> fk = None)
    /\ (forall a b, uk = Some a -> fk = Some b ->
          exists u f db1,
            show db (u8 "users") = (Ok u, db1)
            /\ show db1 (u8 "user_features") = (Ok f, db')
            /\ (a, b) ∈ key_pairs /\ a ∈ u /\ b ∈ f)
    /\ (forall u f db1 db2,
          show db (u8 "users") = (Ok u, db1) ->
          show db1 (u8 "user_features") = (Ok f, db2) ->
          db' = db2
          /\ (uk = None <->
              forall a b, (a, b) ∈ key_pairs -> ~ (a ∈ u /\ b ∈ f)))
    /\ (forall e db1, show db (u8 "users") = (Raise e, db1) -> db' = db1).
Proof.
  unfold _detect_join_keys, _show_columns.
  destruct (show db (u8 "users")) as [[u|e] db1] eqn:Hu.
  2:{ do 3 eexists. split; [reflexivity|]. split; [done|].
      split; [done|]. split; [done|]. by intros ? ? [= _ <-]. }
  destruct (show db1 (u8 "user_features")) as [[f|e] db2] eqn:Hf.
  2:{ do 3 eexists. split; [reflexivity|]. split; [done|].
      split; [done|]. split; [|done]. intros ? ? ? ? [= <- <-]. by rewrite Hf. }
  assert (Hpairs : forall a b, (a, b) ∈ key_pairs <->
            (a = u8 "user_id" /\ b = u8 "user_id")
            \/ (a = u8 "id" /\ b = u8 "user_id")
            \/ (a = u8 "id" /\ b = u8 "id")
            \/ (a = u8 "username" /\ b = u8 "username")).
  { intros a b. unfold key_pairs. rewrite !elem_of_cons, elem_of_nil.
    split.
    - intros [[= -> ->]|[[= -> ->]|[[= -> ->]|[[= -> ->]|[]]]]]; tauto.
    - intros [[-> ->]|[[-> ->]|[[-> ->]|[-> ->]]]]; tauto. }
  assert (Hgen : forall uk fk,
    ((uk = None /\ fk = None /\
      forall a b, (a, b) ∈ key_pairs -> ~ (a ∈ u /\ b ∈ f))
     \/ (exists a b, uk = Some a /\ fk = Some b
                     /\ (a, b) ∈ key_pairs /\ a ∈ u /\ b ∈ f)) ->
    exists uk0 fk0 db',
      ((uk, fk), db2) = ((uk0, fk0), db')
      /\ (uk0 = None <-> fk0 = None)
      /\ (forall a b, uk0 = Some a -> fk0 = Some b ->
            exists u0 f0 db0,
              (Ok u, db1) = (Ok u0, db0)
              /\ show db0 (u8 "user_features") = (Ok f0, db')
              /\ (a, b) ∈ key_pairs /\ a ∈ u0 /\ b ∈ f0)
      /\ (forall u0 f0 db0 db3,
            (Ok u, db1) = (Ok u0, db0) ->
            show db0 (u8 "user_features") = (Ok f0, db3) ->
            db' = db3
            /\ (uk0 = None <->
                forall a b, (a, b) ∈ key_pairs -> ~ (a ∈ u0 /\ b ∈ f0)))
      /\ (forall e db0, (Ok u, db1) = (Raise e, db0) -> db' = db0)).
  { intros uk fk Hcase. exists uk, fk, db2. split; [done|].
    split; [destruct Hcase as [(-> & -> & _)|(a & b & -> & -> & _)]; done|].
    split.
    { intros a b -> ->. exists u, f, db1. split; [done|]. split; [done|].
      destruct Hcase as [(? & _)|(a' & b' & [= <-] & [= <-] & ?)]; done. }
    split; [|done].
    intros u0 f0 db0 db3 [= <- <-] Hf0. rewrite Hf in Hf0.
    injection Hf0 as <- <-. split; [done|].
    destruct Hcase as [(-> & _ & Hno)|(a & b & -> & _ & Hin & Ha & Hb)]; [done|].
    split; [done|]. intros Hno. exfalso. by apply (Hno a b). }
  destruct (mem (u8 "user_id") u && mem (u8 "user_id") f) eqn:H1.
  { apply andb_true_iff in H1 as [Ha%mem_spec Hb%mem_spec]. apply Hgen. right.
    exists (u8 "user_id"), (u8 "user_id"). rewrite Hpairs. tauto. }
  destruct (mem (u8 "id") u && mem (u8 "user_id") f) eqn:H2.
  { apply andb_true_iff in H2 as [Ha%mem_spec Hb%mem_spec]. apply Hgen. right.
    exists (u8 "id"), (u8 "user_id"). rewrite Hpairs. tauto. }
  destruct (mem (u8 "id") u && mem (u8 "id") f) eqn:H3.
  { apply andb_true_iff in H3 as [Ha%mem_spec Hb%mem_spec]. apply Hgen. right.
    exists (u8 "id"), (u8 "id"). rewrite Hpairs. tauto. }
  apply andb_false_iff in H1, H2, H3.
  rewrite <- !not_true_iff_false, !mem_spec in H1, H2, H3.
  cbn [List.find].
  destruct (mem (u8 "user_id") (List.filter _ u)) eqn:C1.
  { apply mem_filter in C1. tauto. }
  destruct (mem (u8 "id") (List.filter _ u)) eqn:C2.
  { apply mem_filter in C2. tauto. }
  destruct (mem (u8 "username") (List.filter _ u)) eqn:C3.
  { apply mem_filter in C3 as [Ha Hb]. apply Hgen. right.
    exists (u8 "username"), (u8 "username"). rewrite Hpairs. tauto. }
  apply Hgen. left. split; [done|]. split; [done|].
  intros a b Hin [Ha Hb]. apply Hpairs in Hin.
  rewrite <- not_true_iff_false, mem_filter in C3.
  destruct Hin as [[-> ->]|[[-> ->]|[[-> ->]|[-> ->]]]]; tauto.
Qed.

(** *** Labels that are no age band *)

Lemma lstrip_Forall (P : N -> Prop) (s : pystr) :
  Forall P s -> Forall P (lstrip s).
Proof.
  induction 1 as [|c s Hc Hs IH]; [constructor|]. simpl.
  destruct (is_space c); [done | by constructor].
Qed.

Lemma strip_Forall (P : N -> Prop) (s : pystr) :
  Forall P s -> Forall P (strip s).
Proof.
  intros Hs. unfold strip, rstrip. apply Forall_rev, lstrip_Forall, Forall_rev.
  by apply lstrip_Forall.
Qed.

Lemma replace_go_Forall (P : N -> Prop) (old s : pystr) (skip : nat) :
  Forall P s -> Forall P (replace_go old [] s skip).
Proof.
  intros Hs. revert skip. induction Hs as [|c s Hc Hs IH]; intros skip;
    [constructor|].
  cbn [replace_go]. destruct skip; [|apply IH].
  destruct (startswith (c :: s) old); [apply IH | by constructor].
Qed.

Lemma skip_space_Forall (P : N -> Prop) (s : pystr) :
  Forall P s -> Forall P (skip_space s).
Proof.
  induction 1 as [|c s Hc Hs IH]; [constructor|]. simpl.
  destruct (c_space c); [done | by constructor].
Qed.

Lemma int_trim_Forall (P : N -> Prop) (s : pystr) :
  Forall P s -> Forall P (int_trim s).
Proof.
  intros Hs. unfold int_trim. apply Forall_rev, skip_space_Forall, Forall_rev.
  by apply skip_space_Forall.
Qed.

(** No Hangul syllable is a decimal digit. *)
Lemma decimal_value_hangul (c : N) : hangul c -> decimal_value c = None.
Proof.
  intros [Hlo Hhi]. unfold decimal_value.
  assert (Hz : Forall (fun z => z + 10 <= 44032 \/ 55203 < z) decimal_zeros).
  { assert (Hb : forallb (fun z => (z + 10 <=? 44032) || (55203 <? z))
                   decimal_zeros = true) by (vm_compute; reflexivity).
    rewrite forallb_forall in Hb. apply Forall_forall. intros z Hin.
    apply list_elem_of_In in Hin. specialize (Hb z Hin).
    apply orb_true_iff in Hb as [H%N.leb_le|H%N.ltb_lt]; lia. }
  induction Hz as [|z l Hz _ IH]; [done|]. cbn [List.find].
  assert (Hno : (z <=? c) && (c <? z + 10) = false).
  { apply andb_false_iff. destruct Hz; [right; apply N.ltb_ge | left; apply N.leb_gt]; lia. }
  rewrite Hno. exact IH.
Qed.

Lemma int_ascii_hangul (c : N) : hangul c -> int_ascii c = 63.
Proof.
  intros Hc. unfold int_ascii. rewrite (decimal_value_hangul c Hc).
  destruct Hc as [Hlo Hhi].
  rewrite (proj2 (N.ltb_ge c 127)) by lia.
  assert (Hs : is_space c = false).
  { unfold is_space.
    rewrite (proj2 (N.leb_gt c 13)), (proj2 (N.leb_gt c 32)),
      (proj2 (N.leb_gt c 8202)) by lia.
    rewrite !(proj2 (N.eqb_neq c _)) by lia. by rewrite !andb_false_r. }
  by rewrite Hs.
Qed.

Lemma py_int_hangul (s : pystr) : Forall hangul s -> py_int s = None.
Proof.
  intros Hs. unfold py_int.
  assert (Hq : Forall (fun c => c = 63) (int_trim (List.map int_ascii s))).
  { apply int_trim_Forall, Forall_forall. intros c Hin.
    apply list_elem_of_In, in_map_iff in Hin as (x & <- & Hx).
    apply int_ascii_hangul. rewrite Forall_forall in Hs. apply Hs.
    by apply list_elem_of_In. }
  destruct (int_trim _) as [|c t]; [done|].
  apply Forall_cons in Hq as [-> _].
  change (63 =? 45) with false. change (63 =? 43) with false. cbn match.
  unfold limited_digits. destruct (_ <? _)%nat; [done|]. reflexivity.
Qed.

Lemma hangul_label_raises (a : pystr) :
  Forall hangul a ->
  _age_group_to_birth_year_range this_year a = Raise ValueError.
Proof.
  intros Ha. unfold _age_group_to_birth_year_range.
  destruct (endswith a (u8 "대+")).
  - rewrite py_int_hangul; [done|]. by apply replace_go_Forall.
  - rewrite py_int_hangul; [done|]. by apply replace_go_Forall.
Qed.

Lemma range_raises_ValueError (a : pystr) (e : exn) :
  _age_group_to_birth_year_range this_year a = Raise e -> e = ValueError.
Proof.
  unfold _age_group_to_birth_year_range.
  destruct (endswith a _); destruct (py_int _); by intros [=].
Qed.

Lemma mapM_raises (l : list pystr) (a : pystr) :
  a ∈ l ->
  _age_group_to_birth_year_range this_year a = Raise ValueError ->
  mapM (_age_group_to_birth_year_range this_year) l = Raise ValueError.
Proof.
  intros Hin Ha. induction l as [|x l IH]; [by apply elem_of_nil in Hin|].
  cbn [mapM].
  destruct (_age_group_to_birth_year_range this_year x) as [r|e] eqn:Hx.
  - cbn [bind]. apply elem_of_cons in Hin as [->|Hin]; [congruence|].
    by rewrite IH.
  - cbn [bind]. f_equal. by eapply range_raises_ValueError.
Qed.

(** X17.  A label made of Hangul syllables only, such as ["전체"], and the
    empty label are no age bands: when the brief selects one,
    [build_target] raises [ValueError], whatever the other selections
    are, and no table has been inspected. *)
Theorem malformed_label_raises (db : DB) (brief : Brief)
    (channel tone a : pystr) :
  a ∈ age_groups_of brief ->
  Forall hangul a ->
  build_target DB show this_year db brief channel tone = (Raise ValueError, db).
Proof.
  intros Hin Ha. unfold build_target, list_field.
  unfold age_groups_of in Hin.
  by rewrite (mapM_raises _ a Hin (hangul_label_raises a Ha)).
Qed.

(** *** What a target holds *)

Lemma range_shape (a : pystr) (r : option Z * option Z) :
  _age_group_to_birth_year_range this_year a = Ok r ->
  exists hi, r.2 = Some hi /\ forall lo, r.1 = Some lo -> hi = (lo + 9)%Z.
Proof.
  unfold _age_group_to_birth_year_range.
  destruct (endswith a _); destruct (py_int _) as [base|]; intros [= <-];
    eexists; (split; [reflexivity|]); cbn [fst].
  - done.
  - intros lo [= <-]. lia.
Qed.

Lemma omap_length_le {A B} (f : A -> option B) (l : list A) :
  (length (omap f l) <= length l)%nat.
Proof.
  induction l as [|x l IH]; [done|]. cbn [omap list_omap].
  destruct (f x); simpl; lia.
Qed.

Lemma omap_ext_eq {A B} (f g : A -> option B) (l : list A) :
  (forall x, f x = g x) -> omap f l = omap g l.
Proof.
  intros Hfg. induction l as [|x l IH]; [done|]. cbn [omap list_omap].
  by rewrite Hfg, IH.
Qed.

Lemma join_head (sep p : pystr) (ps : list pystr) (c : N) (t : pystr) :
  p = c :: t -> exists t', join sep (p :: ps) = c :: t'.
Proof. intros ->. destruct ps; simpl; by eexists. Qed.

Lemma comma_join_head (label : string) (xs : list pystr) (c : N) (t : pystr) :
  u8 label = c :: t ->
  comma_join label xs = [] /\ xs = []
  \/ exists t', comma_join label xs = [c :: t'] /\ xs <> [].
Proof.
  intros Hl. destruct xs as [|x xs]; [by left|]. right.
  unfold comma_join. rewrite Hl. by eexists.
Qed.

(** X18.  The target that [build_target] returns.  Its genders are those of
    the brief in their order, with [여] written [F] and [남] written [M];
    any other label is dropped.  It has one birth-year range for each age
    band, in the order of the bands, each the range of
    [_age_group_to_birth_year_range] for its band; so each has an upper
    bound, and a lower bound nine years below it when it has one.  The
    summary is the text for "no condition" exactly when all four
    selections are empty; channel and tone are stored as they were
    given. *)
Theorem build_target_shape (db db' : DB) (brief : Brief) (channel tone : pystr)
    (t : Target) :
  build_target DB show this_year db brief channel tone = (Ok t, db') ->
  gender_in (target_query t)
  = omap (fun g => if decide (g = u8 "여") then Some (u8 "F")
                   else if decide (g = u8 "남") then Some (u8 "M")
                   else None)
         (default [] (target_input brief ≫= gender))
  /\ Forall (fun g => g = u8 "F" \/ g = u8 "M") (gender_in (target_query t))
  /\ (length (gender_in (target_query t))
      <= length (default [] (target_input brief ≫= gender)))%nat
  /\ Forall2 (fun a r => _age_group_to_birth_year_range this_year a = Ok r)
       (default [] (target_input brief ≫= age_group))
       (birth_year_ranges (target_query t))
  /\ length (birth_year_ranges (target_query t)) = length (age_groups_of brief)
  /\ Forall (fun r => exists hi, r.2 = Some hi
                      /\ forall lo, r.1 = Some lo -> hi = (lo + 9)%Z)
            (birth_year_ranges (target_query t))
  /\ (summary t = u8 "타겟 조건 없음" <-> Forall (fun s => s = []) (selections brief))
  /\ t_channel t = channel /\ t_tone t = tone.
Proof.
  unfold build_target, list_field, age_groups_of, selections.
  set (ti := target_input brief).
  destruct (mapM _ _) as [ranges|e] eqn:Hm; [|by intros [=]].
  destruct (_detect_join_keys DB show db) as [[ukey fkey] db1].
  unfold _show_columns.
  destruct (show db1 (u8 "user_features")) as [rf db2].
  intros [= <- <-].
  cbn [target_query gender_in birth_year_ranges summary t_channel t_tone].
  apply mapM_Forall2 in Hm.
  split.
  { apply omap_ext_eq. intros g. unfold GENDER_DB, PyStr.eqb.
    destruct (decide (g = u8 "여")) as [->|Hf]; [done|].
    rewrite (bool_decide_eq_false_2 _ Hf).
    destruct (decide (g = u8 "남")) as [->|Hm']; [done|].
    by rewrite (bool_decide_eq_false_2 _ Hm'). }
  split.
  { apply Forall_forall. intros g Hg. apply list_elem_of_omap in Hg as (x & _ & Hx).
    unfold GENDER_DB in Hx.
    destruct (PyStr.eqb x _); [injection Hx as <-; by left|].
    destruct (PyStr.eqb x _); [injection Hx as <-; by right | done]. }
  split; [apply omap_length_le|].
  split; [exact Hm|].
  split; [symmetry; by eapply Forall2_length|].
  split.
  { clear -Hm. induction Hm as [|a r l l' Hr _ IH]; constructor; [|done].
    apply range_shape in Hr as (hi & H2 & Hlo). by exists hi. }
  split; [|done].
  set (g := default [] (ti ≫= gender)).
  set (ag := default [] (ti ≫= age_group)).
  set (st := default [] (ti ≫= skin_type)).
  set (sc := default [] (ti ≫= skin_concern)).
  destruct (comma_join_head "성별=" g 49457 (u8 "별=") eq_refl)
    as [[-> ->]|(t1 & -> & H1)].
  2:{ cbn [app]. destruct (join_head (u8 " / ") (49457 :: t1)
          (comma_join "나이대=" ag ++ comma_join "피부타입=" st
           ++ comma_join "피부고민=" sc) _ _ eq_refl) as [t' ->].
      split; [discriminate|]. intros Hall. apply Forall_cons in Hall as [? _]. done. }
  destruct (comma_join_head "나이대=" ag 45208 (u8 "이대=") eq_refl)
    as [[-> ->]|(t1 & -> & H1)].
  2:{ cbn [app]. destruct (join_head (u8 " / ") (45208 :: t1)
          (comma_join "피부타입=" st ++ comma_join "피부고민=" sc) _ _ eq_refl)
        as [t' ->].
      split; [discriminate|]. intros Hall.
      apply Forall_cons in Hall as [_ [? _]%Forall_cons]. done. }
  destruct (comma_join_head "피부타입=" st 54588 (u8 "부타입=") eq_refl)
    as [[-> ->]|(t1 & -> & H1)].
  2:{ cbn [app]. destruct (join_head (u8 " / ") (54588 :: t1)
          (comma_join "피부고민=" sc) _ _ eq_refl) as [t' ->].
      split; [discriminate|]. intros Hall.
      apply Forall_cons in Hall as [_ [_ [? _]%Forall_cons]%Forall_cons]. done. }
  destruct (comma_join_head "피부고민=" sc 54588 (u8 "부고민=") eq_refl)
    as [[-> ->]|(t1 & -> & H1)].
  2:{ cbn [app]. destruct (join_head (u8 " / ") (54588 :: t1) [] _ _ eq_refl)
        as [t' ->].
      split; [discriminate|]. intros Hall.
      apply Forall_cons in Hall
        as [_ [_ [_ [? _]%Forall_cons]%Forall_cons]%Forall_cons]. done. }
  cbn [app]. split; [by repeat constructor | done].
Qed.

End TargetingExtras.

Section RagFacts.

Import rag.

Variable Score : Type.
Variable zero : Score.
Variable fmt3 : Score -> pystr.

Abbreviation AMatch := (@Match Score).
Abbreviation AnEvidence := (@Evidence Score).
Abbreviation build_evidence := (_build_rag_evidence zero).
Abbreviation ev_step := (evidence_step zero).
Abbreviation ctx_step := (context_step zero fmt3).

Lemma fold_left_invariant {A B} (P : A -> Prop) (f : A -> B -> A)
    (l : list B) (a : A) :
  P a -> (forall a b, P a -> P (f a b)) -> P (fold_left f l a).
Proof.
  intros Ha Hstep. revert a Ha. induction l as [|b l IH]; intros a Ha; [done|].
  simpl. apply IH. by apply Hstep.
Qed.

Lemma evidence_step_cases (mes mtc : Z) (ps : gmap pystr Z)
    (ev : list AnEvidence) (m : AMatch) :
  ev_step mes mtc (ps, ev) m = (ps, ev)
  \/ exists e,
       ev_step mes mtc (ps, ev) m
       = (<[source_of m := (count_of ps (source_of m) + 1)%Z]> ps,
          ev ++ [e])
       /\ made_from zero mtc m e
       /\ (count_of ps (source_of m) < mes)%Z.
Proof.
  unfold evidence_step.
  destruct (text_of m) as [|c t] eqn:Ht; [by left|].
  destruct (count_of ps (source_of m) >=? mes)%Z eqn:Hc; [by left|].
  right. eexists. split; [reflexivity|]. split; [|lia].
  unfold made_from. cbn [e_id e_score e_source e_section e_chunk_id e_text].
  rewrite Ht. repeat (split; [done|]). unfold cut.
  destruct (len (c :: t) >? mtc)%Z eqn:Hl; [right | left]; split; (done || lia).
Qed.

Lemma evidence_fold (mes mtc : Z) (matches : list AMatch) (ps : gmap pystr Z)
    (ev : list AnEvidence) :
  exists kept new,
    (fold_left (ev_step mes mtc) matches (ps, ev)).2 = ev ++ new
    /\ sublist kept matches
    /\ Forall2 (made_from zero mtc) kept new.
Proof.
  revert ps ev. induction matches as [|m matches IH]; intros ps ev.
  - exists [], []. simpl. by rewrite app_nil_r.
  - cbn [fold_left].
    destruct (evidence_step_cases mes mtc ps ev m) as [->|(e & -> & He & _)].
    + destruct (IH ps ev) as (kept & new & Heq & Hsub & Hall).
      exists kept, new. split; [done|]. split; [by apply sublist_cons | done].
    + destruct (IH (<[source_of m :=
                       (count_of ps (source_of m) + 1)%Z]> ps) (ev ++ [e]))
        as (kept & new & Heq & Hsub & Hall).
      exists (m :: kept), (e :: new). rewrite Heq, <- app_assoc.
      split; [done|]. split; [by apply sublist_skip | by constructor].
Qed.

Lemma count_of_insert_eq (ps : gmap pystr Z) (s : pystr) (n : Z) :
  count_of (<[s := n]> ps) s = n.
Proof. unfold count_of. by rewrite lookup_insert_eq. Qed.

Lemma count_of_insert_ne (ps : gmap pystr Z) (s s' : pystr) (n : Z) :
  s <> s' -> count_of (<[s := n]> ps) s' = count_of ps s'.
Proof. intros Hne. unfold count_of. by rewrite lookup_insert_ne. Qed.

Lemma count_source_snoc (ev : list AnEvidence) (e : AnEvidence) (s : pystr) :
  length (filter (fun x => e_source x = s) (ev ++ [e]))
  = (length (filter (fun x => e_source x = s) ev)
     + (if decide (e_source e = s) then 1 else 0))%nat.
Proof.
  rewrite list.filter_app, length_app. f_equal.
  rewrite list.filter_cons, list.filter_nil. by destruct (decide _).
Qed.

Lemma cut_length (mtc : Z) (text stored : pystr) :
  (0 <= mtc)%Z -> cut mtc text stored -> (len stored <= mtc + 1)%Z.
Proof.
  intros Hm [[Hl ->]|[Hl ->]]; [lia|].
  unfold slice_to, len in *. destruct (0 <=? mtc)%Z eqn:H0; [|lia].
  rewrite length_app, length_take.
  change (length (u8 "…")) with 1%nat. lia.
Qed.

(** X19.  The evidence that [node_rag] stores.  It is made from a
    subsequence of the matches, in their order: identifier, score,
    source, section and chunk are those of the match, and the text is the
    stripped text of the match, cut to [max_text_chars] characters and an
    ellipsis when it is longer.  No source has more than
    [max_each_source] entries, and no stored text is empty.  With a limit
    that is not negative, no stored text has more than
    [max_text_chars + 1] characters. *)
Theorem rag_evidence_bounds (matches : list AMatch)
    (max_each_source max_text_chars : Z) :
  let evidence := build_evidence matches max_each_source max_text_chars in
  (exists kept, sublist kept matches
                /\ Forall2 (made_from zero max_text_chars) kept evidence)
  /\ (forall s, (Z.of_nat (length (filter (fun e => e_source e = s) evidence))
                 <= Z.max 0 max_each_source)%Z)
  /\ Forall (fun e => e_text e <> []) evidence
  /\ ((0 <= max_text_chars)%Z ->
      Forall (fun e => (len (e_text e) <= max_text_chars + 1)%Z) evidence).
Proof.
  intros evidence. subst evidence. unfold _build_rag_evidence.
  destruct (evidence_fold max_each_source max_text_chars matches ∅ [])
    as (kept & new & Heq & Hsub & Hall).
  cbn [app] in Heq.
  split; [exists kept; by rewrite Heq|].
  split.
  { set (P := fun st : gmap pystr Z * list AnEvidence =>
                forall s,
                  Z.of_nat (length (filter (fun e => e_source e = s) st.2))
                  = count_of st.1 s
                  /\ (count_of st.1 s <= Z.max 0 max_each_source)%Z).
    assert (HP : P (fold_left (ev_step max_each_source max_text_chars)
                      matches (∅, []))).
    { apply fold_left_invariant.
      - intros s. unfold count_of. cbn [fst snd]. rewrite lookup_empty.
        simpl. split; [done | lia].
      - intros [ps ev] m IH.
        destruct (evidence_step_cases max_each_source max_text_chars ps ev m)
          as [->|(e & -> & He & Hlt)]; [done|].
        intros s. destruct (IH s) as [Hcount Hle]. cbn [fst snd] in *.
        rewrite count_source_snoc.
        destruct He as (_ & _ & Hsrc & _).
        destruct (decide (e_source e = s)) as [Hs|Hs].
        + rewrite Hsrc in Hs. rewrite Hs in *. rewrite count_of_insert_eq.
          split; lia.
        + rewrite Hsrc in Hs. rewrite count_of_insert_ne by done.
          split; lia. }
    intros s. destruct (HP s) as [-> ?]. done. }
  rewrite Heq. clear Heq Hsub. split.
  - induction Hall as [|m e k n He _ IH]; constructor; [|done].
    destruct He as (_ & _ & _ & _ & _ & Hne & Hcut).
    destruct Hcut as [[_ ->]|[_ ->]]; [done|]. by destruct (slice_to _ _).
  - intros Hm. induction Hall as [|m e k n He _ IH]; constructor; [|done].
    destruct He as (_ & _ & _ & _ & _ & Hne & Hcut). by eapply cut_length.
Qed.

(** With a limit that is zero or negative nothing is stored. *)
Lemma no_evidence_without_quota (matches : list AMatch)
    (max_each_source max_text_chars : Z) :
  (max_each_source <= 0)%Z ->
  build_evidence matches max_each_source max_text_chars = [].
Proof.
  intros Hq. unfold _build_rag_evidence.
  assert (H : fold_left (ev_step max_each_source max_text_chars) matches (∅, [])
              = (∅, [])).
  { induction matches as [|m matches IH]; [done|]. cbn [fold_left].
    destruct (evidence_step_cases max_each_source max_text_chars ∅ [] m)
      as [->|(e & _ & _ & Hlt)]; [done|].
    unfold count_of in Hlt. rewrite lookup_empty in Hlt. simpl in Hlt. lia. }
  by rewrite H.
Qed.

(** X20.  The context text given to the template agent and the evidence stored
    in the handoff select the same matches, when they use the same limit
    for each source: there is one block for each entry, in the same order,
    with the source, section, chunk and score of the entry in its header;
    the block has the whole text, which the entry may have cut. *)
Theorem context_matches_evidence (matches : list AMatch)
    (max_each max_text_chars : Z) :
  Forall2 (block_of fmt3 max_text_chars)
    (build_evidence matches max_each max_text_chars)
    (context_blocks zero fmt3 matches max_each)
  /\ build_context_text zero fmt3 matches max_each
     = join [10; 10] (context_blocks zero fmt3 matches max_each).
Proof.
  split; [|done]. unfold _build_rag_evidence, context_blocks.
  assert (H : forall ps ev bl,
    Forall2 (block_of fmt3 max_text_chars) ev bl ->
    (fold_left (ev_step max_each max_text_chars) matches (ps, ev)).1
    = (fold_left (ctx_step max_each) matches (ps, bl)).1
    /\ Forall2 (block_of fmt3 max_text_chars)
         (fold_left (ev_step max_each max_text_chars) matches (ps, ev)).2
         (fold_left (ctx_step max_each) matches (ps, bl)).2).
  { induction matches as [|m matches IH]; intros ps ev bl Hall; [done|].
    cbn [fold_left].
    destruct (evidence_step_cases max_each max_text_chars ps ev m)
      as [Hskip|(e & He & Hmade & Hlt)].
    - rewrite Hskip.
      assert (Hctx : ctx_step max_each (ps, bl) m = (ps, bl)).
      { revert Hskip. unfold evidence_step, context_step.
        destruct (text_of m) as [|c t]; [done|].
        destruct (count_of ps (source_of m) >=? max_each)%Z; [done|].
        intros [= Hps Hev]. apply (f_equal (@length _)) in Hev.
        rewrite length_app in Hev. simpl in Hev. lia. }
      rewrite Hctx. by apply IH.
    - rewrite He.
      destruct Hmade as (_ & Hsc & Hsrc & Hsec & Hch & Hne & Hcut).
      assert (Hctx : exists blk,
                ctx_step max_each (ps, bl) m
                = (<[source_of m := (count_of ps (source_of m) + 1)%Z]> ps,
                   bl ++ [blk])
                /\ block_of fmt3 max_text_chars e blk).
      { unfold context_step.
        destruct (text_of m) as [|c t] eqn:Ht; [done|].
        assert (Hge : (count_of ps (source_of m) >=? max_each)%Z = false)
          by lia.
        rewrite Hge. eexists. split; [reflexivity|].
        exists (c :: t). rewrite Hsc, Hsrc, Hsec, Hch. split; [|done].
        by rewrite <- !app_assoc. }
      destruct Hctx as (blk & -> & Hblk). apply IH.
      apply Forall2_app; [done | by constructor]. }
  by apply (H ∅ [] []).
Qed.

End RagFacts.

Section PreviewFacts.

Import repo.

Lemma band_range_known (current_year : Z) (b : pystr) (lo hi : Z) :
  band_range current_year b = Some (lo, hi) ->
  strip b ∈ preview_labels
  /\ ((lo = 1900 /\ hi = current_year - 50)
      \/ (hi = lo + 9 /\ exists B, B ∈ [10; 20; 30; 40] /\ hi = current_year - B))%Z.
Proof.
  unfold band_range, PyStr.eqb, mem.
  assert (Hten : forall B : Z,
            B ∈ [10; 20; 30; 40]%Z ->
            (current_year - B = current_year - (B + 9) + 9)%Z
            /\ exists B', B' ∈ [10; 20; 30; 40]%Z
                          /\ (current_year - B = current_year - B')%Z).
  { intros B HB. split; [lia | by exists B]. }
  repeat case_bool_decide; intros [= <- <-];
    (split;
     [ match goal with
       | H : strip b = _ |- _ => rewrite H; by_decide
       | H : strip b ∈ _ |- _ =>
           repeat (apply elem_of_cons in H as [->|H]; [by_decide|]);
           by apply elem_of_nil in H
       end |]).
  - right. apply (Hten 10%Z). by_decide.
  - right. apply (Hten 20%Z). by_decide.
  - right. apply (Hten 30%Z). by_decide.
  - right. apply (Hten 40%Z). by_decide.
  - by left.
Qed.

(** X21.  The age filter of the audience preview.  A birth year passes when no
    band of the selection is in the table, or when it lies in the range of
    a band that is: so a selection of unknown bands only, such as ["60대"],
    filters nothing.  A range of the table is the ten years of its band,
    or starts at 1900. *)
Theorem preview_age_filter (current_year : Z) (age_bands : list pystr)
    (birth_year : Z) :
  (birth_year_clause (band_ranges current_year age_bands) birth_year = true <->
   (forall b, b ∈ age_bands -> band_range current_year b = None)
   \/ exists b lo hi,
        b ∈ age_bands /\ band_range current_year b = Some (lo, hi)
        /\ (lo <= birth_year <= hi)%Z)
  /\ (forall b lo hi,
        band_range current_year b = Some (lo, hi) ->
        strip b ∈ preview_labels
        /\ ((lo = 1900 /\ hi = current_year - 50)
            \/ (hi = lo + 9
                /\ exists B, B ∈ [10; 20; 30; 40] /\ hi = current_year - B))%Z).
Proof.
  split; [|intros b lo hi; apply band_range_known].
  unfold birth_year_clause, band_ranges.
  destruct (omap (band_range current_year) age_bands) as [|r rs] eqn:Hr.
  - split; [|done]. intros _. left. intros b Hb.
    destruct (band_range current_year b) as [p|] eqn:Hp; [|done].
    assert (p ∈ omap (band_range current_year) age_bands)
      by (apply list_elem_of_omap; by exists b).
    rewrite Hr in H. by apply elem_of_nil in H.
  - rewrite <- Hr. rewrite existsb_exists. split.
    + intros ([lo hi] & Hin & Hb). right.
      apply list_elem_of_In, list_elem_of_omap in Hin as (b & Hb' & Hrange).
      exists b, lo, hi. split; [done|]. split; [done|]. lia.
    + intros [Hnone|(b & lo & hi & Hb & Hrange & Hin)].
      * exfalso. assert (Hin : r ∈ omap (band_range current_year) age_bands)
          by (rewrite Hr; apply elem_of_cons; by left).
        apply list_elem_of_omap in Hin as (b & Hb & Hrange).
        by rewrite (Hnone b Hb) in Hrange.
      * exists (lo, hi). split; [|lia].
        apply list_elem_of_In, list_elem_of_omap. by exists b.
Qed.

End PreviewFacts.

(** ** Channel, tone and brief of an invocation: flow/workflow.py *)

Section ChannelOfRun.

Import workflow.

Context {BriefT TargetT RagT : Type}.
Variable brief_of_goal : option pystr -> BriefT.
Variable empty_brief : BriefT.
Variable build_target : BriefT -> pystr -> pystr -> result TargetT.
Variable rag_stage : BriefT -> option TargetT -> pystr -> pystr -> result RagT.
Variable rag_context : option RagT -> pystr.
Variable generate_template_candidates
  : option (BriefT -> pystr -> pystr -> pystr -> result Batch).
Variable generate_final_message
  : option (BriefT -> Candidate -> pystr -> result Exec).
Variable inline_format : BriefT -> pystr -> result pystr.

Abbreviation State := (@CRMState BriefT TargetT RagT).
Abbreviation DBase := (@World BriefT TargetT RagT).
Abbreviation graph :=
  (GRAPH brief_of_goal empty_brief build_target rag_stage rag_context
     generate_template_candidates generate_final_message inline_format).

Lemma str_or_nonempty (a : option pystr) (b : pystr) : b <> [] -> str_or a b <> [].
Proof. intros Hb. unfold str_or. destruct a as [[|c s]|]; done. Qed.

Lemma str_or_Some (s b : pystr) : s <> [] -> str_or (Some s) b = s.
Proof. intros Hs. unfold str_or. by destruct s. Qed.

Lemma update_run_keeps (rid rid' : pystr) (step cand text : option pystr)
    (w : DBase) (r : Run) :
  runs w !! rid = Some r ->
  exists r', runs (update_run rid' None step cand text w) !! rid = Some r'
             /\ r_channel r' = r_channel r
             /\ r_campaign_goal r' = r_campaign_goal r.
Proof.
  intros Hr. unfold update_run. cbn [runs].
  destruct (decide (rid' = rid)) as [->|Hne].
  - rewrite lookup_alter_eq, Hr. cbn [fmap option_fmap option_map]. by eexists.
  - rewrite lookup_alter_ne by done. by eexists.
Qed.

Lemma late_node (n : Node) (rid : pystr) (st : State) (w : DBase) :
  n <> stage_load_brief -> n <> stage_target ->
  match node_fn graph n st w with
  | (Raise _, w') => w' = w
  | (Ok st', w') =>
      s_channel st' = s_channel st /\ s_tone st' = s_tone st
      /\ s_brief st' = s_brief st /\ run_id st' = run_id st
      /\ (exists h, handoffs w' = handoffs w ++ [h])
      /\ forall r, runs w !! rid = Some r ->
           exists r', runs w' !! rid = Some r'
                      /\ r_channel r' = r_channel r
                      /\ r_campaign_goal r' = r_campaign_goal r
  end.
Proof.
  intros H1 H2. destruct n; try done; cbn [node_fn GRAPH build_graph].
  - unfold node_rag. destruct (rag_stage _ _ _ _) as [t|e]; [|done].
    repeat (split; [done|]). split; [by eexists|].
    intros r Hr. by apply update_run_keeps.
  - unfold node_candidates.
    destruct (match generate_template_candidates with
              | Some g => _
              | None => _
              end) as [b|e]; [|done].
    repeat (split; [done|]). split; [by eexists|].
    intros r Hr. by apply update_run_keeps.
  - unfold node_compliance.
    repeat (split; [done|]). split; [by eexists|].
    intros r Hr. by apply update_run_keeps.
  - unfold node_execute.
    destruct (match selected_in_state st with
              | Some c => Some c
              | None => get_latest_selected w (run_id st)
              end) as [sel|]; [|done].
    destruct (match generate_final_message with
              | Some g => _
              | None => _
              end) as [res|e]; [|done].
    repeat (split; [done|]). split; [by eexists|].
    intros r Hr. by apply update_run_keeps.
Qed.

Lemma late_run (fuel : nat) (n : Node) (rid : pystr) (st : State) (w : DBase)
    (seen : list Node) (r : Run) :
  n <> stage_load_brief -> n <> stage_target ->
  runs w !! rid = Some r ->
  let out := run_from graph fuel n st w seen in
  (exists more, handoffs (world out) = handoffs w ++ more)
  /\ (exists r', runs (world out) !! rid = Some r'
                 /\ r_channel r' = r_channel r
                 /\ r_campaign_goal r' = r_campaign_goal r)
  /\ forall st', returned out = Ok st' ->
       s_channel st' = s_channel st /\ s_tone st' = s_tone st
       /\ s_brief st' = s_brief st.
Proof.
  revert n st w seen r. induction fuel as [|fuel IH]; intros n st w seen r H1 H2 Hr.
  - cbn. split; [exists []; by rewrite app_nil_r|]. split; [by exists r | done].
  - cbv zeta. rewrite run_from_step.
    pose proof (late_node n rid st w H1 H2) as Hn.
    destruct (node_fn graph n st w) as [[st1|e] w1].
    2:{ subst w1. cbn [world returned].
        split; [exists []; by rewrite app_nil_r|]. split; [by exists r | done]. }
    destruct Hn as (Kc & Kt & Kb & _ & [h Hh] & Kr).
    destruct (Kr r Hr) as (r1 & Hr1 & Kc1 & Kg1).
    assert (Hend : (exists more, handoffs w1 = handoffs w ++ more)
              /\ (exists r', runs w1 !! rid = Some r'
                             /\ r_channel r' = r_channel r
                             /\ r_campaign_goal r' = r_campaign_goal r)
              /\ forall st', Ok st1 = Ok st' ->
                   s_channel st' = s_channel st /\ s_tone st' = s_tone st
                   /\ s_brief st' = s_brief st).
    { split; [by exists [h]|]. split; [by exists r1|]. by intros st' [= <-]. }
    assert (Hgo : forall m, m <> stage_load_brief -> m <> stage_target ->
              (exists more,
                 handoffs (world (run_from graph fuel m st1 w1 (seen ++ [n])))
                 = handoffs w ++ more)
              /\ (exists r',
                    runs (world (run_from graph fuel m st1 w1 (seen ++ [n]))) !! rid
                    = Some r'
                    /\ r_channel r' = r_channel r
                    /\ r_campaign_goal r' = r_campaign_goal r)
              /\ forall st',
                   returned (run_from graph fuel m st1 w1 (seen ++ [n])) = Ok st' ->
                   s_channel st' = s_channel st /\ s_tone st' = s_tone st
                   /\ s_brief st' = s_brief st).
    { intros m Hm1 Hm2.
      destruct (IH m st1 w1 (seen ++ [n]) r1 Hm1 Hm2 Hr1)
        as ([more Hmore] & (r' & Hr' & Hc' & Hg') & Hst).
      split; [exists (h :: more); by rewrite Hmore, Hh, <- app_assoc|].
      split; [exists r'; split; [done|]; split; congruence|].
      intros st' Hret. destruct (Hst st' Hret) as (? & ? & ?).
      split; [congruence|]. split; congruence. }
    destruct n; try done; cbn [next GRAPH build_graph];
      try (by apply Hgo); try exact Hend.
    unfold route_after_compliance.
    destruct (selected_in_state st1); [by apply Hgo | exact Hend].
Qed.

(** X22.  The channel, the tone and the brief of an invocation are fixed at
    LOAD_BRIEF: the channel is that of the state if it has one, else that
    of the run, else PUSH; the tone is that of the state or amoremall; the
    brief is the latest BRIEF handoff of the run or, without one, the goal
    of the run.  [build_target] is called with exactly these: if it raises,
    the invocation raises at TARGET and has written nothing; if it
    returns, its target is the first handoff appended and the channel of
    the run is overwritten with the normalized channel of the invocation,
    whatever happens afterwards.  The goal of the run is never changed. *)
Theorem invoke_channel (st : State) (w : DBase) (r : Run) :
  runs w !! run_id st = Some r ->
  let ch := str_or (s_channel st) (str_or (r_channel r) (u8 "PUSH")) in
  let tn := str_or (s_tone st) (u8 "amoremall") in
  let brief := match get_latest_brief w (run_id st) with
               | Some b => b
               | None => brief_of_goal (r_campaign_goal r)
               end in
  let out := invoke graph st w in
  ch <> [] /\ tn <> []
  /\ (forall e, build_target brief ch tn = Raise e ->
        returned out = Raise e /\ world out = w
        /\ trace out = [stage_load_brief; stage_target])
  /\ (forall t, build_target brief ch tn = Ok t ->
        (exists more,
           handoffs (world out) = handoffs w ++ H_TARGET (run_id st) t :: more)
        /\ (exists r', runs (world out) !! run_id st = Some r'
                       /\ r_channel r' = Some (repo._upper_channel ch)
                       /\ r_campaign_goal r' = r_campaign_goal r)
        /\ forall st', returned out = Ok st' ->
             s_channel st' = Some ch /\ s_tone st' = Some tn
             /\ s_brief st' = Some brief).
Proof.
  intros Hr ch tn brief out.
  assert (Hch : ch <> []) by (apply str_or_nonempty; by apply str_or_nonempty).
  assert (Htn : tn <> []) by (by apply str_or_nonempty).
  split; [done|]. split; [done|].
  subst out. unfold invoke, recursion_limit.
  change (entry_point graph) with stage_load_brief.
  rewrite run_from_step. cbn [node_fn GRAPH build_graph].
  unfold node_load_brief, get_run. rewrite Hr. fold ch tn brief.
  cbn [next GRAPH build_graph]. rewrite run_from_step.
  cbn [node_fn GRAPH build_graph].
  unfold node_targeting.
  cbn [s_brief s_channel s_tone s_target s_rag s_candidates s_compliance
       selected_template execution_result run_id].
  rewrite (str_or_Some ch _ Hch), (str_or_Some tn _ Htn).
  change (default empty_brief (Some brief)) with brief.
  destruct (build_target brief ch tn) as [t|e].
  2:{ split; [by intros e' [= <-] | done]. }
  split; [done|]. intros t' [= <-]. cbn [next GRAPH build_graph].
  match goal with
  | |- context [run_from _ _ stage_rag ?s ?w' ?l] =>
      set (st2 := s); set (w2 := w'); set (seen := l)
  end.
  assert (Hr2 : exists r2, runs w2 !! run_id st = Some r2
                  /\ r_channel r2 = Some (repo._upper_channel ch)
                  /\ r_campaign_goal r2 = r_campaign_goal r).
  { subst w2. unfold update_run. cbn [runs create_handoff].
    rewrite lookup_alter_eq, Hr. cbn [fmap option_fmap option_map]. by eexists. }
  destruct Hr2 as (r2 & Hr2 & Hc2 & Hg2).
  destruct (late_run 23 stage_rag (run_id st) st2 w2 seen r2)
    as ([more Hmore] & (r' & Hr' & Hc' & Hg') & Hst); try done.
  split.
  { exists more. rewrite Hmore. subst w2.
    cbn [handoffs update_run create_handoff]. by rewrite <- app_assoc. }
  split; [exists r'; split; [done|]; split; congruence|].
  intros st' Hret. by apply Hst.
Qed.

End ChannelOfRun.

(** ** The properties above, on concrete inputs *)

(** A state whose run is not in the database. *)
Lemma unknown_run_is_fatal_witness :
  let out :=
    workflow.invoke
      (workflow.GRAPH FlowSamples.brief_of_goal tt FlowSamples.build_target
         FlowSamples.rag_stage FlowSamples.rag_context None
         (Some FlowSamples.generate_final_message) FlowSamples.inline_format)
      MessageSamples.stray_state FlowSamples.fresh in
  workflow.trace out = [stage_load_brief] /\ workflow.world out = FlowSamples.fresh.
Proof.
  intros out.
  destruct (unknown_run_is_fatal FlowSamples.brief_of_goal tt FlowSamples.build_target
              FlowSamples.rag_stage FlowSamples.rag_context None
              (Some FlowSamples.generate_final_message) FlowSamples.inline_format
              MessageSamples.stray_state FlowSamples.fresh)
    as (_ & Ht & Hw); [vm_compute; reflexivity|].
  split; [exact Ht | exact Hw].
Defined.

(** The LLM answers with two candidates and four were asked for: the
    first body had no placeholder, and gets the five of SMS. *)
Lemma llm_batch_shape_witness :
  match template_agent.generate_template_candidates Samples.no_tone_guide
          Samples.normalize_empty MessageSamples.llm_two Samples.year_end_brief
          (u8 "SMS") (u8 "amoremall") [] 4 with
  | Ok b =>
      length (candidates b) = 2%nat /\ NoDup (template_id <$> candidates b)
      /\ forall c, candidates b !! 0%nat = Some c ->
           template_id c = Some (u8 "T001")
           /\ body_with_slots c
              = Some (join [10] [u8 "연말 혜택 안내"; u8 "{customer_name}";
                                 u8 "{product_name}"; u8 "{offer}"; u8 "{cta}";
                                 u8 "{unsubscribe}"])
  | Raise _ => False
  end.
Proof.
  destruct (template_agent.generate_template_candidates _ _ _ _ _ _ _ _)
    as [b|e] eqn:Hgen; [|vm_compute in Hgen; discriminate Hgen].
  destruct (llm_batch_shape Samples.no_tone_guide Samples.normalize_empty
              MessageSamples.llm_two Samples.year_end_brief (u8 "SMS")
              (u8 "amoremall") [] 4 MessageSamples.two_candidates
              MessageSamples.cand_a [MessageSamples.cand_b] b
              (fun p => eq_refl) eq_refl Hgen) as (Hlen & Hnd & Hall).
  split; [exact Hlen|]. split; [exact Hnd|].
  intros c Hc.
  destruct (Hall 0%nat c Hc)
    as (items & nt & d & Hit & Htid & _ & _ & _ & _ & _ & Hb & _).
  injection Hit as <-. split; [exact Htid|].
  destruct Hb as [_ Hb]. rewrite Hb. vm_compute. reflexivity.
Defined.

(** The same answer, seen by the validator: the first candidate had no
    placeholder at all and still has no missing slot. *)
Lemma llm_path_passes_slot_rule_witness :
  match template_agent.generate_template_candidates Samples.no_tone_guide
          Samples.normalize_empty MessageSamples.llm_two Samples.year_end_brief
          (u8 "SMS") (u8 "amoremall") [] 4 with
  | Ok b => Forall (fun c => compilance.missing_of c = []) (candidates b)
  | Raise _ => False
  end.
Proof.
  destruct (template_agent.generate_template_candidates _ _ _ _ _ _ _ _)
    as [b|e] eqn:Hgen; [|vm_compute in Hgen; discriminate Hgen].
  eapply Forall_impl;
    [exact (llm_path_passes_slot_rule Samples.no_tone_guide Samples.normalize_empty
              MessageSamples.llm_two Samples.year_end_brief (u8 "SMS")
              (u8 "amoremall") [] 4 MessageSamples.two_candidates
              MessageSamples.cand_a [MessageSamples.cand_b] b
              (fun p => eq_refl) eq_refl Hgen)|].
  intros c Hc. exact (proj1 Hc).
Defined.

(** The LLM is down and no candidate at all was asked for: one comes
    back. *)
Lemma generate_never_empty_witness :
  match template_agent.generate_template_candidates Samples.no_tone_guide
          Samples.normalize_empty Samples.llm_down Samples.year_end_brief
          (u8 "SMS") (u8 "amoremall") [] 0 with
  | Ok b => (1 <= length (candidates b) <= 1)%nat
  | Raise _ => False
  end.
Proof.
  destruct (template_agent.generate_template_candidates _ _ _ _ _ _ _ _)
    as [b|e] eqn:Hgen; [|vm_compute in Hgen; discriminate Hgen].
  exact (generate_never_empty Samples.no_tone_guide Samples.normalize_empty
           Samples.llm_down Samples.year_end_brief (u8 "SMS") (u8 "amoremall")
           [] 0 b Hgen).
Defined.

(** The brief of a run without a goal, and an LLM that would answer. *)
Lemma non_text_brief_raises_witness :
  template_agent.generate_template_candidates Samples.no_tone_guide
    Samples.normalize_empty MessageSamples.llm_two Samples.no_goal_brief
    (u8 "SMS") (u8 "amoremall") [] 4
  = Raise AttributeError.
Proof.
  apply (non_text_brief_raises Samples.no_tone_guide Samples.normalize_empty
           MessageSamples.llm_two Samples.no_goal_brief (u8 "SMS")
           (u8 "amoremall") [] 4).
  right. left. intros [[t|] Ht]; discriminate Ht.
Defined.

(** A greeting without placeholders, and two names to add. *)
Lemma repair_adds_missing_witness :
  SlotPattern.findall
    (template_agent.repair (u8 "안녕하세요") [u8 "offer"; u8 "cta"])
  = [u8 "offer"; u8 "cta"].
Proof.
  refine (proj1 (repair_adds_missing (u8 "안녕하세요") [u8 "offer"; u8 "cta"] _)).
  repeat constructor; vm_compute; repeat constructor; discriminate.
Defined.

(** The LLM is down: the candidates are the canned templates. *)
Lemma generate_cases_witness :
  match template_agent.generate_template_candidates Samples.no_tone_guide
          Samples.normalize_empty Samples.llm_down Samples.year_end_brief
          (u8 "SMS") (u8 "amoremall") [] 4 with
  | Ok b =>
      exists req,
        template_agent.REQUIRED_SLOTS_BY_CHANNEL
          (template_agent._normalize_channel (u8 "SMS")) = Ok req
        /\ ((exists tone_id n,
               candidates b
               = firstn n (template_agent.canned
                             (template_agent._normalize_channel (u8 "SMS"))
                             tone_id req)
               /\ (1 <= n <= 4)%nat)
            \/ Forall (fun c =>
                         compilance.required_of c = req
                         /\ template_agent._validate_candidate_body
                              (compilance.body_of c) req = [])
                      (candidates b))
  | Raise _ => False
  end.
Proof.
  destruct (template_agent.generate_template_candidates _ _ _ _ _ _ _ _)
    as [b|e] eqn:Hgen; [|vm_compute in Hgen; discriminate Hgen].
  exact (generate_cases Samples.no_tone_guide Samples.normalize_empty
           Samples.llm_down Samples.year_end_brief (u8 "SMS") (u8 "amoremall")
           [] 4 b Hgen).
Defined.

(** The template a marketer picked has [{offer}] and no defaults. *)
Lemma final_message_at_slot_witness :
  exists pre post,
    fm_final_message
      (final_message.generate_final_message MessageSamples.plain_str AMORE10
         (u8 "2026-11-10") MessageSamples.cushion_brief FlowSamples.picked [])
    = pre ++ u8 "{offer}" ++ post.
Proof.
  refine (proj1 (final_message_at_slot MessageSamples.plain_str AMORE10
                   (u8 "2026-11-10") MessageSamples.cushion_brief FlowSamples.picked
                   [] (u8 "offer") (fun s => eq_refl) _) _).
  - apply (bool_decide_unpack _). vm_compute. exact I.
  - vm_compute. reflexivity.
Defined.

(** Every candidate of the two the LLM gave has [{offer}] in its body. *)
Lemma offer_stays_open_witness :
  match template_agent.generate_template_candidates Samples.no_tone_guide
          Samples.normalize_empty MessageSamples.llm_two Samples.year_end_brief
          (u8 "SMS") (u8 "amoremall") [] 4 with
  | Ok b =>
      Forall (fun c => u8 "offer" ∈ SlotPattern.findall (compilance.body_of c))
             (candidates b)
  | Raise _ => False
  end.
Proof.
  destruct (template_agent.generate_template_candidates _ _ _ _ _ _ _ _)
    as [b|e] eqn:Hgen; [|vm_compute in Hgen; discriminate Hgen].
  apply Forall_forall. intros c Hc.
  exact (proj1 (offer_stays_open Samples.no_tone_guide Samples.normalize_empty
                  MessageSamples.llm_two MessageSamples.plain_str
                  Samples.year_end_brief (u8 "SMS") (u8 "amoremall") [] 4 b c
                  AMORE10 (u8 "2026-11-10") MessageSamples.cushion_brief []
                  Hgen Hc)).
Defined.

(** The canned SMS templates of amoremall: the call to action of each
    becomes the campaign link. *)
Lemma fallback_final_message_witness :
  Forall (fun c =>
            fm_slot_values
              (final_message.generate_final_message MessageSamples.plain_str
                 AMORE10 (u8 "2026-11-10") MessageSamples.cushion_brief c [])
            !! u8 "cta" = Some (JStr final_message.campaign_link))
         (template_agent.canned (u8 "SMS") (u8 "amoremall") []).
Proof.
  apply Forall_forall. intros c Hc.
  refine (proj1 (fallback_final_message MessageSamples.plain_str (u8 "SMS")
                   (u8 "amoremall") [] c AMORE10 (u8 "2026-11-10")
                   MessageSamples.cushion_brief [] (fun s => eq_refl) _ Hc)).
  apply (bool_decide_unpack _). vm_compute. exact I.
Defined.

(** The band ["전체"] ("all") is no age band. *)
Lemma malformed_label_raises_witness :
  targeting.build_target unit TargetSamples.show_fails 2026 tt
    (TargetSamples.brief_of [u8 "20대"; u8 "전체"]) (u8 "SMS") (u8 "amoremall")
  = (Raise ValueError, tt).
Proof.
  refine (malformed_label_raises unit TargetSamples.show_fails 2026 tt
            (TargetSamples.brief_of [u8 "20대"; u8 "전체"]) (u8 "SMS")
            (u8 "amoremall") (u8 "전체") _ _).
  - apply (bool_decide_unpack _). vm_compute. exact I.
  - repeat constructor; vm_compute; discriminate.
Defined.

(** A brief for women and men in their twenties or over fifty, with a
    gender label the table does not know. *)
Lemma build_target_shape_witness :
  let brief :=
    {| campaign_text := None; goal := None; campaign_goal := None;
       target_input :=
         Some {| gender := Some [u8 "여"; u8 "기타"; u8 "남"];
                 age_group := Some [u8 "20대"; u8 "50대+"];
                 skin_type := None; skin_concern := None |} |} in
  match targeting.build_target unit TargetSamples.show_fails 2026 tt brief
          (u8 "SMS") (u8 "amoremall") with
  | (Ok t, _) =>
      gender_in (target_query t) = [u8 "F"; u8 "M"]
      /\ length (birth_year_ranges (target_query t)) = 2%nat
  | (Raise _, _) => False
  end.
Proof.
  intros brief.
  destruct (targeting.build_target _ _ _ _ _ _ _) as [[t|e] db'] eqn:Hb;
    [|vm_compute in Hb; discriminate Hb].
  destruct (build_target_shape unit TargetSamples.show_fails 2026 tt db'
              brief (u8 "SMS") (u8 "amoremall") t Hb)
    as (Hg & _ & _ & _ & Hl & _).
  split; [rewrite Hg; vm_compute; reflexivity | exact Hl].
Defined.

(** Three matches of one document, one of them without text. *)
Lemma rag_evidence_bounds_witness :
  let evidence := rag._build_rag_evidence 0%Z RagSamples.three_matches 3 800 in
  Forall (fun e => rag.e_text e <> []) evidence
  /\ Forall (fun e => (len (rag.e_text e) <= 800 + 1)%Z) evidence.
Proof.
  intros evidence.
  destruct (rag_evidence_bounds Z 0%Z RagSamples.three_matches 3 800)
    as (_ & _ & Hne & Hlen).
  split; [exact Hne | apply Hlen; discriminate].
Defined.

(** The run is an SMS run and the invocation asks for email. *)
Lemma invoke_channel_witness :
  let out :=
    workflow.invoke
      (workflow.GRAPH FlowSamples.brief_of_goal tt FlowSamples.build_target
         FlowSamples.rag_stage FlowSamples.rag_context None
         (Some FlowSamples.generate_final_message) FlowSamples.inline_format)
      (workflow.init FlowSamples.rid (Some (u8 "email")) None None)
      FlowSamples.fresh in
  exists r', workflow.runs (workflow.world out) !! FlowSamples.rid = Some r'
             /\ r_channel r' = Some (u8 "EMAIL").
Proof.
  intros out.
  destruct (invoke_channel FlowSamples.brief_of_goal tt FlowSamples.build_target
              FlowSamples.rag_stage FlowSamples.rag_context None
              (Some FlowSamples.generate_final_message) FlowSamples.inline_format
              (workflow.init FlowSamples.rid (Some (u8 "email")) None None)
              FlowSamples.fresh FlowSamples.a_run)
    as (_ & _ & _ & H); [vm_compute; reflexivity|].
  destruct (H tt eq_refl) as (_ & (r' & Hr' & Hc & _) & _).
  exists r'. split; [exact Hr'|]. rewrite Hc. vm_compute. reflexivity.
Defined.
